(** * The orchestration core of [SimpleAgent] (src/backend/simple_agent.py)

    A shallow embedding of the command safety gate, the bounded chat
    history, the pending-command state machine, the plan executor and the
    request entry point of [SimpleAgent], with the properties the
    specification states about them.

    Python values are modelled as follows.
    - A [str] is the list of its Unicode code points ([pystr]); indices
      and slices therefore count code points, as in Python.
    - The values [json.loads] can produce are the inductive type [pyval].
    - A [dict] is an association list without repeated keys, in
      insertion order ([dict_get], [dict_set]).
    - An attribute that holds [None] or a value is an [option].
    - Methods that touch the object and the outside world are functions
      of an explicit state (the agent's fields and the world) in a small
      exception-and-state monad; a raised Python [Exception] keeps the
      state changes made before it. *)

From Stdlib Require Import List ZArith NArith Bool Lia String Ascii.
Import ListNotations.

Set Implicit Arguments.
Set Warnings "-register-all".

(* ================================================================== *)
(** ** Python strings *)

Definition pystr := list N.

(** String literals of the source are written [py "..."]: the UTF-8
    bytes of the Rocq literal are decoded into code points. *)
Fixpoint utf8_decode (bs : list N) : pystr :=
  match bs with
  | [] => []
  | b0 :: r0 =>
    if (b0 <? 128)%N then b0 :: utf8_decode r0
    else match r0 with
    | [] => []
    | b1 :: r1 =>
      if (b0 <? 224)%N then
        ((b0 mod 32) * 64 + b1 mod 64)%N :: utf8_decode r1
      else match r1 with
      | [] => []
      | b2 :: r2 =>
        if (b0 <? 240)%N then
          ((b0 mod 16) * 4096 + (b1 mod 64) * 64 + b2 mod 64)%N
            :: utf8_decode r2
        else match r2 with
        | [] => []
        | b3 :: r3 =>
          ((b0 mod 8) * 262144 + (b1 mod 64) * 4096
             + (b2 mod 64) * 64 + b3 mod 64)%N :: utf8_decode r3
        end
      end
    end
  end.

Definition py (s : string) : pystr :=
  utf8_decode (map N_of_ascii (list_ascii_of_string s)).

(** A literal in which the source has double quotes: it is written with
    a backquote in the place of each double quote. *)
Definition pyq (s : string) : pystr :=
  map (fun c => if (c =? 96)%N then 34%N else c) (py s).

Fixpoint str_eqb (a b : pystr) : bool :=
  match a, b with
  | [], [] => true
  | x :: a', y :: b' => (x =? y)%N && str_eqb a' b'
  | _, _ => false
  end.

(** [s in (a, b, ...)] for a tuple of strings. *)
Definition str_in (s : pystr) (l : list pystr) : bool :=
  existsb (str_eqb s) l.

(** [s.startswith(p)] *)
Fixpoint startswith (s p : pystr) {struct p} : bool :=
  match p with
  | [] => true
  | c :: p' =>
    match s with
    | [] => false
    | d :: s' => (d =? c)%N && startswith s' p'
    end
  end.

(** The characters [str.strip()] removes: those for which
    [str.isspace] holds. *)
Definition is_space (c : N) : bool :=
  ((9 <=? c) && (c <=? 13) || (28 <=? c) && (c <=? 32)
   || (c =? 133) || (c =? 160) || (c =? 5760)
   || (8192 <=? c) && (c <=? 8202)
   || (c =? 8232) || (c =? 8233) || (c =? 8239) || (c =? 8287)
   || (c =? 12288))%N.

Fixpoint lstrip (s : pystr) : pystr :=
  match s with
  | [] => []
  | c :: s' => if is_space c then lstrip s' else s
  end.

Definition rstrip (s : pystr) : pystr := rev (lstrip (rev s)).

(** [s.strip()] *)
Definition py_strip (s : pystr) : pystr := rstrip (lstrip s).

(** [s.strip(ch)] for a one-character argument. *)
Fixpoint lstrip_char (ch : N) (s : pystr) : pystr :=
  match s with
  | [] => []
  | c :: s' => if (c =? ch)%N then lstrip_char ch s' else s
  end.

Definition strip_char (ch : N) (s : pystr) : pystr :=
  rev (lstrip_char ch (rev (lstrip_char ch s))).

(** [x or ""] for an argument that is [None] or a string. *)
Definition or_empty (x : option pystr) : pystr :=
  match x with
  | Some s => s
  | None => []
  end.

(** Truth value of a string: [not s] is [is_empty s]. *)
Definition is_empty (s : pystr) : bool :=
  match s with
  | [] => true
  | _ => false
  end.

(** Lower-casing of the ASCII letters; [str.lower] coincides with it on
    ASCII text. *)
Definition ascii_lower_char (c : N) : N :=
  if ((65 <=? c) && (c <=? 90))%N then (c + 32)%N else c.

Definition is_ascii (s : pystr) : bool := forallb (fun c => (c <? 128)%N) s.

(** [l[i:]] for a Python list or string and any integer [i]. *)
Definition slice_from {A : Type} (i : Z) (l : list A) : list A :=
  let n := Z.of_nat (List.length l) in
  if (i <? 0)%Z then skipn (Z.to_nat (Z.max (n + i) 0)) l
  else skipn (Z.to_nat (Z.min i n)) l.

(** [l[:k]] for a non-negative constant [k]. *)
Definition slice_to {A : Type} (k : nat) (l : list A) : list A := firstn k l.

(** [sep.join(parts)] *)
Fixpoint join (sep : pystr) (parts : list pystr) : pystr :=
  match parts with
  | [] => []
  | [p] => p
  | p :: rest => p ++ sep ++ join sep rest
  end.

(* ================================================================== *)
(** ** Python values and dictionaries *)

(** The values [json.loads] produces. A float is kept as the decimal
    it was read from: [PFloat neg m e] is the double nearest to
    [(-1)^neg * m * 10^e]. *)
Inductive pyval : Type :=
| PNone
| PBool (b : bool)
| PInt (z : Z)
| PFloat (neg : bool) (m : N) (e : Z)
| PNaN
| PInf (neg : bool)
| PStr (s : pystr)
| PList (l : list pyval)
| PDict (d : list (pystr * pyval)).

Definition dict := list (pystr * pyval).

Fixpoint dict_get (d : dict) (k : pystr) : option pyval :=
  match d with
  | [] => None
  | (k', v) :: d' => if str_eqb k' k then Some v else dict_get d' k
  end.

(** [d[k] = v]: an existing key keeps its place, a new one goes last. *)
Fixpoint dict_set (d : dict) (k : pystr) (v : pyval) : dict :=
  match d with
  | [] => [(k, v)]
  | (k', v') :: d' =>
    if str_eqb k' k then (k', v) :: d' else (k', v') :: dict_set d' k v
  end.

(** [d.get(k, default)] and [d.get(k)]. *)
Definition get_default (d : dict) (k : pystr) (default : pyval) : pyval :=
  match dict_get d k with
  | Some v => v
  | None => default
  end.

Definition get (d : dict) (k : pystr) : pyval := get_default d k PNone.

(** A decimal [m * 10^e] rounds to the double zero exactly when it is
    at most [2^-1075], half the least positive double. *)
Definition float_is_zero (m : N) (e : Z) : bool :=
  if (0 <=? e)%Z then (m =? 0)%N
  else (Z.of_N m * 2 ^ 1075 <=? 10 ^ (- e))%Z.

(** Truth value of a Python value ([if v], [not v], [v or w]). *)
Definition truthy (v : pyval) : bool :=
  match v with
  | PNone => false
  | PBool b => b
  | PInt z => negb (z =? 0)%Z
  | PFloat _ m e => negb (float_is_zero m e)
  | PNaN => true
  | PInf _ => true
  | PStr s => negb (is_empty s)
  | PList l => match l with [] => false | _ => true end
  | PDict d => match d with [] => false | _ => true end
  end.

(** [v == "literal"] for a string literal. *)
Definition eq_str (v : pyval) (s : pystr) : bool :=
  match v with
  | PStr t => str_eqb t s
  | _ => false
  end.

(** Truth value of an attribute that is [None] or a string. *)
Definition truthy_opt (x : option pystr) : bool :=
  match x with
  | Some s => negb (is_empty s)
  | None => false
  end.

(* ================================================================== *)
(** ** The JSON decoder ([json.loads] of the standard library)

    [None] stands for a raised [JSONDecodeError]. The decoder follows
    the grammar of the standard decoder in strict mode: only space, tab,
    line feed and carriage return are white space, control characters
    are refused inside strings, [NaN], [Infinity] and [-Infinity] are
    accepted, a repeated key keeps its first place and its last value,
    and nothing but white space may follow the value. The interpreter's
    limits (recursion depth, digits of an integer) are not modelled. *)

Definition is_json_ws (c : N) : bool :=
  ((c =? 32) || (c =? 9) || (c =? 10) || (c =? 13))%N.

Fixpoint skip_ws (s : pystr) : pystr :=
  match s with
  | [] => []
  | c :: s' => if is_json_ws c then skip_ws s' else s
  end.

Definition is_digit (c : N) : bool := ((48 <=? c) && (c <=? 57))%N.

Fixpoint take_digits (s : pystr) : list N * pystr :=
  match s with
  | [] => ([], [])
  | c :: s' =>
    if is_digit c then let (ds, r) := take_digits s' in (c :: ds, r)
    else ([], s)
  end.

Definition digits_value (ds : list N) : N :=
  fold_left (fun acc d => (acc * 10 + (d - 48))%N) ds 0%N.

Definition hex_value (c : N) : option N :=
  if is_digit c then Some (c - 48)%N
  else if ((97 <=? c) && (c <=? 102))%N then Some (c - 87)%N
  else if ((65 <=? c) && (c <=? 70))%N then Some (c - 55)%N
  else None.

(** Four hexadecimal digits after a backslash-u. *)
Definition scan_hex4 (s : pystr) : option (N * pystr) :=
  match s with
  | a :: b :: c :: d :: r =>
    match hex_value a, hex_value b, hex_value c, hex_value d with
    | Some x, Some y, Some z, Some w =>
      Some (x * 4096 + y * 256 + z * 16 + w, r)%N
    | _, _, _, _ => None
    end
  | _ => None
  end.

Definition is_high_surrogate (c : N) : bool :=
  ((55296 <=? c) && (c <=? 56319))%N.

Definition is_low_surrogate (c : N) : bool :=
  ((56320 <=? c) && (c <=? 57343))%N.

(** The code point of an escape and the input after it; [s] starts
    after the backslash. A high surrogate followed at once by an escaped
    low surrogate is one code point. *)
Definition scan_escape (s : pystr) : option (N * pystr) :=
  match s with
  | [] => None
  | c :: r =>
    if (c =? 34)%N then Some (34, r)%N
    else if (c =? 92)%N then Some (92, r)%N
    else if (c =? 47)%N then Some (47, r)%N
    else if (c =? 98)%N then Some (8, r)%N
    else if (c =? 102)%N then Some (12, r)%N
    else if (c =? 110)%N then Some (10, r)%N
    else if (c =? 114)%N then Some (13, r)%N
    else if (c =? 116)%N then Some (9, r)%N
    else if (c =? 117)%N then
      match scan_hex4 r with
      | None => None
      | Some (u1, r1) =>
        if is_high_surrogate u1 then
          match r1 with
          | 92%N :: 117%N :: r2 =>
            match scan_hex4 r2 with
            | None => None
            | Some (u2, r3) =>
              if is_low_surrogate u2
              then Some (65536 + (u1 - 55296) * 1024 + (u2 - 56320), r3)%N
              else Some (u1, r1)
            end
          | _ => Some (u1, r1)
          end
        else Some (u1, r1)
      end
    else None
  end.

(** The body of a string, after its opening quote. The fuel is the
    length of the input: every step consumes a character. *)
Fixpoint scan_string (fuel : nat) (s : pystr) : option (pystr * pystr) :=
  match fuel with
  | O => None
  | S f =>
    match s with
    | [] => None
    | c :: r =>
      if (c =? 34)%N then Some ([], r)
      else if (c =? 92)%N then
        match scan_escape r with
        | None => None
        | Some (u, r') =>
          match scan_string f r' with
          | None => None
          | Some (t, r'') => Some (u :: t, r'')
          end
        end
      else if (c <? 32)%N then None
      else
        match scan_string f r with
        | None => None
        | Some (t, r') => Some (c :: t, r')
        end
    end
  end.

(** A number: an optional minus sign; a zero, or a non-zero digit and
    more digits; then optionally a point and at least one digit; then
    optionally an exponent mark, an optional sign and at least one
    digit. A fraction or an exponent makes the number a float. *)
Definition scan_number (s : pystr) : option (pyval * pystr) :=
  let (neg, s1) :=
    match s with
    | 45%N :: r => (true, r)
    | _ => (false, s)
    end in
  match s1 with
  | [] => None
  | d :: r =>
    if is_digit d then
      let (ints, r1) :=
        if (d =? 48)%N then ([d], r)
        else let (ds, r') := take_digits r in (d :: ds, r') in
      let (frac, r2) :=
        match r1 with
        | 46%N :: q =>
          let (fs, q') := take_digits q in
          match fs with
          | [] => ([], r1)
          | _ => (fs, q')
          end
        | _ => ([], r1)
        end in
      let (ex, r3) :=
        match r2 with
        | x :: q =>
          if ((x =? 101) || (x =? 69))%N then
            let (eneg, q1) :=
              match q with
              | 43%N :: q' => (false, q')
              | 45%N :: q' => (true, q')
              | _ => (false, q)
              end in
            let (es, q2) := take_digits q1 in
            match es with
            | [] => (None, r2)
            | _ =>
              let v := Z.of_N (digits_value es) in
              (Some (if eneg then (- v)%Z else v), q2)
            end
          else (None, r2)
        | [] => (None, r2)
        end in
      match frac, ex with
      | [], None =>
        let v := Z.of_N (digits_value ints) in
        Some (PInt (if neg then (- v)%Z else v), r3)
      | _, _ =>
        let e := match ex with Some x => x | None => 0%Z end in
        Some (PFloat neg (digits_value (ints ++ frac))
                (e - Z.of_nat (List.length frac)), r3)
      end
    else None
  end.

(** The members of an object after the opening brace and white space,
    when the object is not empty. [scan] decodes one value. *)
Fixpoint scan_members (scan : pystr -> option (pyval * pystr))
    (fuel : nat) (acc : dict) (s : pystr) : option (dict * pystr) :=
  match fuel with
  | O => None
  | S f =>
    match s with
    | 34%N :: r =>
      match scan_string (List.length r) r with
      | None => None
      | Some (k, r1) =>
        match skip_ws r1 with
        | 58%N :: r2 =>
          match scan (skip_ws r2) with
          | None => None
          | Some (v, r3) =>
            let acc' := dict_set acc k v in
            match skip_ws r3 with
            | 125%N :: r4 => Some (acc', r4)
            | 44%N :: r4 => scan_members scan f acc' (skip_ws r4)
            | _ => None
            end
          end
        | _ => None
        end
      end
    | _ => None
    end
  end.

(** The elements of an array after the opening bracket and white
    space, when the array is not empty. *)
Fixpoint scan_elements (scan : pystr -> option (pyval * pystr))
    (fuel : nat) (s : pystr) : option (list pyval * pystr) :=
  match fuel with
  | O => None
  | S f =>
    match scan s with
    | None => None
    | Some (v, r) =>
      match skip_ws r with
      | 93%N :: r1 => Some ([v], r1)
      | 44%N :: r1 =>
        match scan_elements scan f (skip_ws r1) with
        | None => None
        | Some (vs, r2) => Some (v :: vs, r2)
        end
      | _ => None
      end
    end
  end.

(** One value at the head of [s]. The fuel bounds the nesting depth. *)
Fixpoint scan_once (fuel : nat) (s : pystr) : option (pyval * pystr) :=
  match fuel with
  | O => None
  | S f =>
    match s with
    | [] => None
    | c :: r =>
      if (c =? 34)%N then
        match scan_string (List.length r) r with
        | None => None
        | Some (t, r') => Some (PStr t, r')
        end
      else if (c =? 123)%N then
        match skip_ws r with
        | 125%N :: r' => Some (PDict [], r')
        | r' =>
          match scan_members (scan_once f) (List.length r') [] r' with
          | None => None
          | Some (d, r'') => Some (PDict d, r'')
          end
        end
      else if (c =? 91)%N then
        match skip_ws r with
        | 93%N :: r' => Some (PList [], r')
        | r' =>
          match scan_elements (scan_once f) (List.length r') r' with
          | None => None
          | Some (l, r'') => Some (PList l, r'')
          end
        end
      else if startswith s (py "null") then Some (PNone, skipn 4 s)
      else if startswith s (py "true") then Some (PBool true, skipn 4 s)
      else if startswith s (py "false") then Some (PBool false, skipn 5 s)
      else
        match scan_number s with
        | Some res => Some res
        | None =>
          if startswith s (py "NaN") then Some (PNaN, skipn 3 s)
          else if startswith s (py "Infinity")
          then Some (PInf false, skipn 8 s)
          else if startswith s (py "-Infinity")
          then Some (PInf true, skipn 9 s)
          else None
        end
    end
  end.

(** [json.loads(s)] *)
Definition json_loads (s : pystr) : option pyval :=
  if startswith s [65279%N] then None
  else
    match scan_once (S (List.length s)) (skip_ws s) with
    | None => None
    | Some (v, r) => if is_empty (skip_ws r) then Some v else None
    end.
(* ================================================================== *)
(** ** Built-in operations that are left abstract

    [str.lower], [str.upper], [str()], [int()] and [json.dumps] depend
    on Unicode tables and on the printing of floats; they are taken as
    an interface with the laws used below. [ascii_builtins] is an
    instance that is exact on ASCII text and on integers. *)

(** A raised [Exception], kept as the text [str(e)]. *)
Definition exn := pystr.

Inductive result (A : Type) : Type :=
| Ok (a : A)
| Raise (e : exn).

Arguments Ok {A} a.
Arguments Raise {A} e.

Class PyBuiltins : Type := {
  (** [s.lower()] *)
  py_lower : pystr -> pystr;
  (** [s.upper()] *)
  py_upper : pystr -> pystr;
  (** [str(v)], also the text an f-string puts for [{v}] *)
  py_format : pyval -> pystr;
  (** [int(v)]; it raises [ValueError] or [TypeError] *)
  py_int : pyval -> result Z;
  (** [json.dumps(v)] *)
  json_dumps : pyval -> pystr;
  py_lower_ascii :
    forall s, is_ascii s = true -> py_lower s = map ascii_lower_char s;
  py_format_str : forall s, py_format (PStr s) = s;
  py_int_int : forall z, py_int (PInt z) = Ok z
}.

(** Decimal digits of a natural number, the least significant digit
    first; the fuel is an upper bound of the number of digits. *)
Fixpoint digits_rev (fuel : nat) (n : N) : list N :=
  match fuel with
  | O => []
  | S f =>
    if (n <? 10)%N then [(48 + n)%N]
    else (48 + n mod 10)%N :: digits_rev f (n / 10)
  end.

Definition str_of_Z (z : Z) : pystr :=
  let n := Z.abs_N z in
  let ds := rev (digits_rev (S (N.to_nat (N.log2 n))) n) in
  if (z <? 0)%Z then 45%N :: ds else ds.

Definition int_of_str (s : pystr) : result Z :=
  let (neg, ds) :=
    match s with
    | 45%N :: r => (true, r)
    | 43%N :: r => (false, r)
    | _ => (false, s)
    end in
  if negb (is_empty ds) && forallb is_digit ds then
    let v := Z.of_N (digits_value ds) in
    Ok (if neg then (- v)%Z else v)
  else Raise (py "invalid literal for int() with base 10").

#[refine] Instance ascii_builtins : PyBuiltins := {|
  py_lower := map ascii_lower_char;
  py_upper :=
    map (fun c => if ((97 <=? c) && (c <=? 122))%N then (c - 32)%N else c);
  py_format := fun v =>
    match v with
    | PStr s => s
    | PInt z => str_of_Z z
    | PNone => py "None"
    | PBool true => py "True"
    | PBool false => py "False"
    | _ => py "<value>"
    end;
  py_int := fun v =>
    match v with
    | PInt z => Ok z
    | PBool b => Ok (if b then 1%Z else 0%Z)
    | PStr s => int_of_str (py_strip s)
    | _ => Raise (py "int() argument must be a string or a real number")
    end;
  json_dumps := fun v =>
    match v with
    | PInt z => str_of_Z z
    | PNone => py "null"
    | _ => py "<json>"
    end
|}.
Proof.
  - reflexivity.
  - reflexivity.
  - reflexivity.
Defined.

(* ================================================================== *)
(** ** The agent's fields *)

(** Handles of objects that live outside the program: a chat model
    client, a spawned process, a vector-store collection. *)
Definition LLM := N.
Definition Proc := N.
Definition Collection := N.

(** The attributes of a [SimpleAgent] that the methods below read or
    write; [__init__] gives them their first values. The attributes
    that [__init__] binds to literals and nothing rebinds
    ([available_models], [allowed_command_prefixes], [memory_file],
    the two prompts) are the constants further down. *)
Record Agent : Type := {
  tavily_api_key : option pystr;
  memory : dict;
  chat_history : list pyval;
  max_history : Z;
  model_name : pystr;
  planner_model_name : pystr;
  llm : LLM;
  planner_llm : LLM;
  _server_process : option Proc;
  _pending_command : option pystr;
  _pending_command_reason : option pystr;
  rag_enabled : bool;
  rag_embed_model : pystr;
  rag_k : Z;
  _chroma_collection : option Collection
}.

Definition with_memory (a : Agent) (m : dict) : Agent :=
  {| tavily_api_key := tavily_api_key a; memory := m;
     chat_history := chat_history a; max_history := max_history a;
     model_name := model_name a;
     planner_model_name := planner_model_name a;
     llm := llm a; planner_llm := planner_llm a;
     _server_process := _server_process a;
     _pending_command := _pending_command a;
     _pending_command_reason := _pending_command_reason a;
     rag_enabled := rag_enabled a; rag_embed_model := rag_embed_model a;
     rag_k := rag_k a; _chroma_collection := _chroma_collection a |}.

Definition with_chat_history (a : Agent) (h : list pyval) : Agent :=
  {| tavily_api_key := tavily_api_key a; memory := memory a;
     chat_history := h; max_history := max_history a;
     model_name := model_name a;
     planner_model_name := planner_model_name a;
     llm := llm a; planner_llm := planner_llm a;
     _server_process := _server_process a;
     _pending_command := _pending_command a;
     _pending_command_reason := _pending_command_reason a;
     rag_enabled := rag_enabled a; rag_embed_model := rag_embed_model a;
     rag_k := rag_k a; _chroma_collection := _chroma_collection a |}.

Definition with_model_name (a : Agent) (n : pystr) : Agent :=
  {| tavily_api_key := tavily_api_key a; memory := memory a;
     chat_history := chat_history a; max_history := max_history a;
     model_name := n;
     planner_model_name := planner_model_name a;
     llm := llm a; planner_llm := planner_llm a;
     _server_process := _server_process a;
     _pending_command := _pending_command a;
     _pending_command_reason := _pending_command_reason a;
     rag_enabled := rag_enabled a; rag_embed_model := rag_embed_model a;
     rag_k := rag_k a; _chroma_collection := _chroma_collection a |}.

Definition with_planner_model_name (a : Agent) (n : pystr) : Agent :=
  {| tavily_api_key := tavily_api_key a; memory := memory a;
     chat_history := chat_history a; max_history := max_history a;
     model_name := model_name a;
     planner_model_name := n;
     llm := llm a; planner_llm := planner_llm a;
     _server_process := _server_process a;
     _pending_command := _pending_command a;
     _pending_command_reason := _pending_command_reason a;
     rag_enabled := rag_enabled a; rag_embed_model := rag_embed_model a;
     rag_k := rag_k a; _chroma_collection := _chroma_collection a |}.

Definition with_llm (a : Agent) (l : LLM) : Agent :=
  {| tavily_api_key := tavily_api_key a; memory := memory a;
     chat_history := chat_history a; max_history := max_history a;
     model_name := model_name a;
     planner_model_name := planner_model_name a;
     llm := l; planner_llm := planner_llm a;
     _server_process := _server_process a;
     _pending_command := _pending_command a;
     _pending_command_reason := _pending_command_reason a;
     rag_enabled := rag_enabled a; rag_embed_model := rag_embed_model a;
     rag_k := rag_k a; _chroma_collection := _chroma_collection a |}.

Definition with_planner_llm (a : Agent) (l : LLM) : Agent :=
  {| tavily_api_key := tavily_api_key a; memory := memory a;
     chat_history := chat_history a; max_history := max_history a;
     model_name := model_name a;
     planner_model_name := planner_model_name a;
     llm := llm a; planner_llm := l;
     _server_process := _server_process a;
     _pending_command := _pending_command a;
     _pending_command_reason := _pending_command_reason a;
     rag_enabled := rag_enabled a; rag_embed_model := rag_embed_model a;
     rag_k := rag_k a; _chroma_collection := _chroma_collection a |}.

Definition with_server_process (a : Agent) (p : option Proc) : Agent :=
  {| tavily_api_key := tavily_api_key a; memory := memory a;
     chat_history := chat_history a; max_history := max_history a;
     model_name := model_name a;
     planner_model_name := planner_model_name a;
     llm := llm a; planner_llm := planner_llm a;
     _server_process := p;
     _pending_command := _pending_command a;
     _pending_command_reason := _pending_command_reason a;
     rag_enabled := rag_enabled a; rag_embed_model := rag_embed_model a;
     rag_k := rag_k a; _chroma_collection := _chroma_collection a |}.

(** The two pending-command attributes are always assigned together. *)
Definition with_pending (a : Agent) (c r : option pystr) : Agent :=
  {| tavily_api_key := tavily_api_key a; memory := memory a;
     chat_history := chat_history a; max_history := max_history a;
     model_name := model_name a;
     planner_model_name := planner_model_name a;
     llm := llm a; planner_llm := planner_llm a;
     _server_process := _server_process a;
     _pending_command := c;
     _pending_command_reason := r;
     rag_enabled := rag_enabled a; rag_embed_model := rag_embed_model a;
     rag_k := rag_k a; _chroma_collection := _chroma_collection a |}.

Definition available_models : list pystr :=
  [py "gpt-oss:120b-cloud"; py "deepseek-v3.1:671b-cloud";
   py "qwen3-coder:480b-cloud"].

Definition memory_file : pystr := py "agent_memory.json".

Definition allowed_command_prefixes : list pystr :=
  [py "dir"; py "type"; py "python -m http.server"; py "python -c";
   py "py -m http.server"; py "pip show"; py "pip list";
   py "ollama list"].

Definition system_prompt : pystr := py
"You are an advanced autonomous coding agent with access to powerful tools for development, research, and problem-solving.

CAPABILITIES:
- Web search and documentation lookup via Tavily
- Code analysis and pattern searching
- File operations and directory management
- Terminal command execution
- Real-time information retrieval
- Contextual memory for remembering user preferences and past actions

GUIDELINES:
1. Always analyze the user's request carefully before taking action
2. Use web search when you need current information or documentation
3. Use code analysis tools to understand existing codebases
4. Execute terminal commands only when necessary and safe
5. Provide clear, actionable feedback about your actions
6. Be efficient and avoid redundant operations
7. Ask for clarification when requests are ambiguous
8. Remember user preferences and project context
9. When asked to create files or projects, ACTUALLY CREATE THEM using file creation tools

OUTPUT FORMAT REQUIREMENTS:
- When you need the program to take actions, you MUST respond with a single JSON object (and nothing else) matching the schema described in the user's message.
- If no actions are needed, you may respond with normal text.

You are thorough, efficient, and focused on delivering high-quality solutions.".

Definition planner_prompt : pystr := pyq
"You are a planner for a local coding agent.

Return either:
1) A normal assistant response (plain text) if no actions are needed.
OR
2) A SINGLE JSON object (and nothing else) with this schema:

{
  `type`: `plan`,
  `actions`: [
    {
      `tool`: `create_file`,
      `path`: `relative/or/absolute/path`,
      `content`: `file content as a string`
    },
    {
      `tool`: `run_command`,
      `command`: `command to execute`
    },
    {
      `tool`: `web_search`,
      `query`: `search query`
    },
    {
      `tool`: `reply`,
      `text`: `final user-facing message`
    }
  ]
}

Rules:
- Use web_search ONLY if user explicitly asks for news/current events/web search.
- If user asks to create/build files, you MUST output the JSON plan, not plain text.
- Start your response with { and end with } for JSON plans.
".

(* ================================================================== *)
(** ** The outside world *)

(** What [subprocess.run(command, shell=True, capture_output=True,
    text=True, timeout=30)] does: it completes, or raises
    [TimeoutExpired], or raises another [Exception]. *)
Inductive run_outcome : Type :=
| Completed (returncode : Z) (stdout stderr : pystr)
| TimeoutExpired
| RunFailed (e : exn).

(** The collaborators of the agent, as functions of the state of the
    world. Each one stands for the library calls named in its comment;
    nothing is assumed about what they return. *)
Record Env (World : Type) : Type := {
  (** [open(file, 'w')] and [json.dump(d, f, indent=2)] in
      [save_memory]; a failure is swallowed there. *)
  write_json : pystr -> dict -> World -> World;
  (** [ChatOllama(model=m, temperature=float(t))] *)
  chat_ollama : pystr -> pyval -> World -> result LLM * World;
  (** [client.invoke(messages).content] *)
  invoke : LLM -> list (pystr * pystr) -> World -> result pystr * World;
  (** The body of the [try] of [web_search]: the request to the search
      service with the key and the query, and the text made of its
      answer. *)
  tavily_search : pystr -> pyval -> World -> result pystr * World;
  (** The body of the [try] of [create_file]: [os.makedirs] of the
      parent, [open] and [write]. *)
  write_file : pyval -> pyval -> World -> result unit * World;
  subprocess_run : pyval -> World -> run_outcome * World;
  (** [_ollama_embed] of a text that is not empty, with the embedding
      model: the vector, or the empty list after any failure. *)
  ollama_embed : pystr -> pystr -> World -> pyval * World;
  (** [collection.add] with a fresh id, the text, the vector and the
      metadata (a time stamp and the entries given). *)
  chroma_add :
    Collection -> pystr -> pyval -> dict -> World -> result unit * World;
  (** [collection.query] with the vector and [n_results], and the first
      list of documents of its answer. *)
  chroma_query :
    Collection -> pyval -> Z -> World -> result (list pyval) * World;
  (** [os.path.isdir] *)
  isdir : pystr -> World -> bool * World;
  (** [process.poll() is None]: the process still runs. *)
  poll_is_none : Proc -> World -> bool * World;
  (** [subprocess.Popen] of [python -m http.server port] in a folder. *)
  popen_http_server : pystr -> pystr -> World -> result Proc * World;
  (** [terminate], [wait] and, if they fail, [kill]; failures are
      swallowed in [_serve_stop]. *)
  stop_process : Proc -> World -> World;
  (** [str(Path.cwd())] *)
  getcwd : World -> result pystr * World;
  (** [_list_files] after its argument is cleaned: the text of the
      listing, or the folder-not-found message. *)
  list_folder : pystr -> World -> result pystr * World;
  (** [_read_file_text] after its argument is cleaned and found not
      empty: the text of the file cut after 8000 characters, or one of
      its messages. *)
  read_file_text : pystr -> World -> result pystr * World
}.

(* ================================================================== *)
(** ** Computations: state of the agent, state of the world,
       exceptions *)

Definition M (World A : Type) : Type :=
  Agent -> World -> result A * Agent * World.

Definition ret {World A : Type} (x : A) : M World A :=
  fun a w => (Ok x, a, w).

Definition raise {World A : Type} (e : exn) : M World A :=
  fun a w => (Raise e, a, w).

Definition bind {World A B : Type} (m : M World A) (k : A -> M World B)
    : M World B :=
  fun a w =>
    match m a w with
    | (Ok x, a', w') => k x a' w'
    | (Raise e, a', w') => (Raise e, a', w')
    end.

(** [try: m  except Exception as e: h e] *)
Definition try_except {World A : Type} (m : M World A)
    (h : exn -> M World A) : M World A :=
  fun a w =>
    match m a w with
    | (Ok x, a', w') => (Ok x, a', w')
    | (Raise e, a', w') => h e a' w'
    end.

(** Reading [self], assigning its attributes. *)
Definition self {World : Type} : M World Agent :=
  fun a w => (Ok a, a, w).

Definition update {World : Type} (f : Agent -> Agent) : M World unit :=
  fun a w => (Ok tt, f a, w).

(** A call that only touches the world. *)
Definition call {World A : Type} (f : World -> A * World) : M World A :=
  fun a w => let (x, w') := f w in (Ok x, a, w').

(** A call that touches the world and may raise. *)
Definition call_exc {World A : Type} (f : World -> result A * World)
    : M World A :=
  fun a w => let (r, w') := f w in (r, a, w').

Definition lift {World A : Type} (r : result A) : M World A :=
  fun a w => (r, a, w).

Declare Scope py_scope.
Delimit Scope py_scope with pym.
Notation "x <- m ;; k" := (bind m (fun x => k))
  (at level 100, m at next level, right associativity) : py_scope.
Notation "m ;; k" := (bind m (fun _ => k))
  (at level 100, right associativity) : py_scope.

Definition str_concat (parts : list pystr) : pystr := List.concat parts.

(** The name of the type of a value, as error messages print it. *)
Definition type_name (v : pyval) : pystr :=
  match v with
  | PNone => py "NoneType"
  | PBool _ => py "bool"
  | PInt _ => py "int"
  | PFloat _ _ _ => py "float"
  | PNaN => py "float"
  | PInf _ => py "float"
  | PStr _ => py "str"
  | PList _ => py "list"
  | PDict _ => py "dict"
  end.

(** [v.attr] for a method that only some types have. *)
Definition no_attribute (v : pyval) (attr : pystr) : exn :=
  str_concat [py "'"; type_name v; py "' object has no attribute '";
              attr; py "'"].

(** [x or y] *)
Definition py_or (x y : pyval) : pyval := if truthy x then x else y.

Definition nl : pystr := [10%N].

(** [s.split()] *)
Fixpoint split_ws (s cur : pystr) : list pystr :=
  match s with
  | [] => if is_empty cur then [] else [rev cur]
  | c :: s' =>
    if is_space c then
      if is_empty cur then split_ws s' [] else rev cur :: split_ws s' []
    else split_ws s' (c :: cur)
  end.

Definition py_split (s : pystr) : list pystr := split_ws s [].

(** The first word of [s] and what follows it. *)
Fixpoint break_ws (s : pystr) : pystr * pystr :=
  match s with
  | [] => ([], [])
  | c :: s' =>
    if is_space c then ([], s)
    else let (t, r) := break_ws s' in (c :: t, r)
  end.

(** [s.split(maxsplit=1)] *)
Definition py_split1 (s : pystr) : list pystr :=
  match lstrip s with
  | [] => []
  | s1 =>
    let (t, r) := break_ws s1 in
    match lstrip r with
    | [] => [t]
    | r' => [t; r']
    end
  end.

(** [v[key]] for a string key. *)
Definition subscript (v : pyval) (key : pystr) : result pyval :=
  match v with
  | PDict d =>
    match dict_get d key with
    | Some x => Ok x
    | None => Raise (str_concat [py "'"; key; py "'"])
    end
  | PStr _ => Raise (py "string indices must be integers, not 'str'")
  | PList _ => Raise (py "list indices must be integers or slices, not str")
  | _ => Raise (str_concat [py "'"; type_name v;
                            py "' object is not subscriptable"])
  end.

(** The elements a [for] loop takes from a value. *)
Definition iterate (v : pyval) : result (list pyval) :=
  match v with
  | PList l => Ok l
  | PStr s => Ok (map (fun c => PStr [c]) s)
  | PDict d => Ok (map (fun kv => PStr (fst kv)) d)
  | _ => Raise (str_concat [py "'"; type_name v;
                            py "' object is not iterable"])
  end.

(** The value, the agent and the world a computation ends with. *)
Definition value_of {W A : Type} (r : result A * Agent * W) : result A :=
  fst (fst r).
Definition agent_of {W A : Type} (r : result A * Agent * W) : Agent :=
  snd (fst r).
Definition world_of {W A : Type} (r : result A * Agent * W) : W :=
  snd r.

(** The operations on the pending command: a request to run a command
    that is not allowed, [/confirm] and [/cancel]. *)
Inductive gate_op : Type :=
| Queue (command reason : pystr)
| Confirm
| Cancel.

(** An action the executor can carry out without raising: a
    dictionary whose [text], when its tool is [reply], is a string or
    a value that counts as false. *)
Definition well_formed_action (v : pyval) : bool :=
  match v with
  | PDict d =>
    if eq_str (get d (py "tool")) (py "reply") then
      match get_default d (py "text") (PStr []) with
      | PStr _ => true
      | t => negb (truthy t)
      end
    else true
  | _ => false
  end.

(** The text is a JSON object whose [type] is the string [plan]. *)
Definition valid_plan_json (planned : pystr) : bool :=
  match json_loads planned with
  | Some (PDict d) => eq_str (get d (py "type")) (py "plan")
  | _ => false
  end.

(** The planner output of the round-trip example of the specification. *)
Definition hello_plan_text : pystr :=
  pyq "{`type`:`plan`,`actions`:[{`tool`:`reply`,`text`:`hello`}]}".

(** What [join] puts after an item that is followed by [rest]. *)
Definition join_tail (sep : pystr) (rest : list pystr) : pystr :=
  match rest with
  | [] => []
  | _ => sep ++ join sep rest
  end.

(** The pending command and its reason are both absent, or both
    present and satisfy [P]. *)
Definition pending_inv (P : pystr -> pystr -> Prop) (a : Agent) : Prop :=
  (_pending_command a = None /\ _pending_command_reason a = None) \/
  (exists c r,
     P c r /\ _pending_command a = Some c /\
     _pending_command_reason a = Some r).

(** The error text of a [create_file] action without a path. *)
Definition missing_path : pystr := py "❌ create_file missing 'path'".

(** [s] has [sub] as a substring. *)
Definition contains (s sub : pystr) : Prop :=
  exists before after, s = before ++ sub ++ after.

(* ================================================================== *)
(** ** The methods of [SimpleAgent] *)

Section Model.

Context {B : PyBuiltins}.
Variable World : Type.
Variable env : Env World.

Local Open Scope py_scope.
Local Abbreviation Comp := (M World).

(** [f"{i}"] for an integer. *)
Definition fmt_int (z : Z) : pystr := py_format (PInt z).

Definition save_memory : Comp unit :=
  update (fun a =>
    with_memory a
      (dict_set (memory a) (py "chat_history")
         (PList (slice_from (-30) (chat_history a))))) ;;
  a <- self ;;
  call (fun w => (tt, write_json env memory_file (memory a) w)).

Definition remember (key value : pystr) : Comp unit :=
  update (fun a => with_memory a (dict_set (memory a) key (PStr value))) ;;
  save_memory.

Definition history_entry (role content : pystr) : pyval :=
  PDict [(py "role", PStr role); (py "content", PStr content)].

Definition _append_history (role content : pystr) : Comp unit :=
  update (fun a =>
    with_chat_history a (chat_history a ++ [history_entry role content])) ;;
  update (fun a =>
    with_chat_history a (slice_from (- max_history a) (chat_history a))) ;;
  save_memory.

Definition _init_llm : Comp unit :=
  a <- self ;;
  l <- call_exc (chat_ollama env (model_name a)
         (get_default (memory a) (py "temperature") (PFloat false 1 (-1)))) ;;
  update (fun a => with_llm a l) ;;
  a <- self ;;
  p <- call_exc (chat_ollama env (planner_model_name a)
         (get_default (memory a) (py "planner_temperature")
            (PFloat false 0 (-1)))) ;;
  update (fun a => with_planner_llm a p).

Definition set_model (name : option pystr) : Comp pystr :=
  let model_name := py_strip (or_empty name) in
  if is_empty model_name then ret (py "❌ Usage: /model <model-name>")
  else
    update (fun a => with_model_name a model_name) ;;
    update (fun a =>
      with_memory a (dict_set (memory a) (py "model_name")
                       (PStr model_name))) ;;
    save_memory ;;
    _init_llm ;;
    ret (py "✅ Model set to: " ++ model_name).

Definition set_planner_model (name : option pystr) : Comp pystr :=
  let model_name := py_strip (or_empty name) in
  if is_empty model_name then ret (py "❌ Usage: /planner <model-name>")
  else
    update (fun a => with_planner_model_name a model_name) ;;
    update (fun a =>
      with_memory a (dict_set (memory a) (py "planner_model_name")
                       (PStr model_name))) ;;
    save_memory ;;
    _init_llm ;;
    ret (py "✅ Planner model set to: " ++ model_name).

Definition web_search (query : pyval) : Comp pystr :=
  a <- self ;;
  match tavily_api_key a with
  | Some key =>
    if is_empty key then
      ret (py "❌ Tavily API key not configured. Web search is not available.")
    else
      try_except (call_exc (tavily_search env key query))
        (fun e => ret (py "❌ Web search failed: " ++ e))
  | None =>
    ret (py "❌ Tavily API key not configured. Web search is not available.")
  end.

Definition create_file (filepath content : pyval) : Comp pystr :=
  try_except
    (call_exc (write_file env filepath content) ;;
     ret (py "✅ Successfully created: " ++ py_format filepath))
    (fun e =>
       ret (str_concat [py "❌ Failed to create "; py_format filepath;
                        py ": "; e])).

Definition run_command (command : pyval) : Comp pystr :=
  o <- call (subprocess_run env command) ;;
  match o with
  | Completed returncode stdout stderr =>
    ret (str_concat
      [py "📋 Command: "; py_format command; nl;
       py "Exit code: "; fmt_int returncode; nl;
       if is_empty stdout then []
       else str_concat [py "Output:"; nl; stdout; nl];
       if is_empty stderr then []
       else str_concat [py "Error:"; nl; stderr; nl]])
  | TimeoutExpired => ret (py "❌ Command timed out: " ++ py_format command)
  | RunFailed e => ret (py "❌ Failed to run command: " ++ e)
  end.

(** The loop of [_is_command_allowed]. *)
Fixpoint first_prefix (cmd : pystr) (prefixes : list pystr) : bool :=
  match prefixes with
  | [] => false
  | p :: rest =>
    if startswith cmd (py_lower p) then true else first_prefix cmd rest
  end.

Definition _is_command_allowed (command : option pystr) : bool :=
  let cmd := py_lower (py_strip (or_empty command)) in
  if is_empty cmd then false
  else first_prefix cmd allowed_command_prefixes.

Definition _queue_command (command reason : pystr) : Comp pystr :=
  update (fun a => with_pending a (Some command) (Some reason)) ;;
  ret (str_concat
    [py "⚠️ Command requires confirmation."; nl;
     py "Reason: "; reason; nl;
     py "Pending: "; command; nl; nl;
     py "Use /confirm to run it or /cancel to discard."]).

Definition no_pending : pystr := py "ℹ️ No pending command.".

Definition _confirm_command : Comp pystr :=
  a <- self ;;
  match _pending_command a with
  | Some cmd =>
    if is_empty cmd then ret no_pending
    else
      update (fun a => with_pending a None None) ;;
      run_command (PStr cmd)
  | None => ret no_pending
  end.

Definition _cancel_command : Comp pystr :=
  a <- self ;;
  if negb (truthy_opt (_pending_command a)) then ret no_pending
  else
    update (fun a => with_pending a None None) ;;
    ret (py "✅ Pending command canceled.").

(** [x or default], stripped of white space, then of double quotes,
    then of single quotes. *)
Definition clean_path (x : option pystr) (default : pystr) : pystr :=
  let s := if truthy_opt x then or_empty x else default in
  strip_char 39 (strip_char 34 (py_strip s)).

Definition _list_files (folder : option pystr) : Comp pystr :=
  call_exc (list_folder env (clean_path folder (py "."))).

Definition _read_file_text (path : option pystr) : Comp pystr :=
  let path := clean_path path [] in
  if is_empty path then ret (py "❌ Usage: /open <file-path>")
  else call_exc (read_file_text env path).

Definition _ollama_embed (text : option pystr) : Comp pyval :=
  let text := py_strip (or_empty text) in
  if is_empty text then ret (PList [])
  else
    a <- self ;;
    call (ollama_embed env (rag_embed_model a) text).

Definition rag_add (text : option pystr) (meta : dict) : Comp pystr :=
  a <- self ;;
  if negb (rag_enabled a) then ret (py "ℹ️ RAG memory is disabled.")
  else
    match _chroma_collection a with
    | None =>
      ret (py "❌ ChromaDB is not available. Install dependencies and restart.")
    | Some coll =>
      let text := py_strip (or_empty text) in
      if is_empty text then ret (py "❌ Usage: /remember <text>")
      else
        emb <- _ollama_embed (Some text) ;;
        if negb (truthy emb) then
          ret (py "❌ Could not create embeddings (is Ollama running and is the embed model available?).")
        else
          try_except
            (call_exc (chroma_add env coll text emb meta) ;;
             ret (py "✅ Saved to RAG memory."))
            (fun e => ret (py "❌ Failed to save to RAG memory: " ++ e))
    end.

(** [k] is the argument of the call sites, 3 or 6; [int(k or
    self.rag_k)] is then [k]. *)
Definition rag_query (query : option pystr) (k : Z) : Comp (list pyval) :=
  a <- self ;;
  if negb (rag_enabled a) then ret []
  else
    match _chroma_collection a with
    | None => ret []
    | Some coll =>
      let query := py_strip (or_empty query) in
      if is_empty query then ret []
      else
        emb <- _ollama_embed (Some query) ;;
        if negb (truthy emb) then ret []
        else
          try_except
            (docs <- call_exc (chroma_query env coll emb
                                 (if (k =? 0)%Z then rag_k a else k)) ;;
             ret (filter truthy docs))
            (fun _ => ret [])
    end.

Definition _serve_start (folder : pyval) (port : Z) : Comp pystr :=
  match py_or folder (PStr []) with
  | PStr f =>
    let folder := strip_char 39 (strip_char 34 (py_strip f)) in
    if is_empty folder then ret (py "❌ Usage: /serve <folder> [port]")
    else
      d <- call (isdir env folder) ;;
      if negb d then ret (py "❌ Folder not found: " ++ folder)
      else
        a <- self ;;
        running <-
          match _server_process a with
          | Some p => call (poll_is_none env p)
          | None => ret false
          end ;;
        if running then
          ret (py "❌ A server is already running. Use /serve stop first.")
        else
          failed <-
            try_except
              (p <- call_exc (popen_http_server env (fmt_int port) folder) ;;
               update (fun a => with_server_process a (Some p)) ;;
               ret None)
              (fun e =>
                 update (fun a => with_server_process a None) ;;
                 ret (Some (py "❌ Failed to start server: " ++ e))) ;;
          match failed with
          | Some out => ret out
          | None =>
            update (fun a =>
              with_memory a (dict_set (memory a) (py "last_served_folder")
                               (PStr folder))) ;;
            update (fun a =>
              with_memory a (dict_set (memory a) (py "last_served_port")
                               (PInt port))) ;;
            save_memory ;;
            ret (str_concat
              [py "✅ Serving '"; folder; py "' on http://localhost:";
               fmt_int port; nl; py "Stop with: /serve stop"])
          end
  | v => raise (no_attribute v (py "strip"))
  end.
Definition _serve_stop : Comp pystr :=
  a <- self ;;
  running <-
    match _server_process a with
    | Some p => call (poll_is_none env p)
    | None => ret false
    end ;;
  if negb running then
    update (fun a => with_server_process a None) ;;
    ret (py "ℹ️ No server is currently running.")
  else
    match _server_process a with
    | Some p => call (fun w => (tt, stop_process env p w))
    | None => ret tt
    end ;;
    update (fun a => with_server_process a None) ;;
    ret (py "✅ Server stopped.").

(** One line of the history text of [_plan]:
    [f"{m['role'].upper()}: {m['content']}"]. *)
Definition history_line (m : pyval) : result pystr :=
  match subscript m (py "role") with
  | Raise e => Raise e
  | Ok (PStr role) =>
    match subscript m (py "content") with
    | Raise e => Raise e
    | Ok c => Ok (str_concat [py_upper role; py ": "; py_format c])
    end
  | Ok v => Raise (no_attribute v (py "upper"))
  end.

(** A list comprehension whose element expression may raise. *)
Fixpoint map_result {A C : Type} (f : A -> result C) (l : list A)
    : result (list C) :=
  match l with
  | [] => Ok []
  | x :: l' =>
    match f x with
    | Raise e => Raise e
    | Ok y =>
      match map_result f l' with
      | Raise e => Raise e
      | Ok ys => Ok (y :: ys)
      end
    end
  end.

(** The [state] dictionary of [_plan] and of the normal response. *)
Definition agent_state (a : Agent) (retrieved : list pyval) : dict :=
  let state :=
    [(py "current_model", PStr (model_name a));
     (py "planner_model", PStr (planner_model_name a));
     (py "last_served_folder", get (memory a) (py "last_served_folder"));
     (py "last_served_port", get (memory a) (py "last_served_port"));
     (py "rag_enabled", PBool (rag_enabled a))] in
  match retrieved with
  | [] => state
  | _ => dict_set state (py "retrieved_memories") (PList retrieved)
  end.

Definition _plan (user_input : pystr) : Comp pystr :=
  a <- self ;;
  lines <- lift (map_result history_line (slice_from (-6) (chat_history a))) ;;
  let history_text := join nl lines in
  retrieved <- rag_query (Some user_input) 3 ;;
  let messages :=
    [(py "system", planner_prompt);
     (py "system",
      py "Agent state (JSON): " ++ json_dumps (PDict (agent_state a retrieved)));
     (py "system",
      str_concat [py "Recent chat history (for context):"; nl; history_text]);
     (py "human", user_input)] in
  content <- call_exc (invoke env (planner_llm a) messages) ;;
  ret (py_strip content).

(** The body of the loop of [_execute_plan] for one action. *)
Definition run_action (action : pyval) (outputs : list pyval)
    : Comp (list pyval) :=
  match action with
  | PDict d =>
    let tool := get d (py "tool") in
    if eq_str tool (py "create_file") then
      let path := get d (py "path") in
      let content := get_default d (py "content") (PStr []) in
      if negb (truthy path) then
        ret (outputs ++ [PStr (py "❌ create_file missing 'path'")])
      else
        out <- create_file path content ;;
        ret (outputs ++ [PStr out])
    else if eq_str tool (py "run_command") then
      let cmd := get d (py "command") in
      if negb (truthy cmd) then
        ret (outputs ++ [PStr (py "❌ run_command missing 'command'")])
      else
        out <- run_command cmd ;;
        ret (outputs ++ [PStr out])
    else if eq_str tool (py "web_search") then
      let query := get d (py "query") in
      if negb (truthy query) then
        ret (outputs ++ [PStr (py "❌ web_search missing 'query'")])
      else
        out <- web_search query ;;
        ret (outputs ++ [PStr out])
    else if eq_str tool (py "reply") then
      let text := get_default d (py "text") (PStr []) in
      if truthy text then ret (outputs ++ [text]) else ret outputs
    else
      ret (outputs ++
             [PStr (py "❌ Unknown tool in plan: " ++ py_format tool)])
  | v => raise (no_attribute v (py "get"))
  end.

Fixpoint run_actions (actions : list pyval) (outputs : list pyval)
    : Comp (list pyval) :=
  match actions with
  | [] => ret outputs
  | action :: rest =>
    outputs' <- run_action action outputs ;;
    run_actions rest outputs'
  end.

(** The filter of the last line of [_execute_plan]:
    [o is not None and o != ""]. *)
Definition kept (o : pyval) : bool :=
  match o with
  | PNone => false
  | PStr s => negb (is_empty s)
  | _ => true
  end.

(** The items [str.join] accepts: it raises at the first one that is
    not a string. *)
Fixpoint str_items (i : Z) (items : list pyval) : result (list pystr) :=
  match items with
  | [] => Ok []
  | PStr s :: rest =>
    match str_items (i + 1) rest with
    | Raise e => Raise e
    | Ok l => Ok (s :: l)
    end
  | v :: _ =>
    Raise (str_concat [py "sequence item "; fmt_int i;
                       py ": expected str instance, "; type_name v;
                       py " found"])
  end.

Definition _execute_plan (plan : dict) : Comp pystr :=
  actions <- lift (iterate (get_default plan (py "actions") (PList []))) ;;
  outputs <- run_actions actions [] ;;
  parts <- lift (str_items 0 (filter kept outputs)) ;;
  ret (join nl parts).
(** The end of every directive of [process_request]: the result goes
    to the history and is returned. *)
Definition respond (m : Comp pystr) : Comp pystr :=
  out <- m ;;
  _append_history (py "assistant") out ;;
  ret out.

(** The [/serve] directive; [s] is the stripped input. *)
Definition serve_directive (s : pystr) : Comp pystr :=
  match py_split s with
  | [_] =>
    a <- self ;;
    let folder :=
      py_or (get (memory a) (py "last_served_folder"))
        (PStr (py "restaurant-site")) in
    port <- lift (py_int (py_or (get (memory a) (py "last_served_port"))
                            (PInt 8000))) ;;
    respond (_serve_start folder port)
  | _ :: p1 :: rest =>
    if str_eqb (py_lower p1) (py "stop") then respond _serve_stop
    else
      match rest with
      | [] => respond (_serve_start (PStr p1) 8000)
      | p2 :: _ =>
        match py_int (PStr p2) with
        | Ok port => respond (_serve_start (PStr p1) port)
        | Raise _ =>
          respond
            (ret (py "❌ Port must be a number. Example: /serve restaurant-site 8000"))
        end
      end
  | [] => raise (py "list index out of range")
  end.

(** The part of [process_request] that tries the planner's text as a
    plan: [Some out] when a plan was executed and [out] returned,
    [None] when control reaches the normal response. *)
Definition try_plan (planned : pystr) : Comp (option pystr) :=
  if startswith planned (py "{") then
    try_except
      (match json_loads planned with
       | None => raise (py "JSONDecodeError")
       | Some (PDict plan) =>
         if eq_str (get plan (py "type")) (py "plan") then
           out <- _execute_plan plan ;;
           remember (py "last_action") (py "executed_plan") ;;
           _append_history (py "assistant") out ;;
           ret (Some out)
         else ret None
       | Some v => raise (no_attribute v (py "get"))
       end)
      (fun _ => ret None)
  else ret None.

(** The normal response path, after the plan was not taken. *)
Definition normal_response (user_input : pystr) : Comp pystr :=
  a <- self ;;
  retrieved <- rag_query (Some user_input) 3 ;;
  let messages :=
    [(py "system", system_prompt);
     (py "system",
      py "Agent state (JSON): " ++ json_dumps (PDict (agent_state a retrieved)));
     (py "human", user_input)] in
  content <- call_exc (invoke env (llm a) messages) ;;
  _append_history (py "assistant") content ;;
  a <- self ;;
  (if rag_enabled a then
     rag_add (Some (str_concat [py "USER: "; user_input; nl;
                                py "ASSISTANT: "; content]))
       [(py "type", PStr (py "chat"))] ;;
     ret tt
   else ret tt) ;;
  ret content.

(** What [process_request] does with the text [planned] that [_plan]
    returned. *)
Definition after_planning (user_input planned : pystr) : Comp pystr :=
  done <- try_plan planned ;;
  match done with
  | Some out => ret out
  | None => normal_response user_input
  end.

(** The body of the [try] of [process_request]. *)
Definition process_request_body (user_input : pystr) : Comp pystr :=
  _append_history (py "user") user_input ;;
  remember (py "last_request") user_input ;;
  let s := py_strip user_input in
  let low := py_lower s in
  if str_in low [py "/models"; py "/model list"] then
    a <- self ;;
    let models_text := join nl (map (fun m => py "- " ++ m) available_models) in
    respond (ret (str_concat
      [py "Available models:"; nl; models_text; nl; nl;
       py "Current: "; model_name a; nl; nl; py "Use: /model <name>"]))
  else if startswith low (py "/model ") then
    let arg := py_strip (slice_from 7 s) in
    if str_in (py_lower arg) [py "show"; py "current"] then
      a <- self ;;
      respond (ret (py "Current model: " ++ model_name a))
    else respond (set_model (Some arg))
  else if str_in low [py "/planner"; py "/planner show"] then
    a <- self ;;
    respond (ret (py "Planner model: " ++ planner_model_name a))
  else if startswith low (py "/planner ") then
    respond (set_planner_model (Some (py_strip (slice_from 9 s))))
  else if startswith low (py "/remember ") then
    respond (rag_add (Some (py_strip (slice_from 10 s)))
               [(py "type", PStr (py "manual"))])
  else if startswith low (py "/memories") then
    let q := py_strip (slice_from 9 s) in
    if is_empty q then respond (ret (py "❌ Usage: /memories <query>"))
    else
      items <- rag_query (Some q) 6 ;;
      match items with
      | [] => respond (ret (py "ℹ️ No relevant memories found."))
      | _ =>
        let out := join nl (map (fun m => py "- " ++ py_format m) items) in
        respond (ret (str_concat [py "Retrieved memories:"; nl; out]))
      end
  else if startswith low (py "/serve") then serve_directive s
  else if str_in low [py "/pwd"; py "/cwd"] then
    respond (call_exc (getcwd env))
  else if startswith low (py "/files") then
    match py_split1 s with
    | [_; folder] => respond (_list_files (Some folder))
    | _ => respond (_list_files (Some (py ".")))
    end
  else if startswith low (py "/open ") then
    respond (_read_file_text (Some (py_strip (slice_from 6 s))))
  else if str_eqb low (py "/confirm") then respond _confirm_command
  else if str_eqb low (py "/cancel") then respond _cancel_command
  else if startswith low (py "/run ") then
    let cmd := py_strip (slice_from 5 s) in
    if is_empty cmd then respond (ret (py "❌ Usage: /run <command>"))
    else if _is_command_allowed (Some cmd) then
      respond (run_command (PStr cmd))
    else respond (_queue_command cmd (py "Not in safe allowlist"))
  else if startswith low (py "/search ") then
    respond (web_search (PStr (py_strip (slice_from 8 s))))
  else
    planned <- _plan user_input ;;
    after_planning user_input planned.

Definition process_request (user_input : pystr) : Comp pystr :=
  try_except (process_request_body user_input)
    (fun e => ret (py "❌ Error processing request: " ++ e)).

(** A caller that sends requests one after the other, as [chat_loop]
    does; it stops at the first exception that reaches it. *)
Fixpoint serve_requests (inputs : list pystr) (a : Agent) (w : World)
    : list pystr * Agent * World :=
  match inputs with
  | [] => ([], a, w)
  | i :: rest =>
    match process_request i a w with
    | (Ok out, a', w') =>
      let '(outs, a'', w'') := serve_requests rest a' w' in
      (out :: outs, a'', w'')
    | (Raise _, a', w') => ([], a', w')
    end
  end.

Definition gate_step (op : gate_op) : Comp pystr :=
  match op with
  | Queue command reason => _queue_command command reason
  | Confirm => _confirm_command
  | Cancel => _cancel_command
  end.

Fixpoint gate_run (ops : list gate_op) (a : Agent) (w : World)
    : Agent * World :=
  match ops with
  | [] => (a, w)
  | op :: rest =>
    let r := gate_step op a w in
    gate_run rest (agent_of r) (world_of r)
  end.

(** [n] calls of [_append_history]. *)
Fixpoint append_many (entries : list (pystr * pystr)) (a : Agent) (w : World)
    : Agent * World :=
  match entries with
  | [] => (a, w)
  | (role, content) :: rest =>
    let r := _append_history role content a w in
    append_many rest (agent_of r) (world_of r)
  end.

End Model.

(* ================================================================== *)
(** ** A scripted world, for running the model on concrete requests *)

(** The world is the log of the calls made to it. *)
Definition Log := list pystr.

(** An environment whose planner model, primary model and command
    runner give fixed answers; the primary model has handle 1 and the
    planner model handle 2. *)
Definition scripted_env (planner_says llm_says : result pystr)
    (run : run_outcome) : Env Log :=
  {| write_json := fun f _ w => w ++ [py "write " ++ f];
     chat_ollama := fun m _ w =>
       (Ok (if str_eqb m (py "qwen3-coder:480b-cloud") then 2%N else 1%N),
        w ++ [py "ChatOllama " ++ m]);
     invoke := fun l _ w =>
       (if (l =? 2)%N then planner_says else llm_says, w ++ [py "invoke"]);
     tavily_search := fun _ _ w => (Raise (py "offline"), w ++ [py "search"]);
     write_file := fun _ _ w => (Ok tt, w ++ [py "write_file"]);
     subprocess_run := fun c w =>
       (run, w ++ [py "run " ++ match c with PStr s => s | _ => [] end]);
     ollama_embed := fun _ _ w => (PList [], w ++ [py "embed"]);
     chroma_add := fun _ _ _ _ w => (Ok tt, w ++ [py "add"]);
     chroma_query := fun _ _ _ w => (Ok [], w ++ [py "query"]);
     isdir := fun _ w => (false, w);
     poll_is_none := fun _ w => (false, w);
     popen_http_server := fun _ _ w => (Raise (py "no python"), w);
     stop_process := fun _ w => w;
     getcwd := fun w => (Ok (py "/home/agent"), w);
     list_folder := fun f w => (Ok (py "❌ Folder not found: " ++ f), w);
     read_file_text := fun f w => (Ok (py "❌ File not found: " ++ f), w) |}.

(** The agent [__init__] builds when there is no memory file, no
    search key and no vector store. *)
Definition fresh_agent : Agent :=
  {| tavily_api_key := None; memory := []; chat_history := [];
     max_history := 20;
     model_name := py "gpt-oss:120b-cloud";
     planner_model_name := py "qwen3-coder:480b-cloud";
     llm := 1%N; planner_llm := 2%N;
     _server_process := None;
     _pending_command := None; _pending_command_reason := None;
     rag_enabled := true; rag_embed_model := py "nomic-embed-text:latest";
     rag_k := 4; _chroma_collection := None |}.

(** The planner answers with the plan of the round-trip example. *)
Definition env_hello : Env Log :=
  scripted_env (Ok hello_plan_text) (Ok (py "primary answer")) TimeoutExpired.

(** The planner answers with plain text; commands time out. *)
Definition env_chatty : Env Log :=
  scripted_env (Ok (py "Sure, here's your answer."))
    (Ok (py "primary answer")) TimeoutExpired.

(** Both models are unreachable and commands cannot be started. *)
Definition env_down : Env Log :=
  scripted_env (Raise (py "connection refused"))
    (Raise (py "connection refused")) (RunFailed (py "no shell")).

(** A plan whose first action lacks its path. *)
Definition broken_plan_text : pystr :=
  pyq "{`type`:`plan`,`actions`:[{`tool`:`create_file`},{`tool`:`reply`,`text`:`done`}]}".

(** The same agent with another value of [max_history], as a memory
    file with a [max_history] entry gives it. *)
Definition with_max_history (a : Agent) (n : Z) : Agent :=
  {| tavily_api_key := tavily_api_key a; memory := memory a;
     chat_history := chat_history a; max_history := n;
     model_name := model_name a;
     planner_model_name := planner_model_name a;
     llm := llm a; planner_llm := planner_llm a;
     _server_process := _server_process a;
     _pending_command := _pending_command a;
     _pending_command_reason := _pending_command_reason a;
     rag_enabled := rag_enabled a; rag_embed_model := rag_embed_model a;
     rag_k := rag_k a; _chroma_collection := _chroma_collection a |}.

(* ================================================================== *)
(** ** Predicates that computations keep *)

(** The computation [m] keeps [P]: the agent it ends with, by return
    or by exception, satisfies [P] when the agent it starts from
    does. *)
Definition keeps {World A : Type} (P : Agent -> Prop) (m : M World A)
    : Prop :=
  forall a w, P a -> P (agent_of (m a w)).

(** The memory keys that the methods of the agent assign. *)
Definition written_keys : list pystr :=
  [py "chat_history"; py "last_request"; py "last_action";
   py "model_name"; py "planner_model_name";
   py "last_served_folder"; py "last_served_port"].

(** From an agent that satisfies [Q], the computation [m] ends, by
    return or by exception, with an agent that satisfies [P]. *)
Definition leads {World A : Type} (Q P : Agent -> Prop) (m : M World A)
    : Prop :=
  forall a w, Q a -> P (agent_of (m a w)).

(** The memory keys assigned after the request was recorded. *)
Definition later_keys : list pystr :=
  [py "last_action"; py "model_name"; py "planner_model_name";
   py "last_served_folder"; py "last_served_port"].

(** The input is one of the directives that touch the pending
    command: [/confirm], [/cancel], [/run ...]. *)
Definition is_gate_directive {B : PyBuiltins} (user_input : pystr) : bool :=
  let low := py_lower (py_strip user_input) in
  str_eqb low (py "/confirm") || str_eqb low (py "/cancel")
  || startswith low (py "/run ").

(** The statements of [process_request] that follow the recording of
    the request: the directives, then the planner
    ([process_request_body_route] below states that the body is the two
    recording statements followed by [route]). *)
Definition route {B : PyBuiltins} {World : Type} (env : Env World)
    (user_input : pystr) : M World pystr :=
  (let s := py_strip user_input in
   let low := py_lower s in
   if str_in low [py "/models"; py "/model list"] then
     a <- self ;;
     let models_text :=
       join nl (map (fun m => py "- " ++ m) available_models) in
     respond env (ret (str_concat
       [py "Available models:"; nl; models_text; nl; nl;
        py "Current: "; model_name a; nl; nl; py "Use: /model <name>"]))
   else if startswith low (py "/model ") then
     let arg := py_strip (slice_from 7 s) in
     if str_in (py_lower arg) [py "show"; py "current"] then
       a <- self ;;
       respond env (ret (py "Current model: " ++ model_name a))
     else respond env (set_model env (Some arg))
   else if str_in low [py "/planner"; py "/planner show"] then
     a <- self ;;
     respond env (ret (py "Planner model: " ++ planner_model_name a))
   else if startswith low (py "/planner ") then
     respond env (set_planner_model env (Some (py_strip (slice_from 9 s))))
   else if startswith low (py "/remember ") then
     respond env (rag_add env (Some (py_strip (slice_from 10 s)))
                    [(py "type", PStr (py "manual"))])
   else if startswith low (py "/memories") then
     let q := py_strip (slice_from 9 s) in
     if is_empty q then respond env (ret (py "❌ Usage: /memories <query>"))
     else
       items <- rag_query env (Some q) 6 ;;
       match items with
       | [] => respond env (ret (py "ℹ️ No relevant memories found."))
       | _ =>
         let out := join nl (map (fun m => py "- " ++ py_format m) items) in
         respond env (ret (str_concat [py "Retrieved memories:"; nl; out]))
       end
   else if startswith low (py "/serve") then serve_directive env s
   else if str_in low [py "/pwd"; py "/cwd"] then
     respond env (call_exc (getcwd env))
   else if startswith low (py "/files") then
     match py_split1 s with
     | [_; folder] => respond env (_list_files env (Some folder))
     | _ => respond env (_list_files env (Some (py ".")))
     end
   else if startswith low (py "/open ") then
     respond env (_read_file_text env (Some (py_strip (slice_from 6 s))))
   else if str_eqb low (py "/confirm") then respond env (_confirm_command env)
   else if str_eqb low (py "/cancel") then respond env (@_cancel_command World)
   else if startswith low (py "/run ") then
     let cmd := py_strip (slice_from 5 s) in
     if is_empty cmd then respond env (ret (py "❌ Usage: /run <command>"))
     else if _is_command_allowed (Some cmd) then
       respond env (run_command env (PStr cmd))
     else respond env (_queue_command cmd (py "Not in safe allowlist"))
   else if startswith low (py "/search ") then
     respond env (web_search env (PStr (py_strip (slice_from 8 s))))
   else
     planned <- _plan env user_input ;;
     after_planning env user_input planned)%pym.

(** The same collaborators with another [subprocess.run]. *)
Definition with_subprocess_run {World : Type} (env : Env World)
    (f : pyval -> World -> run_outcome * World) : Env World :=
  {| write_json := write_json env;
     chat_ollama := chat_ollama env;
     invoke := invoke env;
     tavily_search := tavily_search env;
     write_file := write_file env;
     subprocess_run := f;
     ollama_embed := ollama_embed env;
     chroma_add := chroma_add env;
     chroma_query := chroma_query env;
     isdir := isdir env;
     poll_is_none := poll_is_none env;
     popen_http_server := popen_http_server env;
     stop_process := stop_process env;
     getcwd := getcwd env;
     list_folder := list_folder env;
     read_file_text := read_file_text env |}.

(** The text [_queue_command] returns. *)
Definition confirmation_text (command reason : pystr) : pystr :=
  str_concat
    [py "⚠️ Command requires confirmation."; nl;
     py "Reason: "; reason; nl;
     py "Pending: "; command; nl; nl;
     py "Use /confirm to run it or /cancel to discard."].

(* ================================================================== *)
(** ** [extract_code_content] *)

(** The least index [j >= i] at which [sub] starts, where [s] is the
    text from index [i] on. *)
Fixpoint find_at (s sub : pystr) (i : nat) : option nat :=
  match s with
  | [] => if startswith [] sub then Some i else None
  | _ :: s' => if startswith s sub then Some i else find_at s' sub (S i)
  end.

(** [s.find(sub, start)] for a start that is not negative; [None] is
    the answer [-1]. *)
Definition py_find (s sub : pystr) (start : nat) : option nat :=
  if Nat.ltb (List.length s) start then None
  else find_at (skipn start s) sub start.

Definition fence : pystr := py "```".

Definition extract_code_content (response_text language : pystr) : pystr :=
  let start_marker := fence ++ language in
  match py_find response_text start_marker 0 with
  | None => []
  | Some start_idx =>
    match py_find response_text nl start_idx with
    | None => []
    | Some newline_idx =>
      let start_idx := S newline_idx in
      match py_find response_text fence start_idx with
      | None => []
      | Some end_idx =>
        py_strip (firstn (end_idx - start_idx) (skipn start_idx response_text))
      end
    end
  end.

(** The text [s] holds no character [c0]. *)
Definition lacks (c0 : N) (s : pystr) : bool :=
  forallb (fun c => negb (c =? c0)%N) s.

(* ================================================================== *)
(** ** More scripted worlds *)

(** [ChatOllama] refuses every model; the rest is [env_chatty]. *)
Definition env_no_ollama : Env Log :=
  {| write_json := write_json env_chatty;
     chat_ollama := fun m _ w =>
       (Raise (py "connection refused"), w ++ [py "ChatOllama " ++ m]);
     invoke := invoke env_chatty;
     tavily_search := tavily_search env_chatty;
     write_file := write_file env_chatty;
     subprocess_run := subprocess_run env_chatty;
     ollama_embed := ollama_embed env_chatty;
     chroma_add := chroma_add env_chatty;
     chroma_query := chroma_query env_chatty;
     isdir := isdir env_chatty;
     poll_is_none := poll_is_none env_chatty;
     popen_http_server := popen_http_server env_chatty;
     stop_process := stop_process env_chatty;
     getcwd := getcwd env_chatty;
     list_folder := list_folder env_chatty;
     read_file_text := read_file_text env_chatty |}.

(** Every folder exists and every process still runs; the rest is
    [env_chatty]. *)
Definition env_serving : Env Log :=
  {| write_json := write_json env_chatty;
     chat_ollama := chat_ollama env_chatty;
     invoke := invoke env_chatty;
     tavily_search := tavily_search env_chatty;
     write_file := write_file env_chatty;
     subprocess_run := subprocess_run env_chatty;
     ollama_embed := ollama_embed env_chatty;
     chroma_add := chroma_add env_chatty;
     chroma_query := chroma_query env_chatty;
     isdir := fun f w => (true, w ++ [py "isdir " ++ f]);
     poll_is_none := fun _ w => (true, w ++ [py "poll"]);
     popen_http_server := popen_http_server env_chatty;
     stop_process := stop_process env_chatty;
     getcwd := getcwd env_chatty;
     list_folder := list_folder env_chatty;
     read_file_text := read_file_text env_chatty |}.

(** The agent [__init__] builds when the vector store is there
    (collection 1), and the same agent while it serves a folder
    (process 7). *)
Definition agent_with_store : Agent :=
  {| tavily_api_key := None; memory := []; chat_history := [];
     max_history := 20;
     model_name := py "gpt-oss:120b-cloud";
     planner_model_name := py "qwen3-coder:480b-cloud";
     llm := 1%N; planner_llm := 2%N;
     _server_process := None;
     _pending_command := None; _pending_command_reason := None;
     rag_enabled := true; rag_embed_model := py "nomic-embed-text:latest";
     rag_k := 4; _chroma_collection := Some 1%N |}.

Definition serving_agent : Agent := with_server_process fresh_agent (Some 7%N).

(** An agent with a command waiting for confirmation. *)
Definition pending_agent : Agent :=
  with_pending fresh_agent (Some (py "rm -rf build"))
    (Some (py "Not in safe allowlist")).

(* ================================================================== *)
(** ** Outputs that [str.join] refuses *)



(** A planner output whose third action is a reply with the number 5
    as its text. *)
Definition number_reply_plan_text : pystr :=
  pyq "{`type`:`plan`,`actions`:[{`tool`:`create_file`},{`tool`:`reply`,`text`:`done`},{`tool`:`reply`,`text`:5}]}".

(** The plan that [number_reply_plan_text] decodes to. *)
Definition number_reply_plan : dict :=
  [(py "type", PStr (py "plan"));
   (py "actions",
    PList ([] ++ PDict [(py "tool", PStr (py "create_file"))]
              :: [] ++ PDict [(py "tool", PStr (py "reply"));
                              (py "text", PStr (py "done"))]
              :: [PDict [(py "tool", PStr (py "reply"));
                         (py "text", PInt 5)]]))].

(* ================================================================== *)
(** * Properties *)

Unset Implicit Arguments.

(** ** Strings and slices *)

Lemma lstrip_all_space (s : pystr) :
  forallb is_space s = true -> lstrip s = [].
Proof.
  induction s as [| c s IH]; simpl; [reflexivity |].
  intros H. apply andb_true_iff in H. destruct H as [Hc Hs].
  rewrite Hc. exact (IH Hs).
Qed.

Lemma py_strip_all_space (s : pystr) :
  forallb is_space s = true -> py_strip s = [].
Proof.
  intros H. unfold py_strip, rstrip.
  rewrite (lstrip_all_space s H). reflexivity.
Qed.

Lemma startswith_app (p args : pystr) : startswith (p ++ args) p = true.
Proof.
  induction p as [| c p IH]; simpl; [reflexivity |].
  rewrite N.eqb_refl. exact IH.
Qed.

Lemma startswith_nil_l (p : pystr) : startswith [] p = true -> p = [].
Proof. destruct p; simpl; [reflexivity | discriminate]. Qed.

Lemma slice_from_suffix {A : Type} (i : Z) (l : list A) :
  exists dropped, l = dropped ++ slice_from i l.
Proof.
  unfold slice_from.
  destruct (i <? 0)%Z;
    eexists; symmetry; apply firstn_skipn.
Qed.

Lemma slice_from_zero {A : Type} (l : list A) : slice_from (- 0) l = l.
Proof.
  unfold slice_from. simpl Z.opp. simpl Z.ltb. cbv iota.
  replace (Z.to_nat (Z.min 0 (Z.of_nat (List.length l)))) with O by lia.
  reflexivity.
Qed.

Lemma slice_from_last_length {A : Type} (n : Z) (l : list A) :
  (0 < n)%Z ->
  List.length (slice_from (- n) l) = Nat.min (List.length l) (Z.to_nat n).
Proof.
  intros Hn. unfold slice_from.
  destruct (Z.ltb_spec (- n) 0) as [_ | H]; [| lia].
  rewrite length_skipn. lia.
Qed.

Lemma str_eqb_eq (x y : pystr) : str_eqb x y = true -> x = y.
Proof.
  revert y. induction x as [| c x IH]; destruct y as [| d y]; simpl;
    try discriminate; [reflexivity |].
  intros H. apply andb_true_iff in H. destruct H as [Hc Hx].
  apply N.eqb_eq in Hc. subst d. rewrite (IH y Hx). reflexivity.
Qed.

Lemma eq_str_eq (v : pyval) (s : pystr) : eq_str v s = true -> v = PStr s.
Proof.
  destruct v; simpl; try discriminate.
  intros H. rewrite (str_eqb_eq _ _ H). reflexivity.
Qed.

Lemma join_cons (sep p : pystr) (rest : list pystr) :
  join sep (p :: rest) = p ++ join_tail sep rest.
Proof.
  destruct rest; simpl; [rewrite app_nil_r |]; reflexivity.
Qed.

Lemma join_item (sep s : pystr) (l1 l2 : list pystr) :
  exists u, join sep (l1 ++ s :: l2) = u ++ s ++ join_tail sep l2.
Proof.
  induction l1 as [| p l1 [u IH]].
  - exists []. simpl app. apply join_cons.
  - exists (p ++ sep ++ u).
    change ((p :: l1) ++ s :: l2) with (p :: (l1 ++ s :: l2)).
    rewrite join_cons. unfold join_tail at 1.
    destruct (l1 ++ s :: l2) eqn:E; [destruct l1; discriminate |].
    rewrite IH. rewrite <- !app_assoc. reflexivity.
Qed.


Lemma filter_kept_strings (l : list pystr) :
  filter kept (map PStr l) =
  map PStr (filter (fun s => negb (is_empty s)) l).
Proof.
  induction l as [| s l IH]; simpl; [reflexivity |].
  destruct (is_empty s); simpl; rewrite IH; reflexivity.
Qed.

Section Properties.

Context {B : PyBuiltins}.
Variable World : Type.
Variable env : Env World.

(** ** The allow-list check *)

Lemma py_lower_nil : py_lower [] = [].
Proof. rewrite py_lower_ascii; reflexivity. Qed.

Lemma first_prefix_iff (cmd : pystr) (prefixes : list pystr) :
  first_prefix cmd prefixes = true <->
  exists p, In p prefixes /\ startswith cmd (py_lower p) = true.
Proof.
  induction prefixes as [| q rest IH]; simpl.
  - split; [discriminate | intros [p [[] _]]].
  - destruct (startswith cmd (py_lower q)) eqn:E.
    + split; [intros _; exists q; auto | reflexivity].
    + rewrite IH. split.
      * intros [p [Hin Hp]]. exists p. auto.
      * intros [p [[-> | Hin] Hp]]; [congruence | exists p; auto].
Qed.

Lemma lower_of_prefix_not_empty (p : pystr) :
  In p allowed_command_prefixes -> py_lower p <> [].
Proof.
  intros Hin.
  assert (Hall : forallb (fun q => is_ascii q && negb (is_empty q))
                   allowed_command_prefixes = true) by (vm_compute; reflexivity).
  rewrite forallb_forall in Hall. specialize (Hall p Hin).
  apply andb_true_iff in Hall. destruct Hall as [Ha Hne].
  rewrite (py_lower_ascii p Ha).
  destruct p; [discriminate | simpl; discriminate].
Qed.

(** C1. [_is_command_allowed] answers true exactly when the stripped,
    lower-cased command starts with one of the configured prefixes
    (each lower-cased); whatever follows the prefix does not matter;
    an empty or blank command is refused. *)
Theorem is_command_allowed_iff_prefix (c : pystr) :
  (_is_command_allowed (Some c) = true <->
   exists p, In p allowed_command_prefixes /\
             startswith (py_lower (py_strip c)) (py_lower p) = true)
  /\ (forall p args,
        In p allowed_command_prefixes ->
        py_lower (py_strip c) = py_lower p ++ args ->
        _is_command_allowed (Some c) = true)
  /\ (forallb is_space c = true -> _is_command_allowed (Some c) = false).
Proof.
  assert (Hiff : _is_command_allowed (Some c) = true <->
     exists p, In p allowed_command_prefixes /\
               startswith (py_lower (py_strip c)) (py_lower p) = true).
  { unfold _is_command_allowed. simpl or_empty.
    destruct (py_lower (py_strip c)) as [| x cmd] eqn:E; simpl is_empty; cbv iota.
    - split; [discriminate |].
      intros [p [Hin Hp]]. apply startswith_nil_l in Hp.
      exfalso. exact (lower_of_prefix_not_empty p Hin Hp).
    - apply first_prefix_iff. }
  split; [exact Hiff |]. split.
  - intros p args Hin Heq. apply Hiff. exists p. split; [exact Hin |].
    rewrite Heq. apply startswith_app.
  - intros Hblank. unfold _is_command_allowed. simpl or_empty.
    rewrite (py_strip_all_space c Hblank), py_lower_nil. reflexivity.
Qed.

(** ** The chat history *)

Lemma append_history_eq (role content : pystr) (a : Agent) (w : World) :
  _append_history env role content a w =
  let h := slice_from (- max_history a)
             (chat_history a ++ [history_entry role content]) in
  let m := dict_set (memory a) (py "chat_history")
             (PList (slice_from (-30) h)) in
  (Ok tt, with_memory (with_chat_history a h) m,
   write_json env memory_file m w).
Proof. reflexivity. Qed.

Lemma append_history_chat (role content : pystr) (a : Agent) (w : World) :
  chat_history (agent_of (_append_history env role content a w)) =
  slice_from (- max_history a)
    (chat_history a ++ [history_entry role content]).
Proof. reflexivity. Qed.

Lemma append_history_max (role content : pystr) (a : Agent) (w : World) :
  max_history (agent_of (_append_history env role content a w)) =
  max_history a.
Proof. reflexivity. Qed.

(** With a positive [max_history], one append leaves at most
    [max_history] entries, whatever the history was before. *)
Lemma append_history_bounded (role content : pystr) (a : Agent) (w : World) :
  (0 < max_history a)%Z ->
  (Z.of_nat (List.length
     (chat_history (agent_of (_append_history env role content a w))))
   <= max_history a)%Z.
Proof.
  intros Hpos. rewrite append_history_chat.
  rewrite (slice_from_last_length _ _ Hpos). lia.
Qed.

(** The entries that survive an append are the newest ones, in their
    order: the history after it is a suffix of the history before it
    followed by the new entry. *)
Lemma append_history_suffix (role content : pystr) (a : Agent) (w : World) :
  exists dropped,
    chat_history a ++ [history_entry role content] =
    dropped ++ chat_history (agent_of (_append_history env role content a w)).
Proof. rewrite append_history_chat. apply slice_from_suffix. Qed.

(** With a positive [max_history], the bound holds after any positive
    number of appends. *)
Lemma append_many_bounded (entries : list (pystr * pystr)) (a : Agent)
    (w : World) :
  (0 < max_history a)%Z ->
  entries <> [] ->
  (Z.of_nat (List.length
     (chat_history (fst (append_many env entries a w))))
   <= max_history a)%Z.
Proof.
  revert a w. induction entries as [| [role content] rest IH];
    intros a w Hpos Hne; [congruence |].
  simpl append_many. destruct rest as [| e rest'].
  - exact (append_history_bounded role content a w Hpos).
  - rewrite <- (append_history_max role content a w).
    apply IH; [rewrite append_history_max; exact Hpos | discriminate].
Qed.

Lemma append_many_zero_cap (entries : list (pystr * pystr)) (a : Agent)
    (w : World) :
  max_history a = 0%Z ->
  chat_history (fst (append_many env entries a w)) =
  chat_history a ++ map (fun e => history_entry (fst e) (snd e)) entries.
Proof.
  revert a w. induction entries as [| [role content] rest IH];
    intros a w Hz; simpl append_many.
  - simpl. rewrite app_nil_r. reflexivity.
  - rewrite IH by (rewrite append_history_max; exact Hz).
    rewrite append_history_chat, Hz, slice_from_zero.
    rewrite <- app_assoc. reflexivity.
Qed.

(** C2. When [max_history] is 0, [_append_history] drops nothing:
    after one append the new entry is in the history, and after any
    number of appends the history holds all of them, so its length
    exceeds [max_history]. *)
Theorem append_history_zero_cap_keeps_everything
    (a : Agent) (w : World) (role content : pystr)
    (entries : list (pystr * pystr)) :
  chat_history
    (agent_of (_append_history env role content (with_max_history a 0) w)) =
  chat_history a ++ [history_entry role content]
  /\ List.length
       (chat_history (fst (append_many env entries (with_max_history a 0) w))) =
     List.length (chat_history a) + List.length entries
  /\ max_history (fst (append_many env entries (with_max_history a 0) w)) = 0%Z.
Proof.
  split; [| split].
  - rewrite append_history_chat. simpl max_history. apply slice_from_zero.
  - rewrite append_many_zero_cap by reflexivity.
    simpl chat_history. rewrite length_app, length_map. reflexivity.
  - generalize (with_max_history a 0) (eq_refl : max_history (with_max_history a 0) = 0%Z).
    revert w. induction entries as [| [r c] rest IH]; intros w a0 H0.
    + exact H0.
    + simpl append_many. apply IH. rewrite append_history_max. exact H0.
Qed.

(** ** The pending command *)

Lemma run_command_returns (command : pyval) (a : Agent) (w : World) :
  exists out w', run_command env command a w = (Ok out, a, w').
Proof.
  unfold run_command, bind, call.
  destruct (subprocess_run env command w) as [o w'].
  destruct o; unfold ret; eauto.
Qed.

Lemma confirm_without_pending (a : Agent) (w : World) :
  truthy_opt (_pending_command a) = false ->
  _confirm_command env a w = (Ok no_pending, a, w).
Proof.
  unfold _confirm_command, bind, self. simpl.
  destruct (_pending_command a) as [cmd |]; simpl; [| reflexivity].
  destruct cmd; simpl; [reflexivity | discriminate].
Qed.

Lemma cancel_without_pending (a : Agent) (w : World) :
  truthy_opt (_pending_command a) = false ->
  _cancel_command a w = (Ok no_pending, a, w).
Proof.
  unfold _cancel_command, bind, self. simpl.
  intros ->. reflexivity.
Qed.

Lemma confirm_with_pending (cmd : pystr) (a : Agent) (w : World) :
  _pending_command a = Some cmd -> is_empty cmd = false ->
  _confirm_command env a w =
  run_command env (PStr cmd) (with_pending a None None) w.
Proof.
  intros Hp Hne. unfold _confirm_command at 1. unfold bind at 1, self.
  rewrite Hp, Hne. reflexivity.
Qed.

Lemma cancel_with_pending (a : Agent) (w : World) :
  truthy_opt (_pending_command a) = true ->
  _cancel_command a w =
  (Ok (py "✅ Pending command canceled."), with_pending a None None, w).
Proof.
  unfold _cancel_command, bind, self. simpl.
  intros ->. reflexivity.
Qed.

Lemma gate_run_app (l1 l2 : list gate_op) (a : Agent) (w : World) :
  gate_run env (l1 ++ l2) a w =
  gate_run env l2 (fst (gate_run env l1 a w)) (snd (gate_run env l1 a w)).
Proof.
  revert a w. induction l1 as [| op l1 IH]; intros a w; simpl.
  - reflexivity.
  - apply IH.
Qed.

Lemma gate_step_inv (P : pystr -> pystr -> Prop) (op : gate_op)
    (a : Agent) (w : World) :
  (forall c r, op = Queue c r -> P c r) ->
  pending_inv P a ->
  pending_inv P (agent_of (gate_step env op a w)).
Proof.
  intros HP Hinv. destruct op as [c r | |]; simpl gate_step.
  - right. exists c, r. split; [apply HP; reflexivity | split; reflexivity].
  - destruct (truthy_opt (_pending_command a)) eqn:Et.
    + destruct (_pending_command a) as [cmd |] eqn:Ep; [| discriminate].
      simpl in Et. apply negb_true_iff in Et.
      rewrite (confirm_with_pending cmd a w Ep Et).
      destruct (run_command_returns (PStr cmd) (with_pending a None None) w)
        as [out [w' ->]].
      left. split; reflexivity.
    + rewrite (confirm_without_pending a w Et). exact Hinv.
  - destruct (truthy_opt (_pending_command a)) eqn:Et.
    + rewrite (cancel_with_pending a w Et). left. split; reflexivity.
    + rewrite (cancel_without_pending a w Et). exact Hinv.
Qed.

Lemma gate_run_inv (P : pystr -> pystr -> Prop) (ops : list gate_op)
    (a : Agent) (w : World) :
  (forall c r, In (Queue c r) ops -> P c r) ->
  pending_inv P a ->
  pending_inv P (fst (gate_run env ops a w)).
Proof.
  revert a w. induction ops as [| op rest IH]; intros a w HP Hinv; simpl.
  - exact Hinv.
  - apply IH.
    + intros c r Hin. apply HP. right. exact Hin.
    + apply gate_step_inv; [| exact Hinv].
      intros c r ->. apply HP. left. reflexivity.
Qed.

(** C3. The agent holds at most one pending command, with its reason.
    Queuing [c1] and then [c2] leaves [c2] with the reason given for [c2]; more
    generally the command queued last replaces whatever was pending;
    and from a state without a pending command, any sequence of
    queue, confirm and cancel operations leaves either nothing pending
    or one of the queued commands with its own reason. *)
Theorem queue_overwrites_pending (ops : list gate_op) (a : Agent) (w : World)
    (c1 r1 c2 r2 : pystr) :
  (let a2 := fst (gate_run env [Queue c1 r1; Queue c2 r2] a w) in
   _pending_command a2 = Some c2 /\ _pending_command_reason a2 = Some r2)
  /\ (let a' := fst (gate_run env (ops ++ [Queue c2 r2]) a w) in
      _pending_command a' = Some c2 /\ _pending_command_reason a' = Some r2)
  /\ pending_inv (fun c r => In (Queue c r) ops)
       (fst (gate_run env ops (with_pending a None None) w)).
Proof.
  split; [| split].
  - simpl. split; reflexivity.
  - rewrite gate_run_app. simpl. split; reflexivity.
  - apply gate_run_inv.
    + intros c r Hin. exact Hin.
    + left. split; reflexivity.
Qed.

Lemma gate_run_repeat_noop (op : gate_op) (n : nat) (a : Agent) (w : World) :
  op = Confirm \/ op = Cancel ->
  truthy_opt (_pending_command a) = false ->
  gate_run env (repeat op n) a w = (a, w).
Proof.
  intros Hop Hnone. induction n as [| n IH]; simpl; [reflexivity |].
  destruct Hop as [-> | ->]; simpl gate_step.
  - rewrite (confirm_without_pending a w Hnone). exact IH.
  - rewrite (cancel_without_pending a w Hnone). exact IH.
Qed.

(** C4. Without a pending command, [_confirm_command] and
    [_cancel_command] return the no-pending-command text and leave the
    agent and the world as they were; repeating them changes nothing. *)
Theorem confirm_cancel_without_pending (a : Agent) (w : World) (n : nat) :
  truthy_opt (_pending_command a) = false ->
  _confirm_command env a w = (Ok no_pending, a, w)
  /\ _cancel_command a w = (Ok no_pending, a, w)
  /\ gate_run env (repeat Confirm n) a w = (a, w)
  /\ gate_run env (repeat Cancel n) a w = (a, w).
Proof.
  intros Hnone. repeat split.
  - exact (confirm_without_pending a w Hnone).
  - exact (cancel_without_pending a w Hnone).
  - apply gate_run_repeat_noop; [left; reflexivity | exact Hnone].
  - apply gate_run_repeat_noop; [right; reflexivity | exact Hnone].
Qed.

(** C9. [_confirm_command] clears the pending command and its reason
    before it runs the command: the command runs in the cleared state.
    Whatever the run does (it completes, times out or fails), a text
    is returned, nothing is pending afterwards, and the next
    [_confirm_command] returns the no-pending-command text. *)
Theorem confirm_clears_before_running (a : Agent) (w : World) :
  let r := _confirm_command env a w in
  (forall cmd, _pending_command a = Some cmd -> is_empty cmd = false ->
     r = run_command env (PStr cmd) (with_pending a None None) w
     /\ _pending_command (agent_of r) = None
     /\ _pending_command_reason (agent_of r) = None
     /\ (forall w', subprocess_run env (PStr cmd) w = (TimeoutExpired, w') ->
          r = (Ok (py "❌ Command timed out: " ++ cmd),
               with_pending a None None, w'))
     /\ (forall e w', subprocess_run env (PStr cmd) w = (RunFailed e, w') ->
          r = (Ok (py "❌ Failed to run command: " ++ e),
               with_pending a None None, w')))
  /\ (exists out, value_of r = Ok out)
  /\ truthy_opt (_pending_command (agent_of r)) = false
  /\ _confirm_command env (agent_of r) (world_of r) =
     (Ok no_pending, agent_of r, world_of r).
Proof.
  intros r.
  assert (Hclear : forall cmd, _pending_command a = Some cmd ->
            is_empty cmd = false ->
            r = run_command env (PStr cmd) (with_pending a None None) w).
  { intros cmd Hp Hne. exact (confirm_with_pending cmd a w Hp Hne). }
  assert (Hres : (exists out, value_of r = Ok out) /\
                 truthy_opt (_pending_command (agent_of r)) = false).
  { destruct (truthy_opt (_pending_command a)) eqn:Et.
    - destruct (_pending_command a) as [cmd |] eqn:Ep; [| discriminate].
      simpl in Et. apply negb_true_iff in Et.
      rewrite (Hclear cmd eq_refl Et).
      destruct (run_command_returns (PStr cmd) (with_pending a None None) w)
        as [out [w' ->]].
      split; [exists out; reflexivity | reflexivity].
    - unfold r. rewrite (confirm_without_pending a w Et).
      split; [exists no_pending; reflexivity | exact Et]. }
  split; [| split; [exact (proj1 Hres) | split; [exact (proj2 Hres) |]]].
  - intros cmd Hp Hne. pose proof (Hclear cmd Hp Hne) as Hr.
    split; [exact Hr |].
    destruct (run_command_returns (PStr cmd) (with_pending a None None) w)
      as [out [w1 Hrun]].
    split; [rewrite Hr, Hrun; reflexivity |].
    split; [rewrite Hr, Hrun; reflexivity |].
    split.
    + intros w' Hsub. rewrite Hr. unfold run_command, bind, call.
      rewrite Hsub. unfold ret. rewrite py_format_str. reflexivity.
    + intros e w' Hsub. rewrite Hr. unfold run_command, bind, call.
      rewrite Hsub. reflexivity.
  - apply confirm_without_pending. exact (proj2 Hres).
Qed.

(** ** The model setters *)

(** C10. [set_model] and [set_planner_model] with a name that is
    [None], empty or blank return their usage text and leave the agent
    (model names, memory and all other attributes) and the world
    (the memory file included) as they were. *)
Theorem set_model_blank_changes_nothing (name : option pystr) (a : Agent)
    (w : World) :
  forallb is_space (or_empty name) = true ->
  set_model env name a w = (Ok (py "❌ Usage: /model <model-name>"), a, w)
  /\ set_planner_model env name a w =
     (Ok (py "❌ Usage: /planner <model-name>"), a, w).
Proof.
  intros Hblank. unfold set_model, set_planner_model.
  rewrite (py_strip_all_space _ Hblank). split; reflexivity.
Qed.

(** ** The request entry point *)

Lemma process_request_ok (user_input : pystr) (a : Agent) (w : World) :
  exists out a' w', process_request env user_input a w = (Ok out, a', w').
Proof.
  unfold process_request, try_except.
  destruct (process_request_body env user_input a w) as [[[out | e] a'] w'].
  - exists out, a', w'. reflexivity.
  - eexists _, a', w'. reflexivity.
Qed.

(** C8. [process_request] returns a text for every input, every state
    and every behaviour of the collaborators: when its body raises the
    exception [e], the result is the one error text made of [e]; when
    the body returns, that is the result. A caller that sends any
    list of requests gets one answer per request. *)
Theorem process_request_never_raises (user_input : pystr) (a : Agent)
    (w : World) (inputs : list pystr) :
  (exists out, value_of (process_request env user_input a w) = Ok out)
  /\ (forall e a1 w1,
        process_request_body env user_input a w = (Raise e, a1, w1) ->
        process_request env user_input a w =
        (Ok (py "❌ Error processing request: " ++ e), a1, w1))
  /\ (forall out a1 w1,
        process_request_body env user_input a w = (Ok out, a1, w1) ->
        process_request env user_input a w = (Ok out, a1, w1))
  /\ List.length (fst (fst (serve_requests env inputs a w))) =
     List.length inputs.
Proof.
  split; [| split; [| split]].
  - destruct (process_request_ok user_input a w) as [out [a' [w' H]]].
    exists out. rewrite H. reflexivity.
  - intros e a1 w1 H. unfold process_request, try_except. rewrite H.
    reflexivity.
  - intros out a1 w1 H. unfold process_request, try_except. rewrite H.
    reflexivity.
  - revert a w. induction inputs as [| i rest IH]; intros a w; simpl.
    + reflexivity.
    + destruct (process_request_ok i a w) as [out [a' [w' H]]].
      rewrite H. specialize (IH a' w').
      destruct (serve_requests env rest a' w') as [[outs a''] w''].
      simpl in *. rewrite IH. reflexivity.
Qed.

(** ** The planner's text *)

Lemma try_plan_not_brace (planned : pystr) (a : Agent) (w : World) :
  startswith planned (py "{") = false ->
  try_plan env planned a w = (Ok None, a, w).
Proof. intros H. unfold try_plan. rewrite H. reflexivity. Qed.

Lemma try_plan_not_plan (planned : pystr) (a : Agent) (w : World) :
  valid_plan_json planned = false ->
  try_plan env planned a w = (Ok None, a, w).
Proof.
  unfold valid_plan_json, try_plan. intros H.
  destruct (startswith planned (py "{")); [| reflexivity].
  unfold try_except.
  destruct (json_loads planned) as [v |]; [| reflexivity].
  destruct v; try reflexivity.
  rewrite H. reflexivity.
Qed.

(** C7, as the code has it. A planner text that does not start with a
    brace, or that [json.loads] refuses, or whose decoded value is not
    an object with [type] equal to [plan], raises nothing and runs no
    plan: the agent and the world are untouched by the attempt, and the
    request continues with the normal response, whose answer is the
    primary model's. *)
Theorem non_plan_text_falls_through (user_input planned : pystr)
    (a : Agent) (w : World) :
  (startswith planned (py "{") = false \/ valid_plan_json planned = false) ->
  try_plan env planned a w = (Ok None, a, w)
  /\ after_planning env user_input planned a w =
     normal_response env user_input a w.
Proof.
  intros H.
  assert (Ht : try_plan env planned a w = (Ok None, a, w)).
  { destruct H as [H | H];
      [apply try_plan_not_brace | apply try_plan_not_plan]; exact H. }
  split; [exact Ht |].
  unfold after_planning. unfold bind at 1. rewrite Ht. reflexivity.
Qed.

Lemma json_loads_hello_plan :
  json_loads hello_plan_text =
  Some (PDict [(py "type", PStr (py "plan"));
               (py "actions",
                PList [PDict [(py "tool", PStr (py "reply"));
                              (py "text", PStr (py "hello"))]])]).
Proof. vm_compute. reflexivity. Qed.

(** C5. The planner output of the example decodes to an object of type
    [plan]; executing it returns exactly [hello] without touching the
    agent or the world; and [process_request], given this planner
    output, returns [hello], records [executed_plan] as the last
    action and appends [hello] to the history. *)
Theorem hello_plan_round_trip (user_input : pystr) (a : Agent) (w : World) :
  (exists plan,
     json_loads hello_plan_text = Some (PDict plan)
     /\ eq_str (get plan (py "type")) (py "plan") = true
     /\ _execute_plan env plan a w = (Ok (py "hello"), a, w))
  /\ after_planning env user_input hello_plan_text a w =
     (let r1 := remember env (py "last_action") (py "executed_plan") a w in
      let r2 := _append_history env (py "assistant") (py "hello")
                  (agent_of r1) (world_of r1) in
      (Ok (py "hello"), agent_of r2, world_of r2)).
Proof.
  split.
  - eexists. split; [exact json_loads_hello_plan |].
    split; [vm_compute; reflexivity |].
    reflexivity.
  - unfold after_planning, try_plan.
    replace (startswith hello_plan_text (py "{")) with true
      by (vm_compute; reflexivity).
    rewrite json_loads_hello_plan. reflexivity.
Qed.

(** ** The plan executor *)

Lemma str_items_strings (i : Z) (l : list pystr) :
  str_items i (map PStr l) = Ok l.
Proof.
  revert i. induction l as [| s l IH]; intros i; simpl; [reflexivity |].
  rewrite IH. reflexivity.
Qed.

Lemma create_file_returns (filepath content : pyval) (a : Agent) (w : World) :
  exists out w', create_file env filepath content a w = (Ok out, a, w').
Proof.
  unfold create_file, try_except, bind, call_exc.
  destruct (write_file env filepath content w) as [[[] | e] w'];
    unfold ret; eauto.
Qed.

Lemma web_search_returns (query : pyval) (a : Agent) (w : World) :
  exists out w', web_search env query a w = (Ok out, a, w').
Proof.
  unfold web_search, bind, self.
  destruct (tavily_api_key a) as [key |]; [| unfold ret; eauto].
  destruct (is_empty key); [unfold ret; eauto |].
  unfold try_except, call_exc.
  destruct (tavily_search env key query w) as [[out | e] w'];
    unfold ret; eauto.
Qed.

(** A well-formed action adds texts to the outputs, or nothing, and
    raises nothing. *)
Lemma run_action_well_formed (action : pyval) (outputs : list pyval)
    (a : Agent) (w : World) :
  well_formed_action action = true ->
  exists new w',
    run_action env action outputs a w = (Ok (outputs ++ map PStr new), a, w').
Proof.
  intros Hwf.
  destruct action as [| b | z | n m e | | n | s | l | d];
    try (simpl in Hwf; discriminate Hwf).
  unfold well_formed_action in Hwf. unfold run_action.
  destruct (eq_str (get d (py "tool")) (py "create_file")) eqn:E1.
  { destruct (negb (truthy (get d (py "path")))).
    - eexists [_], w. reflexivity.
    - unfold bind.
      destruct (create_file_returns (get d (py "path"))
                  (get_default d (py "content") (PStr [])) a w)
        as [out [w' ->]].
      exists [out], w'. reflexivity. }
  destruct (eq_str (get d (py "tool")) (py "run_command")) eqn:E2.
  { destruct (negb (truthy (get d (py "command")))).
    - eexists [_], w. reflexivity.
    - unfold bind.
      destruct (run_command_returns (get d (py "command")) a w)
        as [out [w' ->]].
      exists [out], w'. reflexivity. }
  destruct (eq_str (get d (py "tool")) (py "web_search")) eqn:E3.
  { destruct (negb (truthy (get d (py "query")))).
    - eexists [_], w. reflexivity.
    - unfold bind.
      destruct (web_search_returns (get d (py "query")) a w)
        as [out [w' ->]].
      exists [out], w'. reflexivity. }
  destruct (eq_str (get d (py "tool")) (py "reply")) eqn:E4.
  { destruct (get_default d (py "text") (PStr []))
      as [| b | z | n m e | | n | t | l | d'] eqn:Et;
      try (rewrite (proj1 (negb_true_iff _) Hwf);
           exists [], w; simpl; rewrite app_nil_r; reflexivity).
    destruct (truthy (PStr t)).
    - exists [t], w. reflexivity.
    - exists [], w. simpl. rewrite app_nil_r. reflexivity. }
  eexists [_], w. reflexivity.
Qed.

Lemma run_actions_well_formed (actions : list pyval) (outputs : list pyval)
    (a : Agent) (w : World) :
  forallb well_formed_action actions = true ->
  exists new w',
    run_actions env actions outputs a w =
    (Ok (outputs ++ map PStr new), a, w').
Proof.
  revert outputs w. induction actions as [| action rest IH];
    intros outputs w Hwf; simpl.
  - exists [], w. simpl. rewrite app_nil_r. reflexivity.
  - simpl in Hwf. apply andb_true_iff in Hwf. destruct Hwf as [Ha Hrest].
    destruct (run_action_well_formed action outputs a w Ha)
      as [new1 [w1 H1]].
    destruct (IH (outputs ++ map PStr new1) w1 Hrest) as [new2 [w2 H2]].
    exists (new1 ++ new2), w2.
    unfold bind. rewrite H1, H2. rewrite map_app, app_assoc. reflexivity.
Qed.

Lemma run_actions_app (l1 l2 : list pyval) (outputs : list pyval)
    (a : Agent) (w : World) :
  run_actions env (l1 ++ l2) outputs a w =
  bind (run_actions env l1 outputs) (run_actions env l2) a w.
Proof.
  revert outputs a w. induction l1 as [| x l1 IH]; intros outputs a w.
  - reflexivity.
  - simpl. unfold bind.
    destruct (run_action env x outputs a w) as [[[o | e] a1] w1];
      [| reflexivity].
    rewrite IH. reflexivity.
Qed.



Lemma bind_ok {X Y : Type} (m : M World X) (k : X -> M World Y)
    (x : X) (a a' : Agent) (w w' : World) :
  m a w = (Ok x, a', w') -> bind m k a w = k x a' w'.
Proof. intros H. unfold bind. rewrite H. reflexivity. Qed.

Lemma run_actions_cons (x : pyval) (l outputs : list pyval)
    (a : Agent) (w : World) :
  run_actions env (x :: l) outputs a w =
  bind (run_action env x outputs) (run_actions env l) a w.
Proof. reflexivity. Qed.









End Properties.

(* ================================================================== *)
(** * Invariants of the methods *)

(** ** Dictionaries *)

Lemma str_eqb_refl (x : pystr) : str_eqb x x = true.
Proof.
  induction x as [| c x IH]; simpl; [reflexivity |].
  rewrite N.eqb_refl. exact IH.
Qed.

Lemma str_eqb_neq (x y : pystr) : x <> y -> str_eqb x y = false.
Proof.
  intros H. destruct (str_eqb x y) eqn:E; [| reflexivity].
  exfalso. apply H. exact (str_eqb_eq x y E).
Qed.

Lemma str_eqb_trans_false (k k' x : pystr) :
  str_eqb k' k = false -> str_eqb x k' = true -> str_eqb x k = false.
Proof.
  intros Hne Hx. apply str_eqb_eq in Hx. subst x. exact Hne.
Qed.

(** Lookup after assignment, same key. *)
Lemma dict_get_set_same (d : dict) (k : pystr) (v : pyval) :
  dict_get (dict_set d k v) k = Some v.
Proof.
  induction d as [| [k' v'] d IH]; simpl.
  - rewrite str_eqb_refl. reflexivity.
  - destruct (str_eqb k' k) eqn:E; simpl; rewrite E; [reflexivity | exact IH].
Qed.

(** Lookup after assignment, another key. *)
Lemma dict_get_set_other (d : dict) (k k' : pystr) (v : pyval) :
  str_eqb k' k = false ->
  dict_get (dict_set d k' v) k = dict_get d k.
Proof.
  intros Hne. induction d as [| [k0 v0] d IH]; simpl.
  - rewrite Hne. reflexivity.
  - destruct (str_eqb k0 k') eqn:E; simpl.
    + rewrite (str_eqb_trans_false k k' k0 Hne E). reflexivity.
    + destruct (str_eqb k0 k); [reflexivity | exact IH].
Qed.

(** ** Rules for [keeps] *)

Section KeepsRules.

Variable World : Type.
Variable P : Agent -> Prop.

Lemma keeps_ret {A : Type} (x : A) : keeps P (@ret World A x).
Proof. intros a w H. exact H. Qed.

Lemma keeps_raise {A : Type} (e : exn) : keeps P (@raise World A e).
Proof. intros a w H. exact H. Qed.

Lemma keeps_lift {A : Type} (r : result A) : keeps P (@lift World A r).
Proof. intros a w H. exact H. Qed.

Lemma keeps_self : keeps P (@self World).
Proof. intros a w H. exact H. Qed.

Lemma keeps_call {A : Type} (f : World -> A * World) : keeps P (call f).
Proof.
  intros a w H. unfold call. destruct (f w) as [x w']. exact H.
Qed.

Lemma keeps_call_exc {A : Type} (f : World -> result A * World) :
  keeps P (call_exc f).
Proof.
  intros a w H. unfold call_exc. destruct (f w) as [x w']. exact H.
Qed.

Lemma keeps_update (f : Agent -> Agent) :
  (forall a, P a -> P (f a)) -> keeps P (@update World f).
Proof. intros Hf a w H. exact (Hf a H). Qed.

Lemma keeps_bind {A C : Type} (m : M World A) (k : A -> M World C) :
  keeps P m -> (forall x, keeps P (k x)) -> keeps P (bind m k).
Proof.
  intros Hm Hk a w H. unfold bind.
  specialize (Hm a w H).
  destruct (m a w) as [[[x | e] a'] w']; simpl in Hm.
  - exact (Hk x a' w' Hm).
  - exact Hm.
Qed.

Lemma keeps_try_except {A : Type} (m : M World A) (h : exn -> M World A) :
  keeps P m -> (forall e, keeps P (h e)) -> keeps P (try_except m h).
Proof.
  intros Hm Hh a w H. unfold try_except.
  specialize (Hm a w H).
  destruct (m a w) as [[[x | e] a'] w']; simpl in Hm.
  - exact Hm.
  - exact (Hh e a' w' Hm).
Qed.

End KeepsRules.

Lemma leads_bind {World A C : Type} (Q R P : Agent -> Prop)
    (m : M World A) (k : A -> M World C) :
  leads Q R m -> (forall x, leads R P (k x)) ->
  (forall a, R a -> P a) ->
  leads Q P (bind m k).
Proof.
  intros Hm Hk HRP a w H. unfold bind.
  specialize (Hm a w H).
  destruct (m a w) as [[[x | e] a'] w']; simpl in Hm.
  - exact (Hk x a' w' Hm).
  - exact (HRP a' Hm).
Qed.

Ltac keeps_step :=
  lazymatch goal with
  | |- keeps _ (bind _ _) => apply keeps_bind; [| intro]
  | |- keeps _ (try_except _ _) => apply keeps_try_except; [| intro]
  | |- keeps _ (ret _) => apply keeps_ret
  | |- keeps _ (raise _) => apply keeps_raise
  | |- keeps _ (lift _) => apply keeps_lift
  | |- keeps _ self => apply keeps_self
  | |- keeps _ (call _) => apply keeps_call
  | |- keeps _ (call_exc _) => apply keeps_call_exc
  | |- keeps _ (update _) => apply keeps_update; intros
  | |- keeps _ (if ?b then _ else _) => destruct b
  | |- keeps _ (match ?x with _ => _ end) => destruct x
  end.

(** ** What every method keeps

    [P] is a predicate that the assignments of the methods respect:
    the hypotheses list them. *)

Section Invariant.

Context {B : PyBuiltins}.
Variable World : Type.
Variable env : Env World.
Variable P : Agent -> Prop.

Hypothesis P_memory : forall a k v,
  str_in k later_keys = true ->
  P a -> P (with_memory a (dict_set (memory a) k v)).
Hypothesis P_save : keeps P (save_memory env).
Hypothesis P_append :
  forall role content, keeps P (_append_history env role content).
Hypothesis P_model : forall a n, P a -> P (with_model_name a n).
Hypothesis P_planner : forall a n, P a -> P (with_planner_model_name a n).
Hypothesis P_llm : forall a l, P a -> P (with_llm a l).
Hypothesis P_planner_llm : forall a l, P a -> P (with_planner_llm a l).
Hypothesis P_server : forall a p, P a -> P (with_server_process a p).

Ltac keeps_update_tac :=
  lazymatch goal with
  | |- keeps _ _ => fail
  | |- _ (with_model_name _ _) => apply P_model; assumption
  | |- _ (with_planner_model_name _ _) => apply P_planner; assumption
  | |- _ (with_llm _ _) => apply P_llm; assumption
  | |- _ (with_planner_llm _ _) => apply P_planner_llm; assumption
  | |- _ (with_server_process _ _) => apply P_server; assumption
  | |- _ (with_memory _ (dict_set _ _ _)) =>
    apply P_memory; [vm_compute; reflexivity | assumption]
  end.

Ltac keeps_known :=
  lazymatch goal with
  | |- keeps _ (save_memory _) => apply P_save
  | |- keeps _ (_append_history _ _ _) => apply P_append
  | H : keeps _ ?m |- keeps _ ?m => exact H
  end.

Ltac keeps_tac :=
  repeat (first [ keeps_known | keeps_step | keeps_update_tac ]).

Lemma keeps_remember_later (key value : pystr) :
  str_in key later_keys = true -> keeps P (remember env key value).
Proof.
  intros Hk. unfold remember.
  apply keeps_bind; [| intro; apply P_save].
  apply keeps_update. intros a Ha. apply P_memory; assumption.
Qed.

Lemma keeps_init_llm : keeps P (_init_llm env).
Proof. unfold _init_llm. keeps_tac. Qed.

Lemma keeps_set_model (name : option pystr) : keeps P (set_model env name).
Proof.
  unfold set_model. cbv zeta. keeps_tac. apply keeps_init_llm.
Qed.

Lemma keeps_set_planner_model (name : option pystr) :
  keeps P (set_planner_model env name).
Proof.
  unfold set_planner_model. cbv zeta. keeps_tac. apply keeps_init_llm.
Qed.

Lemma keeps_web_search (query : pyval) : keeps P (web_search env query).
Proof. unfold web_search. keeps_tac. Qed.

Lemma keeps_create_file (filepath content : pyval) :
  keeps P (create_file env filepath content).
Proof. unfold create_file. keeps_tac. Qed.

Lemma keeps_run_command (command : pyval) :
  keeps P (run_command env command).
Proof. unfold run_command. keeps_tac. Qed.

Lemma keeps_list_files (folder : option pystr) :
  keeps P (_list_files env folder).
Proof. unfold _list_files. keeps_tac. Qed.

Lemma keeps_read_file_text (path : option pystr) :
  keeps P (_read_file_text env path).
Proof. unfold _read_file_text. cbv zeta. keeps_tac. Qed.

Lemma keeps_ollama_embed (text : option pystr) :
  keeps P (_ollama_embed env text).
Proof. unfold _ollama_embed. cbv zeta. keeps_tac. Qed.

Lemma keeps_rag_add (text : option pystr) (meta : dict) :
  keeps P (rag_add env text meta).
Proof.
  unfold rag_add. cbv zeta. keeps_tac; apply keeps_ollama_embed.
Qed.

Lemma keeps_rag_query (query : option pystr) (k : Z) :
  keeps P (rag_query env query k).
Proof.
  unfold rag_query. cbv zeta. keeps_tac; apply keeps_ollama_embed.
Qed.

Lemma keeps_serve_start (folder : pyval) (port : Z) :
  keeps P (_serve_start env folder port).
Proof. unfold _serve_start. cbv zeta. keeps_tac. Qed.

Lemma keeps_serve_stop : keeps P (_serve_stop env).
Proof. unfold _serve_stop. keeps_tac. Qed.

Lemma keeps_respond (m : M World pystr) :
  keeps P m -> keeps P (respond env m).
Proof. intros Hm. unfold respond. keeps_tac. Qed.

Lemma keeps_serve_directive (s : pystr) : keeps P (serve_directive env s).
Proof.
  unfold serve_directive.
  destruct (py_split s) as [| p0 [| p1 rest]].
  - apply keeps_raise.
  - keeps_tac; apply keeps_respond; apply keeps_serve_start.
  - destruct (str_eqb (py_lower p1) (py "stop")).
    + apply keeps_respond, keeps_serve_stop.
    + destruct rest as [| p2 rest'].
      * apply keeps_respond, keeps_serve_start.
      * destruct (py_int (PStr p2)).
        -- apply keeps_respond, keeps_serve_start.
        -- apply keeps_respond, keeps_ret.
Qed.

Lemma keeps_plan (user_input : pystr) : keeps P (_plan env user_input).
Proof.
  unfold _plan. cbv zeta. keeps_tac. apply keeps_rag_query.
Qed.

Lemma keeps_run_action (action : pyval) (outputs : list pyval) :
  keeps P (run_action env action outputs).
Proof.
  unfold run_action. cbv zeta.
  destruct action; try apply keeps_raise.
  keeps_tac;
    first [apply keeps_create_file | apply keeps_run_command
          | apply keeps_web_search].
Qed.

Lemma keeps_run_actions (actions outputs : list pyval) :
  keeps P (run_actions env actions outputs).
Proof.
  revert outputs. induction actions as [| action rest IH]; intros outputs.
  - apply keeps_ret.
  - simpl. apply keeps_bind; [apply keeps_run_action | intro; apply IH].
Qed.

Lemma keeps_execute_plan (plan : dict) : keeps P (_execute_plan env plan).
Proof.
  unfold _execute_plan.
  apply keeps_bind; [apply keeps_lift | intro].
  apply keeps_bind; [apply keeps_run_actions | intro].
  apply keeps_bind; [apply keeps_lift | intro; apply keeps_ret].
Qed.

Lemma keeps_try_plan (planned : pystr) : keeps P (try_plan env planned).
Proof.
  unfold try_plan.
  destruct (startswith planned (py "{")); [| apply keeps_ret].
  apply keeps_try_except; [| intro; apply keeps_ret].
  destruct (json_loads planned) as [v |]; [| apply keeps_raise].
  destruct v; try apply keeps_raise.
  destruct (eq_str (get d (py "type")) (py "plan")); [| apply keeps_ret].
  apply keeps_bind; [apply keeps_execute_plan | intro].
  apply keeps_bind;
    [apply keeps_remember_later; vm_compute; reflexivity | intro].
  apply keeps_bind; [apply P_append | intro; apply keeps_ret].
Qed.

Lemma keeps_normal_response (user_input : pystr) :
  keeps P (normal_response env user_input).
Proof.
  unfold normal_response. cbv zeta.
  keeps_tac; first [apply keeps_rag_query | apply keeps_rag_add].
Qed.

Lemma keeps_after_planning (user_input planned : pystr) :
  keeps P (after_planning env user_input planned).
Proof.
  unfold after_planning.
  apply keeps_bind; [apply keeps_try_plan | intros [out |]].
  - apply keeps_ret.
  - apply keeps_normal_response.
Qed.

(** The three methods of the pending command need that [P] respects
    their assignment. *)
Section Gate.

Hypothesis P_pending : forall a c r, P a -> P (with_pending a c r).

Lemma keeps_queue_command (command reason : pystr) :
  keeps P (@_queue_command World command reason).
Proof.
  unfold _queue_command.
  apply keeps_bind; [| intro; apply keeps_ret].
  apply keeps_update. intros a Ha. apply P_pending. exact Ha.
Qed.

Lemma keeps_confirm_command : keeps P (_confirm_command env).
Proof.
  unfold _confirm_command.
  apply keeps_bind; [apply keeps_self | intros a0].
  destruct (_pending_command a0) as [cmd |]; [| apply keeps_ret].
  destruct (is_empty cmd); [apply keeps_ret |].
  apply keeps_bind; [| intro; apply keeps_run_command].
  apply keeps_update. intros a Ha. apply P_pending. exact Ha.
Qed.

Lemma keeps_cancel_command : keeps P (@_cancel_command World).
Proof.
  unfold _cancel_command.
  apply keeps_bind; [apply keeps_self | intros a0].
  destruct (negb (truthy_opt (_pending_command a0))); [apply keeps_ret |].
  apply keeps_bind; [| intro; apply keeps_ret].
  apply keeps_update. intros a Ha. apply P_pending. exact Ha.
Qed.

End Gate.

Lemma process_request_body_route (user_input : pystr) :
  process_request_body env user_input =
  bind (_append_history env (py "user") user_input)
    (fun _ => bind (remember env (py "last_request") user_input)
                (fun _ => route env user_input)).
Proof. reflexivity. Qed.

(** The directives and the planner path keep [P], when [P] respects
    the assignment of the pending command or the input is none of the
    directives that assign it. *)
Lemma keeps_route (user_input : pystr) :
  ((forall a c r, P a -> P (with_pending a c r))
   \/ is_gate_directive user_input = false) ->
  keeps P (route env user_input).
Proof.
  intros Hgate. unfold route. cbv zeta.
  destruct (str_in (py_lower (py_strip user_input))
              [py "/models"; py "/model list"]).
  { keeps_tac. apply keeps_respond, keeps_ret. }
  destruct (startswith (py_lower (py_strip user_input)) (py "/model ")).
  { destruct (str_in _ _).
    - keeps_tac. apply keeps_respond, keeps_ret.
    - apply keeps_respond, keeps_set_model. }
  destruct (str_in (py_lower (py_strip user_input))
              [py "/planner"; py "/planner show"]).
  { keeps_tac. apply keeps_respond, keeps_ret. }
  destruct (startswith (py_lower (py_strip user_input)) (py "/planner ")).
  { apply keeps_respond, keeps_set_planner_model. }
  destruct (startswith (py_lower (py_strip user_input)) (py "/remember ")).
  { apply keeps_respond, keeps_rag_add. }
  destruct (startswith (py_lower (py_strip user_input)) (py "/memories")).
  { destruct (is_empty _).
    - apply keeps_respond, keeps_ret.
    - apply keeps_bind; [apply keeps_rag_query | intros items].
      destruct items; apply keeps_respond, keeps_ret. }
  destruct (startswith (py_lower (py_strip user_input)) (py "/serve")).
  { apply keeps_serve_directive. }
  destruct (str_in (py_lower (py_strip user_input)) [py "/pwd"; py "/cwd"]).
  { apply keeps_respond, keeps_call_exc. }
  destruct (startswith (py_lower (py_strip user_input)) (py "/files")).
  { destruct (py_split1 (py_strip user_input)) as [| x [| y [| z l]]];
      apply keeps_respond, keeps_list_files. }
  destruct (startswith (py_lower (py_strip user_input)) (py "/open ")).
  { apply keeps_respond, keeps_read_file_text. }
  unfold is_gate_directive in Hgate.
  destruct (str_eqb (py_lower (py_strip user_input)) (py "/confirm")) eqn:E1.
  { destruct Hgate as [Hp | Hn]; [| discriminate Hn].
    apply keeps_respond, keeps_confirm_command, Hp. }
  destruct (str_eqb (py_lower (py_strip user_input)) (py "/cancel")) eqn:E2.
  { destruct Hgate as [Hp | Hn]; [| discriminate Hn].
    apply keeps_respond, keeps_cancel_command, Hp. }
  destruct (startswith (py_lower (py_strip user_input)) (py "/run ")) eqn:E3.
  { destruct Hgate as [Hp | Hn]; [| discriminate Hn].
    destruct (is_empty _); [apply keeps_respond, keeps_ret |].
    destruct (_is_command_allowed _).
    - apply keeps_respond, keeps_run_command.
    - apply keeps_respond, keeps_queue_command, Hp. }
  destruct (startswith (py_lower (py_strip user_input)) (py "/search ")).
  { apply keeps_respond, keeps_web_search. }
  apply keeps_bind; [apply keeps_plan | intro; apply keeps_after_planning].
Qed.

(** A request leads from [Q] to [P] when recording it does and [P] is
    kept afterwards. *)
Lemma leads_process_request (Q R : Agent -> Prop) (user_input : pystr) :
  ((forall a c r, P a -> P (with_pending a c r))
   \/ is_gate_directive user_input = false) ->
  leads Q R (_append_history env (py "user") user_input) ->
  leads R P (remember env (py "last_request") user_input) ->
  leads Q P (process_request env user_input).
Proof.
  intros Hgate Hfirst Hsecond a w HQ.
  assert (Hbody : P (agent_of (process_request_body env user_input a w))).
  { rewrite process_request_body_route.
    pose proof (Hfirst a w HQ) as H1.
    pose proof (Hsecond _ (world_of (_append_history env (py "user")
                                       user_input a w)) H1) as H2.
    exact (keeps_route user_input Hgate _ _ H2). }
  unfold process_request, try_except.
  destruct (process_request_body env user_input a w) as [[[out | e] a'] w'];
    exact Hbody.
Qed.

End Invariant.

(* ================================================================== *)
(** * What a request changes and what it leaves alone *)

Lemma str_eqb_sym (x y : pystr) : str_eqb x y = str_eqb y x.
Proof.
  revert y. induction x as [| c x IH]; destruct y as [| d y]; simpl;
    try reflexivity.
  rewrite IH, N.eqb_sym. reflexivity.
Qed.

Lemma str_in_false (k x : pystr) (l : list pystr) :
  str_in k l = false -> In x l -> str_eqb x k = false.
Proof.
  unfold str_in. intros H Hin.
  destruct (str_eqb x k) eqn:E; [| reflexivity].
  rewrite str_eqb_sym in E.
  assert (Ht : existsb (str_eqb k) l = true)
    by (apply existsb_exists; exists x; auto).
  congruence.
Qed.

Lemma str_in_true (k : pystr) (l : list pystr) :
  str_in k l = true -> In k l.
Proof.
  unfold str_in. intros H. apply existsb_exists in H.
  destruct H as [x [Hin Hx]]. apply str_eqb_eq in Hx. subst x. exact Hin.
Qed.

Lemma later_keys_written (k : pystr) :
  str_in k later_keys = true -> In k written_keys.
Proof.
  intros H. apply str_in_true in H.
  change written_keys
    with (py "chat_history" :: py "last_request" :: later_keys).
  right. right. exact H.
Qed.

Lemma serve_requests_cons {B : PyBuiltins} (World : Type) (env : Env World)
    (i : pystr) (rest : list pystr) (a : Agent) (w : World) :
  snd (fst (serve_requests env (i :: rest) a w)) =
  snd (fst (serve_requests env rest
              (agent_of (process_request env i a w))
              (world_of (process_request env i a w)))).
Proof.
  simpl.
  destruct (process_request_ok World env i a w) as [out [a' [w' H]]].
  rewrite H. unfold agent_of, world_of. cbn [fst snd].
  destruct (serve_requests env rest a' w') as [[outs a''] w''].
  reflexivity.
Qed.

Section Session.

Context {B : PyBuiltins}.
Variable World : Type.
Variable env : Env World.

(** X1. A request never changes the history cap, the search key or the
    settings of the retrieval store. *)
Theorem process_request_keeps_settings (user_input : pystr) (a : Agent)
    (w : World) :
  let a' := agent_of (process_request env user_input a w) in
  max_history a' = max_history a
  /\ tavily_api_key a' = tavily_api_key a
  /\ rag_enabled a' = rag_enabled a
  /\ rag_embed_model a' = rag_embed_model a
  /\ rag_k a' = rag_k a
  /\ _chroma_collection a' = _chroma_collection a.
Proof.
  set (P := fun x : Agent =>
         max_history x = max_history a
         /\ tavily_api_key x = tavily_api_key a
         /\ rag_enabled x = rag_enabled a
         /\ rag_embed_model x = rag_embed_model a
         /\ rag_k x = rag_k a
         /\ _chroma_collection x = _chroma_collection a).
  apply (leads_process_request World env P) with (Q := P) (R := P);
    try (intros; assumption).
  - intros x w0 H. exact H.
  - intros role content x w0 H. exact H.
  - left. intros x c r H. exact H.
  - intros x w0 H. exact H.
  - intros x w0 H. exact H.
  - repeat split.
Qed.

Lemma process_request_max_history (user_input : pystr) (a : Agent)
    (w : World) :
  max_history (agent_of (process_request env user_input a w)) =
  max_history a.
Proof.
  set (P := fun x : Agent => max_history x = max_history a).
  apply (leads_process_request World env P) with (Q := P) (R := P);
    try (intros; assumption).
  - intros x w0 H. exact H.
  - intros role content x w0 H. exact H.
  - left. intros x c r H. exact H.
  - intros x w0 H. exact H.
  - intros x w0 H. exact H.
  - reflexivity.
Qed.

(** X2. With a positive cap the history holds at most [max_history]
    entries after a request, whatever the request does and however
    long the history was before; the same after any non-empty list of
    requests. *)
Theorem process_request_history_bounded (user_input : pystr)
    (rest : list pystr) (a : Agent) (w : World) :
  (0 < max_history a)%Z ->
  (Z.of_nat (List.length
     (chat_history (agent_of (process_request env user_input a w))))
   <= max_history a)%Z
  /\ (Z.of_nat (List.length
        (chat_history
           (snd (fst (serve_requests env (user_input :: rest) a w)))))
      <= max_history a)%Z.
Proof.
  assert (Hone : forall i x w0, (0 < max_history x)%Z ->
            (Z.of_nat (List.length
               (chat_history (agent_of (process_request env i x w0))))
             <= max_history x)%Z).
  { intros i x w0 Hpos.
    set (P := fun y : Agent =>
           max_history y = max_history x
           /\ (Z.of_nat (List.length (chat_history y)) <= max_history x)%Z).
    assert (HP : P (agent_of (process_request env i x w0))).
    { apply (leads_process_request World env P)
        with (Q := fun y => max_history y = max_history x) (R := P);
        try (intros; assumption).
      - intros y w1 H. exact H.
      - intros role content y w1 [Hm Hl]. split; [exact Hm |].
        rewrite <- Hm.
        apply (append_history_bounded World env role content y w1).
        rewrite Hm. exact Hpos.
      - left. intros y c r H. exact H.
      - intros y w1 Hm. split; [exact Hm |]. rewrite <- Hm.
        apply (append_history_bounded World env (py "user") i y w1).
        rewrite Hm. exact Hpos.
      - intros y w1 H. exact H.
      - reflexivity. }
    exact (proj2 HP). }
  intros Hpos. split; [exact (Hone user_input a w Hpos) |].
  revert user_input a w Hpos.
  induction rest as [| j rest IH]; intros i a w Hpos.
  - rewrite serve_requests_cons. simpl. exact (Hone i a w Hpos).
  - rewrite serve_requests_cons.
    rewrite <- (process_request_max_history i a w).
    apply IH. rewrite process_request_max_history. exact Hpos.
Qed.

(** X3. After a request the [chat_history] entry of the memory is the
    last thirty entries of the history the agent holds, so it has at
    most thirty entries, whatever [max_history] is. *)
Theorem process_request_persists_last_thirty (user_input : pystr)
    (a : Agent) (w : World) :
  let a' := agent_of (process_request env user_input a w) in
  dict_get (memory a') (py "chat_history") =
    Some (PList (slice_from (-30) (chat_history a')))
  /\ List.length (slice_from (-30) (chat_history a')) <= 30.
Proof.
  intros a'. split.
  - set (P := fun x : Agent =>
           dict_get (memory x) (py "chat_history") =
           Some (PList (slice_from (-30) (chat_history x)))).
    apply (leads_process_request World env P)
      with (Q := fun _ => True) (R := fun _ => True);
      try (intros; assumption); try exact I.
    + intros x k v Hk H. unfold P in *. simpl memory. simpl chat_history.
      rewrite dict_get_set_other; [exact H |].
      apply (str_in_false (py "chat_history") k later_keys);
        [vm_compute; reflexivity | apply str_in_true; exact Hk].
    + intros x w0 _. apply dict_get_set_same.
    + intros role content x w0 _. apply dict_get_set_same.
    + left. intros x c r H. exact H.
    + intros x w0 _. exact I.
    + intros x w0 _. apply dict_get_set_same.
  - unfold slice_from. change (-30 <? 0)%Z with true. cbv iota.
    rewrite length_skipn. lia.
Qed.

(** X4. A request assigns only the memory keys of [written_keys]: the
    value of every other key is what it was. *)
Theorem process_request_memory_frame (user_input key : pystr) (a : Agent)
    (w : World) :
  str_in key written_keys = false ->
  dict_get (memory (agent_of (process_request env user_input a w))) key =
  dict_get (memory a) key.
Proof.
  intros Hkey.
  assert (Hother : forall k, In k written_keys -> str_eqb k key = false).
  { intros k Hin. exact (str_in_false key k written_keys Hkey Hin). }
  set (P := fun x : Agent => dict_get (memory x) key = dict_get (memory a) key).
  assert (Hset : forall x k v, In k written_keys -> P x ->
            P (with_memory x (dict_set (memory x) k v))).
  { intros x k v Hin H. unfold P in *. simpl memory.
    rewrite dict_get_set_other; [exact H | exact (Hother k Hin)]. }
  assert (Hsave : keeps P (save_memory env)).
  { intros x w0 H. apply (Hset x (py "chat_history")); [| exact H].
    left. reflexivity. }
  assert (Happ : forall role content,
            keeps P (_append_history env role content)).
  { intros role content x w0 H.
    apply (Hset (with_chat_history x _) (py "chat_history")); [| exact H].
    left. reflexivity. }
  refine (leads_process_request World env P _ Hsave Happ _ _ _ _ _
            P P user_input _ _ _ a w _).
  - intros x k v Hk H. apply Hset; [| exact H].
    apply later_keys_written. exact Hk.
  - intros x n H. exact H.
  - intros x n H. exact H.
  - intros x l H. exact H.
  - intros x l H. exact H.
  - intros x p H. exact H.
  - left. intros x c r H. exact H.
  - apply Happ.
  - intros x w0 H.
    apply (Hset (with_memory x _) (py "chat_history"));
      [left; reflexivity |].
    apply Hset; [right; left; reflexivity | exact H].
  - reflexivity.
Qed.

(** X5. After a request the memory holds the text of that request under
    [last_request], whatever the request was and however it ended. *)
Theorem process_request_records_last_request (user_input : pystr)
    (a : Agent) (w : World) :
  dict_get (memory (agent_of (process_request env user_input a w)))
    (py "last_request") = Some (PStr user_input).
Proof.
  set (P := fun x : Agent =>
         dict_get (memory x) (py "last_request") = Some (PStr user_input)).
  assert (Hset : forall x k v,
            str_eqb k (py "last_request") = false -> P x ->
            P (with_memory x (dict_set (memory x) k v))).
  { intros x k v Hk H. unfold P in *. simpl memory.
    rewrite dict_get_set_other; [exact H | exact Hk]. }
  refine (leads_process_request World env P _ _ _ _ _ _ _ _
            (fun _ => True) (fun _ => True) user_input _ _ _ a w I).
  - intros x k v Hk H. apply Hset; [| exact H].
    apply (str_in_false (py "last_request") k later_keys);
      [vm_compute; reflexivity | apply str_in_true; exact Hk].
  - intros x w0 H. apply (Hset x (py "chat_history")); [reflexivity | exact H].
  - intros role content x w0 H.
    apply (Hset (with_chat_history x _) (py "chat_history"));
      [reflexivity | exact H].
  - intros x n H. exact H.
  - intros x n H. exact H.
  - intros x l H. exact H.
  - intros x l H. exact H.
  - intros x p H. exact H.
  - left. intros x c r H. exact H.
  - intros x w0 _. exact I.
  - intros x w0 _.
    apply (Hset (with_memory x _) (py "chat_history")); [reflexivity |].
    unfold P. simpl memory. apply dict_get_set_same.
Qed.

(** X6. Only [/confirm], [/cancel] and [/run ...] touch the pending
    command: after any other request, a plan that runs commands
    included, the pending command and its reason are what they
    were. *)
Theorem process_request_keeps_pending (user_input : pystr) (a : Agent)
    (w : World) :
  is_gate_directive user_input = false ->
  _pending_command (agent_of (process_request env user_input a w)) =
    _pending_command a
  /\ _pending_command_reason (agent_of (process_request env user_input a w)) =
     _pending_command_reason a.
Proof.
  intros Hgate.
  set (P := fun x : Agent =>
         _pending_command x = _pending_command a
         /\ _pending_command_reason x = _pending_command_reason a).
  apply (leads_process_request World env P) with (Q := P) (R := P);
    try (intros; assumption).
  - intros x w0 H. exact H.
  - intros role content x w0 H. exact H.
  - right. exact Hgate.
  - intros x w0 H. exact H.
  - intros x w0 H. exact H.
  - split; reflexivity.
Qed.

End Session.

(* ================================================================== *)
(** * More on the plan executor *)

Section Executor.

Context {B : PyBuiltins}.
Variable World : Type.
Variable env : Env World.

Lemma execute_plan_agent (plan : dict) (a : Agent) (w : World) :
  agent_of (_execute_plan env plan a w) = a.
Proof.
  exact (keeps_execute_plan World env (fun x => x = a) plan a w eq_refl).
Qed.

Lemma run_actions_agent (actions outputs : list pyval) (a : Agent)
    (w : World) :
  agent_of (run_actions env actions outputs a w) = a.
Proof.
  exact (keeps_run_actions World env (fun x => x = a) actions outputs a w
           eq_refl).
Qed.

(** X7. A plan's [run_command] action is executed at once, for every
    command that is not empty, allowed by the allow-list or not:
    executing a plan made of this one action is running the command,
    and no attribute of the agent changes, the pending command
    included. *)
Theorem plan_command_runs_unchecked (plan d : dict) (cmd : pystr)
    (a : Agent) (w : World) :
  get_default plan (py "actions") (PList []) = PList [PDict d] ->
  eq_str (get d (py "tool")) (py "run_command") = true ->
  get d (py "command") = PStr cmd ->
  is_empty cmd = false ->
  _execute_plan env plan a w = run_command env (PStr cmd) a w
  /\ agent_of (_execute_plan env plan a w) = a.
Proof.
  intros Hactions Htool Hcmd Hne. split; [| apply execute_plan_agent].
  destruct (run_command_returns World env (PStr cmd) a w) as [out [w' Hrun]].
  assert (Hacts : run_actions env [PDict d] [] a w = (Ok [PStr out], a, w')).
  { rewrite run_actions_cons. unfold run_action.
    rewrite (eq_str_eq _ _ Htool), Hcmd.
    replace (eq_str (PStr (py "run_command")) (py "create_file")) with false
      by (vm_compute; reflexivity).
    replace (eq_str (PStr (py "run_command")) (py "run_command")) with true
      by (vm_compute; reflexivity).
    replace (negb (truthy (PStr cmd))) with false
      by (simpl; rewrite Hne; reflexivity).
    unfold bind. rewrite Hrun. reflexivity. }
  unfold _execute_plan. unfold bind at 1. unfold lift at 1.
  rewrite Hactions. simpl iterate. cbv iota beta.
  rewrite (bind_ok World _ _ _ _ _ _ _ Hacts). rewrite Hrun.
  unfold bind, lift, ret.
  destruct out as [| c out']; reflexivity.
Qed.

(** X8. An action that is not an object stops the plan: the actions
    before it have run, the actions after it never run, and
    [_execute_plan] raises instead of returning their outputs; the
    request then continues with the normal response, from the world
    the earlier actions left. *)
Theorem plan_stops_at_non_object_action
    (user_input planned : pystr) (plan : dict) (pre post : list pyval)
    (v : pyval) (a : Agent) (w : World) :
  get_default plan (py "actions") (PList []) = PList (pre ++ v :: post) ->
  forallb well_formed_action pre = true ->
  (forall d, v <> PDict d) ->
  exists outputs w',
    run_actions env pre [] a w = (Ok outputs, a, w')
    /\ _execute_plan env plan a w = (Raise (no_attribute v (py "get")), a, w')
    /\ (startswith planned (py "{") = true ->
        json_loads planned = Some (PDict plan) ->
        eq_str (get plan (py "type")) (py "plan") = true ->
        after_planning env user_input planned a w =
        normal_response env user_input a w').
Proof.
  intros Hactions Hpre Hv.
  destruct (run_actions_well_formed World env pre [] a w Hpre)
    as [new [w' Hrun]].
  exists ([] ++ map PStr new), w'. split; [exact Hrun |].
  assert (Hexec : _execute_plan env plan a w =
                  (Raise (no_attribute v (py "get")), a, w')).
  { unfold _execute_plan. unfold bind at 1. unfold lift at 1.
    rewrite Hactions. simpl iterate. cbv iota beta.
    unfold bind at 1. rewrite run_actions_app.
    rewrite (bind_ok World _ _ _ _ _ _ _ Hrun).
    rewrite run_actions_cons. unfold bind at 1.
    destruct v; try reflexivity.
    exfalso. exact (Hv d eq_refl). }
  split; [exact Hexec |].
  intros Hbrace Hjson Htype.
  unfold after_planning. unfold bind at 1. unfold try_plan.
  rewrite Hbrace, Hjson, Htype. unfold try_except. unfold bind at 1.
  rewrite Hexec. reflexivity.
Qed.

(** X9. The errors the executor reports in line: a [run_command] action
    without a command, a [web_search] action without a query and an
    action whose tool is a string that names no tool each put their
    message in the result of a plan whose actions are well formed,
    and the plan is executed to the end. *)
Theorem plan_reports_invalid_actions
    (plan d : dict) (pre post : list pyval) (line : pystr)
    (a : Agent) (w : World) :
  get_default plan (py "actions") (PList []) = PList (pre ++ PDict d :: post) ->
  forallb well_formed_action (pre ++ post) = true ->
  (eq_str (get d (py "tool")) (py "run_command") = true
   /\ truthy (get d (py "command")) = false
   /\ line = py "❌ run_command missing 'command'")
  \/ (eq_str (get d (py "tool")) (py "web_search") = true
      /\ truthy (get d (py "query")) = false
      /\ line = py "❌ web_search missing 'query'")
  \/ (exists tool,
        get d (py "tool") = PStr tool
        /\ str_in tool [py "create_file"; py "run_command";
                        py "web_search"; py "reply"] = false
        /\ line = py "❌ Unknown tool in plan: " ++ tool) ->
  exists out w',
    _execute_plan env plan a w = (Ok out, a, w') /\ contains out line.
Proof.
  intros Hactions Hwf Hcase.
  rewrite forallb_app in Hwf. apply andb_true_iff in Hwf.
  destruct Hwf as [Hpre Hpost].
  assert (Hstep : forall outputs w0,
            run_action env (PDict d) outputs a w0 =
            (Ok (outputs ++ [PStr line]), a, w0)).
  { intros outputs w0. unfold run_action.
    destruct Hcase as [[Ht [Hc ->]] | [[Ht [Hq ->]] | [tool [Ht [Hn ->]]]]].
    - rewrite (eq_str_eq _ _ Ht) in *.
      replace (eq_str (PStr (py "run_command")) (py "create_file")) with false
        by (vm_compute; reflexivity).
      replace (eq_str (PStr (py "run_command")) (py "run_command")) with true
        by (vm_compute; reflexivity).
      rewrite Hc. reflexivity.
    - rewrite (eq_str_eq _ _ Ht) in *.
      replace (eq_str (PStr (py "web_search")) (py "create_file")) with false
        by (vm_compute; reflexivity).
      replace (eq_str (PStr (py "web_search")) (py "run_command")) with false
        by (vm_compute; reflexivity).
      replace (eq_str (PStr (py "web_search")) (py "web_search")) with true
        by (vm_compute; reflexivity).
      rewrite Hq. reflexivity.
    - rewrite Ht. unfold str_in in Hn. cbn [existsb] in Hn.
      rewrite !orb_false_iff in Hn.
      destruct Hn as [H1 [H2 [H3 [H4 _]]]].
      cbn [eq_str]. rewrite H1, H2, H3, H4.
      rewrite py_format_str. reflexivity. }
  assert (Hline : is_empty line = false).
  { destruct Hcase as [[_ [_ ->]] | [[_ [_ ->]] | [tool [_ [_ ->]]]]];
      reflexivity. }
  destruct (run_actions_well_formed World env pre [] a w Hpre)
    as [n1 [w1 H1]].
  destruct (run_actions_well_formed World env post
              (([] ++ map PStr n1) ++ [PStr line]) a w1 Hpost)
    as [n2 [w2 H2]].
  assert (Hrun : run_actions env (pre ++ PDict d :: post) [] a w =
                 (Ok (map PStr (n1 ++ line :: n2)), a, w2)).
  { rewrite run_actions_app. rewrite (bind_ok World _ _ _ _ _ _ _ H1).
    rewrite run_actions_cons.
    rewrite (bind_ok World _ _ _ _ _ _ _ (Hstep _ w1)).
    rewrite H2. f_equal. f_equal. f_equal.
    cbn [app]. rewrite map_app. cbn [map]. rewrite <- app_assoc.
    reflexivity. }
  exists (join nl (filter (fun s => negb (is_empty s)) (n1 ++ line :: n2))), w2.
  split.
  - unfold _execute_plan. unfold bind at 1. unfold lift at 1.
    rewrite Hactions. simpl iterate. cbv iota beta.
    rewrite (bind_ok World _ _ _ _ _ _ _ Hrun).
    unfold bind, lift. rewrite filter_kept_strings, str_items_strings.
    reflexivity.
  - rewrite filter_app. simpl filter. rewrite Hline. simpl negb. cbv iota.
    destruct (join_item nl line (filter (fun s => negb (is_empty s)) n1)
                (filter (fun s => negb (is_empty s)) n2)) as [u Hu].
    exists u, (join_tail nl (filter (fun s => negb (is_empty s)) n2)).
    exact Hu.
Qed.

End Executor.

(* ================================================================== *)
(** * White space *)

Lemma lstrip_head (s t : pystr) (c : N) :
  lstrip s = c :: t -> is_space c = false.
Proof.
  induction s as [| d s IH]; simpl; [discriminate |].
  destruct (is_space d) eqn:E; [exact IH |].
  intros H. injection H as -> _. exact E.
Qed.

Lemma lstrip_nonspace (c : N) (t : pystr) :
  is_space c = false -> lstrip (c :: t) = c :: t.
Proof. intros H. simpl. rewrite H. reflexivity. Qed.

Lemma lstrip_idem (s : pystr) : lstrip (lstrip s) = lstrip s.
Proof.
  destruct (lstrip s) as [| c t] eqn:E; [reflexivity |].
  apply lstrip_nonspace. exact (lstrip_head s t c E).
Qed.

Lemma lstrip_snoc (u : pystr) (c : N) :
  is_space c = false -> lstrip (u ++ [c]) = lstrip u ++ [c].
Proof.
  intros Hc. induction u as [| d u IH]; simpl.
  - rewrite Hc. reflexivity.
  - destruct (is_space d); [exact IH | reflexivity].
Qed.

Lemma rstrip_cons_nonspace (c : N) (t : pystr) :
  is_space c = false -> rstrip (c :: t) = c :: rstrip t.
Proof.
  intros Hc. unfold rstrip. simpl rev.
  rewrite (lstrip_snoc _ c Hc), rev_app_distr. reflexivity.
Qed.

Lemma rstrip_idem (s : pystr) : rstrip (rstrip s) = rstrip s.
Proof.
  unfold rstrip. rewrite rev_involutive, lstrip_idem. reflexivity.
Qed.

(** Stripping twice is stripping once. *)
Lemma py_strip_idem (s : pystr) : py_strip (py_strip s) = py_strip s.
Proof.
  unfold py_strip.
  destruct (lstrip s) as [| c t] eqn:E; [reflexivity |].
  pose proof (lstrip_head s t c E) as Hc.
  rewrite (rstrip_cons_nonspace c t Hc).
  rewrite (lstrip_nonspace c (rstrip t) Hc).
  rewrite <- (rstrip_cons_nonspace c t Hc). apply rstrip_idem.
Qed.

Lemma lstrip_app_space (ws s : pystr) :
  forallb is_space ws = true -> lstrip (ws ++ s) = lstrip s.
Proof.
  induction ws as [| c ws IH]; simpl; [reflexivity |].
  intros H. apply andb_true_iff in H. destruct H as [Hc Hws].
  rewrite Hc. exact (IH Hws).
Qed.

Lemma forallb_rev {A : Type} (f : A -> bool) (l : list A) :
  forallb f l = true -> forallb f (rev l) = true.
Proof.
  rewrite !forallb_forall. intros H x Hx. apply H.
  apply in_rev. exact Hx.
Qed.

Lemma rstrip_app_space (s ws : pystr) :
  forallb is_space ws = true -> rstrip (s ++ ws) = rstrip s.
Proof.
  intros H. unfold rstrip. rewrite rev_app_distr.
  rewrite (lstrip_app_space (rev ws) (rev s) (forallb_rev _ _ H)).
  reflexivity.
Qed.

Lemma lstrip_nil_all_space (s : pystr) :
  lstrip s = [] -> forallb is_space s = true.
Proof.
  induction s as [| c s IH]; simpl; [reflexivity |].
  destruct (is_space c); [exact IH | discriminate].
Qed.

Lemma lstrip_app_nonempty (s y : pystr) :
  lstrip s <> [] -> lstrip (s ++ y) = lstrip s ++ y.
Proof.
  induction s as [| c s IH]; simpl; [congruence |].
  destruct (is_space c); [exact IH | reflexivity].
Qed.

(** White space around a text does not change what [strip] returns. *)
Lemma py_strip_surrounded (ws1 s ws2 : pystr) :
  forallb is_space ws1 = true -> forallb is_space ws2 = true ->
  py_strip (ws1 ++ s ++ ws2) = py_strip s.
Proof.
  intros H1 H2. unfold py_strip. rewrite (lstrip_app_space ws1 _ H1).
  destruct (lstrip s) as [| c t] eqn:E.
  - rewrite lstrip_all_space; [reflexivity |].
    rewrite forallb_app, (lstrip_nil_all_space s E), H2. reflexivity.
  - rewrite lstrip_app_nonempty by (rewrite E; discriminate).
    rewrite E. apply rstrip_app_space. exact H2.
Qed.

(** X10. The allow-list check does not see white space around the command:
    a command and the same command with blanks before and after it get
    the same answer. *)
Theorem is_command_allowed_ignores_blanks {B : PyBuiltins}
    (ws1 c ws2 : pystr) :
  forallb is_space ws1 = true -> forallb is_space ws2 = true ->
  _is_command_allowed (Some (ws1 ++ c ++ ws2)) =
  _is_command_allowed (Some c)
  /\ _is_command_allowed (Some (py_strip c)) = _is_command_allowed (Some c).
Proof.
  intros H1 H2. unfold _is_command_allowed. cbn [or_empty].
  rewrite (py_strip_surrounded ws1 c ws2 H1 H2), py_strip_idem.
  split; reflexivity.
Qed.

(* ================================================================== *)
(** * Memory, models, retrieval and the served folder *)

Section Services.

Context {B : PyBuiltins}.
Variable World : Type.
Variable env : Env World.

Lemma save_memory_eq (a : Agent) (w : World) :
  save_memory env a w =
  let m := dict_set (memory a) (py "chat_history")
             (PList (slice_from (-30) (chat_history a))) in
  (Ok tt, with_memory a m, write_json env memory_file m w).
Proof. reflexivity. Qed.

Lemma remember_eq (key value : pystr) (a : Agent) (w : World) :
  remember env key value a w =
  let m := dict_set (dict_set (memory a) key (PStr value))
             (py "chat_history")
             (PList (slice_from (-30) (chat_history a))) in
  (Ok tt, with_memory a m, write_json env memory_file m w).
Proof. reflexivity. Qed.

(** X11. [remember] then lookup: the value stored under a key other than
    [chat_history] is read back, the other keys keep their values, and
    the [chat_history] entry is the last thirty entries of the
    history; a value stored under [chat_history] itself is replaced by
    them at once. The memory handed to the file is the memory the
    agent holds. *)
Theorem remember_then_lookup (key value : pystr) (a : Agent) (w : World) :
  let r := remember env key value a w in
  (str_eqb key (py "chat_history") = false ->
   dict_get (memory (agent_of r)) key = Some (PStr value))
  /\ (forall k, str_eqb key k = false ->
        str_eqb (py "chat_history") k = false ->
        dict_get (memory (agent_of r)) k = dict_get (memory a) k)
  /\ dict_get (memory (agent_of r)) (py "chat_history") =
     Some (PList (slice_from (-30) (chat_history a)))
  /\ world_of r = write_json env memory_file (memory (agent_of r)) w
  /\ value_of r = Ok tt.
Proof.
  cbv zeta. rewrite remember_eq. cbv zeta.
  unfold agent_of, world_of, value_of.
  cbn [fst snd memory with_memory].
  split; [| split; [| split; [| split]]].
  - intros Hne. rewrite dict_get_set_other by (rewrite str_eqb_sym; exact Hne).
    apply dict_get_set_same.
  - intros k Hk Hc. rewrite dict_get_set_other by exact Hc.
    apply dict_get_set_other. exact Hk.
  - apply dict_get_set_same.
  - reflexivity.
  - reflexivity.
Qed.

Ltac destruct_chat_ollama :=
  match goal with
  | |- context [chat_ollama env ?m ?t ?w0] =>
    let E := fresh "E" in
    destruct (chat_ollama env m t w0) as [[? | ?] ?] eqn:E
  end.

(** X12. [set_model] with a name that is not blank assigns the stripped
    name to [model_name] and to the memory, and saves the memory,
    before it builds the clients: whatever [ChatOllama] does, the new
    name is in place afterwards. The call returns the confirmation
    text, or raises what [ChatOllama] raised; when [ChatOllama]
    refuses the new name the two clients stay as they were. *)
Theorem set_model_assigns_before_connecting (name : pystr) (a : Agent)
    (w : World) :
  is_empty (py_strip name) = false ->
  let r := set_model env (Some name) a w in
  model_name (agent_of r) = py_strip name
  /\ dict_get (memory (agent_of r)) (py "model_name") =
     Some (PStr (py_strip name))
  /\ planner_model_name (agent_of r) = planner_model_name a
  /\ (value_of r = Ok (py "✅ Model set to: " ++ py_strip name)
      \/ exists e, value_of r = Raise e)
  /\ (forall e,
        (forall t w1, fst (chat_ollama env (py_strip name) t w1) = Raise e) ->
        value_of r = Raise e /\ llm (agent_of r) = llm a
        /\ planner_llm (agent_of r) = planner_llm a).
Proof.
  intros Hne r. unfold r, set_model. cbn [or_empty]. cbv zeta.
  rewrite Hne.
  unfold _init_llm, save_memory, bind, update, self, call_exc, call, ret.
  cbn [model_name planner_model_name with_memory with_model_name with_llm
       with_planner_llm memory chat_history llm planner_llm].
  assert (Hmem : forall d,
            dict_get (dict_set (dict_set d (py "model_name")
                                  (PStr (py_strip name)))
                        (py "chat_history")
                        (PList (slice_from (-30) (chat_history a))))
              (py "model_name") = Some (PStr (py_strip name))).
  { intros d. rewrite dict_get_set_other by reflexivity.
    apply dict_get_set_same. }
  destruct_chat_ollama.
  all: match type of E with
       | chat_ollama env ?m _ _ = _ => change m with (py_strip name) in E
       end.
  all: assert (Hfirst : forall e0,
         (forall t w1,
            fst (chat_ollama env (py_strip name) t w1) = Raise e0) ->
         fst (chat_ollama env (py_strip name)
                (get_default
                   (dict_set (dict_set (memory a) (py "model_name")
                                (PStr (py_strip name)))
                      (py "chat_history")
                      (PList (slice_from (-30) (chat_history a))))
                   (py "temperature") (PFloat false 1 (-1)))
                (write_json env memory_file
                   (dict_set (dict_set (memory a) (py "model_name")
                                (PStr (py_strip name)))
                      (py "chat_history")
                      (PList (slice_from (-30) (chat_history a)))) w)) =
         Raise e0) by (intros e0 He; apply He).
  all: cbn [memory with_memory] in E; setoid_rewrite E in Hfirst;
    cbn [fst] in Hfirst; clear E.
  - destruct_chat_ollama.
    + unfold agent_of, value_of. cbn [fst snd model_name memory
        planner_model_name llm planner_llm].
      split; [reflexivity |]. split; [apply Hmem |].
      split; [reflexivity |]. split; [left; reflexivity |].
      intros e0 He. discriminate (Hfirst e0 He).
    + unfold agent_of, value_of. cbn [fst snd model_name memory
        planner_model_name llm planner_llm].
      split; [reflexivity |]. split; [apply Hmem |].
      split; [reflexivity |]. split; [right; eexists; reflexivity |].
      intros e0 He. discriminate (Hfirst e0 He).
  - unfold agent_of, value_of. cbn [fst snd model_name memory
      planner_model_name llm planner_llm].
    split; [reflexivity |]. split; [apply Hmem |].
    split; [reflexivity |]. split; [right; eexists; reflexivity |].
    intros e0 He. pose proof (Hfirst e0 He) as Hr. injection Hr as ->.
    repeat split.
Qed.

Lemma serve_stop_eq_none (a : Agent) (w : World) :
  _server_process a = None ->
  _serve_stop env a w =
  (Ok (py "ℹ️ No server is currently running."), a, w).
Proof.
  intros Hnone. unfold _serve_stop, bind, self. rewrite Hnone.
  unfold ret, update. cbn [negb].
  destruct a. cbn in Hnone. subst. reflexivity.
Qed.

(** X13. [_serve_stop] always returns a text and leaves no server process
    behind; a second stop right after it is the informational message
    and changes neither the agent nor the world. *)
Theorem serve_stop_twice (a : Agent) (w : World) :
  let r := _serve_stop env a w in
  (value_of r = Ok (py "✅ Server stopped.")
   \/ value_of r = Ok (py "ℹ️ No server is currently running."))
  /\ _server_process (agent_of r) = None
  /\ _serve_stop env (agent_of r) (world_of r) =
     (Ok (py "ℹ️ No server is currently running."), agent_of r, world_of r).
Proof.
  intros r.
  assert (H : (value_of r = Ok (py "✅ Server stopped.")
               \/ value_of r = Ok (py "ℹ️ No server is currently running."))
              /\ _server_process (agent_of r) = None).
  { unfold r, _serve_stop, bind, self.
    destruct (_server_process a) as [p |].
    - unfold call. destruct (poll_is_none env p w) as [running w1].
      destruct running; cbn [negb]; unfold update, ret, agent_of, value_of;
        cbn [fst snd _server_process with_server_process]; auto.
    - unfold ret, update, agent_of, value_of.
      cbn [negb fst snd _server_process with_server_process]. auto. }
  split; [exact (proj1 H) |]. split; [exact (proj2 H) |].
  apply serve_stop_eq_none. exact (proj2 H).
Qed.

(** X14. What [_serve_start] refuses: a blank folder, a folder that is
    not a directory, and a start while the process it holds still
    runs. Each refusal returns its message, spawns nothing and leaves
    the agent untouched. *)
Theorem serve_start_refusals (folder : pystr) (port : Z) (a : Agent)
    (w : World) :
  let cleaned := strip_char 39 (strip_char 34 (py_strip folder)) in
  (is_empty cleaned = true ->
   _serve_start env (PStr folder) port a w =
   (Ok (py "❌ Usage: /serve <folder> [port]"), a, w))
  /\ (forall w1,
        is_empty cleaned = false ->
        isdir env cleaned w = (false, w1) ->
        _serve_start env (PStr folder) port a w =
        (Ok (py "❌ Folder not found: " ++ cleaned), a, w1))
  /\ (forall p w1 w2,
        is_empty cleaned = false ->
        isdir env cleaned w = (true, w1) ->
        _server_process a = Some p ->
        poll_is_none env p w1 = (true, w2) ->
        _serve_start env (PStr folder) port a w =
        (Ok (py "❌ A server is already running. Use /serve stop first."),
         a, w2)).
Proof.
  intros cleaned.
  assert (Hor : py_or (PStr folder) (PStr []) = PStr folder
                \/ folder = []).
  { destruct folder; [right; reflexivity | left; reflexivity]. }
  assert (Hstart : forall k : pystr -> M World pystr,
            match py_or (PStr folder) (PStr []) with
            | PStr f => k f
            | v => raise (no_attribute v (py "strip"))
            end = k folder).
  { intros k. destruct folder; reflexivity. }
  unfold _serve_start. rewrite Hstart. cbv zeta. fold cleaned.
  split; [| split].
  - intros He. rewrite He. reflexivity.
  - intros w1 He Hd. rewrite He. unfold bind, call. rewrite Hd. reflexivity.
  - intros p w1 w2 He Hd Hp Hpoll. rewrite He.
    unfold bind, call, self. rewrite Hd. cbn [negb]. rewrite Hp, Hpoll.
    reflexivity.
Qed.

(** X15. [rag_query] never raises and never changes the agent; the
    documents it returns all count as true; and when retrieval is
    disabled, the store is missing or the query is blank it returns
    the empty list without calling anything. *)
Theorem rag_query_is_safe (query : option pystr) (k : Z) (a : Agent)
    (w : World) :
  (exists docs w',
     rag_query env query k a w = (Ok docs, a, w')
     /\ forallb truthy docs = true)
  /\ (rag_enabled a = false \/ _chroma_collection a = None
      \/ forallb is_space (or_empty query) = true ->
      rag_query env query k a w = (Ok [], a, w)).
Proof.
  split.
  - unfold rag_query, bind, self.
    destruct (rag_enabled a); cbn [negb]; [| exists [], w; auto].
    destruct (_chroma_collection a) as [coll |]; [| exists [], w; auto].
    cbv zeta.
    destruct (is_empty (py_strip (or_empty query))) eqn:Eq;
      [exists [], w; auto |].
    unfold _ollama_embed. cbv zeta. cbn [or_empty].
    rewrite py_strip_idem, Eq.
    unfold bind, self, call.
    destruct (ollama_embed env (rag_embed_model a)
                (py_strip (or_empty query)) w) as [emb w1].
    destruct (truthy emb); cbn [negb]; [| exists [], w1; auto].
    unfold try_except, bind, call_exc.
    destruct (chroma_query env coll emb _ w1) as [[docs | e] w2].
    + exists (filter truthy docs), w2. split; [reflexivity |].
      apply forallb_forall. intros x Hx. apply filter_In in Hx. tauto.
    + exists [], w2. auto.
  - intros Hcase. unfold rag_query, bind, self.
    destruct (rag_enabled a); cbn [negb]; [| reflexivity].
    destruct (_chroma_collection a) as [coll |]; [| reflexivity].
    destruct Hcase as [Hc | [Hc | Hc]]; try discriminate Hc.
    cbv zeta. rewrite (py_strip_all_space _ Hc). reflexivity.
Qed.

(** X16. [rag_add] always returns a text and never changes the agent; when
    retrieval is disabled, the store is missing or the text is blank
    it returns its message without calling anything. *)
Theorem rag_add_is_safe (text : option pystr) (meta : dict) (a : Agent)
    (w : World) :
  (exists out w', rag_add env text meta a w = (Ok out, a, w'))
  /\ (rag_enabled a = false ->
      rag_add env text meta a w =
      (Ok (py "ℹ️ RAG memory is disabled."), a, w))
  /\ (rag_enabled a = true -> _chroma_collection a = None ->
      rag_add env text meta a w =
      (Ok (py "❌ ChromaDB is not available. Install dependencies and restart."),
       a, w))
  /\ (forall coll,
        rag_enabled a = true -> _chroma_collection a = Some coll ->
        forallb is_space (or_empty text) = true ->
        rag_add env text meta a w =
        (Ok (py "❌ Usage: /remember <text>"), a, w)).
Proof.
  split; [| split; [| split]].
  - unfold rag_add, bind, self.
    destruct (rag_enabled a); cbn [negb]; [| eexists _, w; reflexivity].
    destruct (_chroma_collection a) as [coll |];
      [| eexists _, w; reflexivity].
    cbv zeta.
    destruct (is_empty (py_strip (or_empty text))) eqn:Eq;
      [eexists _, w; reflexivity |].
    unfold _ollama_embed. cbv zeta. cbn [or_empty].
    rewrite py_strip_idem, Eq.
    unfold bind, self, call.
    destruct (ollama_embed env (rag_embed_model a) _ w) as [emb w1].
    destruct (truthy emb); cbn [negb]; [| eexists _, w1; reflexivity].
    unfold try_except, bind, call_exc.
    destruct (chroma_add env coll _ emb meta w1) as [[[] | e] w2];
      eexists _, w2; reflexivity.
  - intros Hd. unfold rag_add, bind, self. rewrite Hd. reflexivity.
  - intros He Hc. unfold rag_add, bind, self. rewrite He, Hc. reflexivity.
  - intros coll He Hc Hb. unfold rag_add, bind, self. rewrite He, Hc.
    cbv zeta. rewrite (py_strip_all_space _ Hb). reflexivity.
Qed.

End Services.

(* ================================================================== *)
(** * The directives of the pending command *)

Section GateDirectives.

Context {B : PyBuiltins}.
Variable World : Type.

Ltac decide_test :=
  repeat match goal with
  | |- context [str_in (py ?p ++ ?rest) ?l] =>
    replace (str_in (py p ++ rest) l) with false by (vm_compute; reflexivity)
  | |- context [startswith (py ?p ++ ?rest) (py ?q)] =>
    (replace (startswith (py p ++ rest) (py q)) with false
       by (vm_compute; reflexivity))
    || (replace (startswith (py p ++ rest) (py q)) with true
          by (vm_compute; reflexivity))
  | |- context [str_eqb (py ?p ++ ?rest) (py ?q)] =>
    replace (str_eqb (py p ++ rest) (py q)) with false
      by (vm_compute; reflexivity)
  end.

(** An input that lower-cases to [/run ...] reaches the [/run]
    branch. *)
Lemma route_run (env : Env World) (user_input rest : pystr) :
  py_lower (py_strip user_input) = py "/run " ++ rest ->
  route env user_input =
  (let cmd := py_strip (slice_from 5 (py_strip user_input)) in
   if is_empty cmd then respond env (ret (py "❌ Usage: /run <command>"))
   else if _is_command_allowed (Some cmd) then
     respond env (run_command env (PStr cmd))
   else respond env (_queue_command cmd (py "Not in safe allowlist"))).
Proof.
  intros H. unfold route. cbv zeta. rewrite H.
  decide_test. reflexivity.
Qed.

Lemma route_confirm (env : Env World) (user_input : pystr) :
  py_lower (py_strip user_input) = py "/confirm" ->
  route env user_input = respond env (_confirm_command env).
Proof.
  intros H. unfold route. cbv zeta. rewrite H. reflexivity.
Qed.

Lemma route_cancel (env : Env World) (user_input : pystr) :
  py_lower (py_strip user_input) = py "/cancel" ->
  route env user_input = respond env (@_cancel_command World).
Proof.
  intros H. unfold route. cbv zeta. rewrite H. reflexivity.
Qed.

Variable env : Env World.

Lemma respond_ok (e : Env World) (m : M World pystr) (out : pystr)
    (a a' : Agent) (w w' : World) :
  m a w = (Ok out, a', w') ->
  respond e m a w =
  (Ok out, agent_of (_append_history e (py "assistant") out a' w'),
   world_of (_append_history e (py "assistant") out a' w')).
Proof.
  intros H. unfold respond. unfold bind at 1. rewrite H. reflexivity.
Qed.

Lemma process_request_recorded (e : Env World) (user_input : pystr)
    (a : Agent) (w : World) :
  process_request e user_input a w =
  try_except (route e user_input)
    (fun x => ret (py "❌ Error processing request: " ++ x))
    (agent_of (remember e (py "last_request") user_input
                 (agent_of (_append_history e (py "user") user_input a w))
                 (world_of (_append_history e (py "user") user_input a w))))
    (world_of (remember e (py "last_request") user_input
                 (agent_of (_append_history e (py "user") user_input a w))
                 (world_of (_append_history e (py "user") user_input a w)))).
Proof. reflexivity. Qed.

Lemma queue_command_eq (command reason : pystr) (a : Agent) (w : World) :
  _queue_command command reason a w =
  (Ok (confirmation_text command reason),
   with_pending a (Some command) (Some reason), w).
Proof. unfold _queue_command, confirmation_text. reflexivity. Qed.

Lemma append_history_indep (f : pyval -> World -> run_outcome * World)
    (role content : pystr) (a : Agent) (w : World) :
  _append_history (with_subprocess_run env f) role content a w =
  _append_history env role content a w.
Proof. reflexivity. Qed.

Lemma remember_indep (f : pyval -> World -> run_outcome * World)
    (key value : pystr) (a : Agent) (w : World) :
  remember (with_subprocess_run env f) key value a w =
  remember env key value a w.
Proof. reflexivity. Qed.

Lemma respond_indep (f : pyval -> World -> run_outcome * World)
    (m : M World pystr) (a : Agent) (w : World) :
  respond (with_subprocess_run env f) m a w = respond env m a w.
Proof. reflexivity. Qed.

Lemma append_history_pending (e : Env World) (role content : pystr)
    (a : Agent) (w : World) :
  _pending_command (agent_of (_append_history e role content a w)) =
    _pending_command a
  /\ _pending_command_reason
       (agent_of (_append_history e role content a w)) =
     _pending_command_reason a.
Proof. rewrite append_history_eq. split; reflexivity. Qed.

Lemma remember_pending (e : Env World) (key value : pystr)
    (a : Agent) (w : World) :
  _pending_command (agent_of (remember e key value a w)) =
    _pending_command a
  /\ _pending_command_reason (agent_of (remember e key value a w)) =
     _pending_command_reason a.
Proof. split; reflexivity. Qed.

(** X17. A [/run] request whose command is not on the allow-list is not
    executed: the command (stripped) becomes the pending command with
    the reason [Not in safe allowlist], the confirmation prompt is
    returned, and the outcome does not depend on what running a
    command would do. *)
Theorem run_request_refused (user_input rest : pystr) (a : Agent)
    (w : World) :
  let cmd := py_strip (slice_from 5 (py_strip user_input)) in
  py_lower (py_strip user_input) = py "/run " ++ rest ->
  is_empty cmd = false ->
  _is_command_allowed (Some cmd) = false ->
  let r := process_request env user_input a w in
  value_of r = Ok (confirmation_text cmd (py "Not in safe allowlist"))
  /\ _pending_command (agent_of r) = Some cmd
  /\ _pending_command_reason (agent_of r) = Some (py "Not in safe allowlist")
  /\ (forall f,
        process_request (with_subprocess_run env f) user_input a w = r).
Proof.
  intros cmd H Hne Hna r.
  assert (Hr : forall e : Env World,
            process_request e user_input a w =
            try_except
              (respond e (_queue_command cmd (py "Not in safe allowlist")))
              (fun x => ret (py "❌ Error processing request: " ++ x))
              (agent_of (remember e (py "last_request") user_input
                 (agent_of (_append_history e (py "user") user_input a w))
                 (world_of (_append_history e (py "user") user_input a w))))
              (world_of (remember e (py "last_request") user_input
                 (agent_of (_append_history e (py "user") user_input a w))
                 (world_of (_append_history e (py "user") user_input a w))))).
  { intros e. rewrite process_request_recorded.
    rewrite (route_run e user_input rest H). cbv zeta.
    fold cmd. rewrite Hne, Hna. reflexivity. }
  assert (Hout : forall e : Env World,
            process_request e user_input a w =
            (Ok (confirmation_text cmd (py "Not in safe allowlist")),
             agent_of (_append_history e (py "assistant")
               (confirmation_text cmd (py "Not in safe allowlist"))
               (with_pending
                  (agent_of (remember e (py "last_request") user_input
                     (agent_of (_append_history e (py "user") user_input a w))
                     (world_of (_append_history e (py "user") user_input a w))))
                  (Some cmd) (Some (py "Not in safe allowlist")))
               (world_of (remember e (py "last_request") user_input
                  (agent_of (_append_history e (py "user") user_input a w))
                  (world_of (_append_history e (py "user") user_input a w))))),
             world_of (_append_history e (py "assistant")
               (confirmation_text cmd (py "Not in safe allowlist"))
               (with_pending
                  (agent_of (remember e (py "last_request") user_input
                     (agent_of (_append_history e (py "user") user_input a w))
                     (world_of (_append_history e (py "user") user_input a w))))
                  (Some cmd) (Some (py "Not in safe allowlist")))
               (world_of (remember e (py "last_request") user_input
                  (agent_of (_append_history e (py "user") user_input a w))
                  (world_of (_append_history e (py "user") user_input a w))))))).
  { intros e. rewrite Hr. unfold try_except.
    rewrite (respond_ok e _ _ _ _ _ _ (queue_command_eq _ _ _ _)).
    reflexivity. }
  unfold r.
  split; [rewrite Hout; reflexivity |].
  split.
  { rewrite Hout. unfold agent_of at 1. cbn [fst snd].
    rewrite (proj1 (append_history_pending env _ _ _ _)). reflexivity. }
  split.
  { rewrite Hout. unfold agent_of at 1. cbn [fst snd].
    rewrite (proj2 (append_history_pending env _ _ _ _)). reflexivity. }
  intros f. rewrite !Hout.
  rewrite !append_history_indep, !remember_indep.
  reflexivity.
Qed.

(** X19. A [/cancel] request never runs a command: its outcome does not
    depend on what running a command would do, nothing is pending
    after it, and its answer is the cancellation text when something
    was pending and the no-pending-command text otherwise. *)
Theorem cancel_request_discards (user_input : pystr) (a : Agent)
    (w : World) :
  py_lower (py_strip user_input) = py "/cancel" ->
  let r := process_request env user_input a w in
  truthy_opt (_pending_command (agent_of r)) = false
  /\ value_of r =
     Ok (if truthy_opt (_pending_command a)
         then py "✅ Pending command canceled." else no_pending)
  /\ (forall f,
        process_request (with_subprocess_run env f) user_input a w = r).
Proof.
  intros H r.
  assert (Hr : forall e : Env World,
            process_request e user_input a w =
            try_except (respond e (@_cancel_command World))
              (fun x => ret (py "❌ Error processing request: " ++ x))
              (agent_of (remember e (py "last_request") user_input
                 (agent_of (_append_history e (py "user") user_input a w))
                 (world_of (_append_history e (py "user") user_input a w))))
              (world_of (remember e (py "last_request") user_input
                 (agent_of (_append_history e (py "user") user_input a w))
                 (world_of (_append_history e (py "user") user_input a w))))).
  { intros e. rewrite process_request_recorded.
    rewrite (route_cancel e user_input H). reflexivity. }
  split; [| split].
  - unfold r. rewrite Hr.
    set (a2 := agent_of (remember env (py "last_request") user_input _ _)).
    set (w2 := world_of (remember env (py "last_request") user_input _ _)).
    assert (Hp : _pending_command a2 = _pending_command a) by reflexivity.
    unfold try_except.
    destruct (truthy_opt (_pending_command a)) eqn:Et.
    + rewrite (respond_ok env _ _ a2 _ w2 _
                 (cancel_with_pending World a2 w2
                    ltac:(rewrite Hp; exact Et))).
      reflexivity.
    + rewrite (respond_ok env _ _ a2 _ w2 _
                 (cancel_without_pending World a2 w2
                    ltac:(rewrite Hp; exact Et))).
      unfold agent_of. cbn [fst snd].
      change (truthy_opt (_pending_command a2) = false).
      rewrite Hp. exact Et.
  - unfold r. rewrite Hr.
    set (a2 := agent_of (remember env (py "last_request") user_input _ _)).
    set (w2 := world_of (remember env (py "last_request") user_input _ _)).
    assert (Hp : _pending_command a2 = _pending_command a) by reflexivity.
    unfold try_except.
    destruct (truthy_opt (_pending_command a)) eqn:Et.
    + rewrite (respond_ok env _ _ a2 _ w2 _
                 (cancel_with_pending World a2 w2
                    ltac:(rewrite Hp; exact Et))).
      reflexivity.
    + rewrite (respond_ok env _ _ a2 _ w2 _
                 (cancel_without_pending World a2 w2
                    ltac:(rewrite Hp; exact Et))).
      reflexivity.
  - intros f. unfold r. rewrite !Hr. reflexivity.
Qed.

(** X20. A [/confirm] request with a pending command runs that command,
    in a state where nothing is pending any more, and answers with
    what the run returned; nothing is pending afterwards. *)
Theorem confirm_request_runs_pending (user_input cmd : pystr) (a : Agent)
    (w : World) :
  py_lower (py_strip user_input) = py "/confirm" ->
  _pending_command a = Some cmd ->
  is_empty cmd = false ->
  let r := process_request env user_input a w in
  let r0 := remember env (py "last_request") user_input
              (agent_of (_append_history env (py "user") user_input a w))
              (world_of (_append_history env (py "user") user_input a w)) in
  value_of r =
    value_of (run_command env (PStr cmd)
                (with_pending (agent_of r0) None None) (world_of r0))
  /\ _pending_command (agent_of r) = None
  /\ _pending_command_reason (agent_of r) = None.
Proof.
  intros H Hp Hne r r0.
  unfold r. rewrite process_request_recorded.
  rewrite (route_confirm env user_input H). fold r0.
  assert (Hp0 : _pending_command (agent_of r0) = Some cmd) by exact Hp.
  pose proof (confirm_with_pending World env cmd (agent_of r0) (world_of r0)
                Hp0 Hne) as Hc.
  destruct (run_command_returns World env (PStr cmd)
              (with_pending (agent_of r0) None None) (world_of r0))
    as [out [w' Hrun]].
  rewrite Hrun in Hc |- *.
  unfold try_except. rewrite (respond_ok env _ _ _ _ _ _ Hc).
  repeat split.
Qed.

(** X18. A [/run] request whose command is on the allow-list runs it at
    once: the answer is what [run_command] returns for the stripped
    command, in the state the recording of the request left, and the
    pending command is left as it was. *)
Theorem run_request_allowed (user_input rest : pystr) (a : Agent)
    (w : World) :
  let cmd := py_strip (slice_from 5 (py_strip user_input)) in
  py_lower (py_strip user_input) = py "/run " ++ rest ->
  is_empty cmd = false ->
  _is_command_allowed (Some cmd) = true ->
  let r := process_request env user_input a w in
  let r0 := remember env (py "last_request") user_input
              (agent_of (_append_history env (py "user") user_input a w))
              (world_of (_append_history env (py "user") user_input a w)) in
  value_of r =
    value_of (run_command env (PStr cmd) (agent_of r0) (world_of r0))
  /\ _pending_command (agent_of r) = _pending_command a
  /\ _pending_command_reason (agent_of r) = _pending_command_reason a.
Proof.
  intros cmd H Hne Hal r r0.
  unfold r. rewrite process_request_recorded.
  rewrite (route_run env user_input rest H). cbv zeta.
  fold cmd. rewrite Hne, Hal. fold r0.
  destruct (run_command_returns World env (PStr cmd) (agent_of r0)
              (world_of r0)) as [out [w' Hrun]].
  unfold try_except. rewrite (respond_ok env _ _ _ _ _ _ Hrun).
  rewrite Hrun.
  split; [reflexivity |].
  split.
  - unfold agent_of at 1. cbn [fst snd].
    rewrite (proj1 (append_history_pending env _ _ _ _)). reflexivity.
  - unfold agent_of at 1. cbn [fst snd].
    rewrite (proj2 (append_history_pending env _ _ _ _)). reflexivity.
Qed.

End GateDirectives.

(* ================================================================== *)
(** * Extracting a code block *)

Lemma startswith_iff (s p : pystr) :
  startswith s p = true <-> exists r, s = p ++ r.
Proof.
  revert s. induction p as [| c p IH]; intros s; simpl.
  - split; [intros _; exists s; reflexivity | reflexivity].
  - destruct s as [| d s].
    + split; [discriminate | intros [r H]; discriminate].
    + rewrite andb_true_iff, N.eqb_eq, IH. split.
      * intros [-> [r ->]]. exists r. reflexivity.
      * intros [r H]. injection H as -> ->. split; [reflexivity | exists r; reflexivity].
Qed.

(** What [find_at] finds is an occurrence, and no occurrence starts
    before it. *)
Lemma find_at_some (s sub : pystr) (i j : nat) :
  find_at s sub i = Some j ->
  exists pre post,
    s = pre ++ post /\ j = i + List.length pre
    /\ startswith post sub = true
    /\ forall u v, pre = u ++ v -> v <> [] ->
         startswith (v ++ post) sub = false.
Proof.
  revert i j. induction s as [| c s IH]; intros i j; cbn [find_at].
  - destruct (startswith [] sub) eqn:E; [| discriminate].
    intros H. injection H as <-. exists [], []. repeat split.
    + simpl. lia.
    + exact E.
    + intros u v Huv Hv. destruct u; destruct v; try discriminate.
      congruence.
  - destruct (startswith (c :: s) sub) eqn:E.
    + intros H. injection H as <-. exists [], (c :: s). repeat split.
      * simpl. lia.
      * exact E.
      * intros u v Huv Hv. destruct u; destruct v; try discriminate.
        congruence.
    + intros H. destruct (IH _ _ H) as [pre [post [-> [-> [Hp Hmin]]]]].
      exists (c :: pre), post. repeat split.
      * simpl. lia.
      * exact Hp.
      * intros u v Huv Hv. destruct u as [| d u].
        -- simpl in Huv. subst v. exact E.
        -- injection Huv as -> ->. apply (Hmin u v eq_refl Hv).
Qed.

Lemma find_at_contains (s sub : pystr) (i j : nat) :
  find_at s sub i = Some j -> contains s sub.
Proof.
  intros H. destruct (find_at_some s sub i j H)
    as [pre [post [-> [_ [Hp _]]]]].
  apply startswith_iff in Hp. destruct Hp as [r ->].
  exists pre, r. reflexivity.
Qed.

Lemma py_find_contains (s sub : pystr) (start j : nat) :
  py_find s sub start = Some j -> contains s sub.
Proof.
  unfold py_find. destruct (Nat.ltb _ _); [discriminate |].
  intros H. apply find_at_contains in H. destruct H as [u [v H]].
  exists (firstn start s ++ u), v.
  rewrite <- (firstn_skipn start s) at 1. rewrite H, <- app_assoc.
  reflexivity.
Qed.

Lemma contains_infix (s l x r sub : pystr) :
  s = l ++ x ++ r -> contains x sub -> contains s sub.
Proof.
  intros -> [u [v ->]]. exists (l ++ u), (v ++ r).
  rewrite <- !app_assoc. reflexivity.
Qed.

Lemma lstrip_suffix (s : pystr) : exists l, s = l ++ lstrip s.
Proof.
  induction s as [| c s [l IH]]; simpl.
  - exists []. reflexivity.
  - destruct (is_space c).
    + exists (c :: l). simpl. rewrite <- IH. reflexivity.
    + exists []. reflexivity.
Qed.

Lemma rstrip_prefix (s : pystr) : exists r, s = rstrip s ++ r.
Proof.
  unfold rstrip. destruct (lstrip_suffix (rev s)) as [l H].
  exists (rev l). rewrite <- rev_app_distr, <- H, rev_involutive.
  reflexivity.
Qed.

Lemma py_strip_infix (s : pystr) : exists l r, s = l ++ py_strip s ++ r.
Proof.
  unfold py_strip. destruct (lstrip_suffix s) as [l Hl].
  destruct (rstrip_prefix (lstrip s)) as [r Hr].
  exists l, r. rewrite <- Hr. exact Hl.
Qed.

(** The text before the first occurrence holds no occurrence. *)
Lemma before_first_occurrence (pre post sub : pystr) :
  sub <> [] ->
  (forall u v, pre = u ++ v -> v <> [] ->
     startswith (v ++ post) sub = false) ->
  ~ contains pre sub.
Proof.
  intros Hsub Hmin [u [v H]].
  assert (Hs : startswith ((sub ++ v) ++ post) sub = true).
  { apply startswith_iff. exists (v ++ post). rewrite app_assoc.
    reflexivity. }
  rewrite (Hmin u (sub ++ v) H) in Hs; [discriminate |].
  destruct sub; [congruence | discriminate].
Qed.

Lemma firstn_length_app {A : Type} (l r : list A) :
  firstn (List.length l) (l ++ r) = l.
Proof.
  induction l as [| x l IH]; simpl; [destruct r; reflexivity |].
  rewrite IH. reflexivity.
Qed.

(** X21. What [extract_code_content] returns holds no code fence and has
    no white space at its ends; when the text holds no fence at all
    the result is empty. *)
Theorem extract_code_content_is_clean (response_text language : pystr) :
  let code := extract_code_content response_text language in
  ~ contains code fence
  /\ py_find code fence 0 = None
  /\ py_strip code = code
  /\ (~ contains response_text fence -> code = []).
Proof.
  intros code.
  assert (Hnil : ~ contains [] fence).
  { intros [u [v H]]. destruct u; discriminate H. }
  assert (Hno : ~ contains code fence).
  { unfold code, extract_code_content. cbv zeta.
    destruct (py_find response_text (fence ++ language) 0); [| exact Hnil].
    destruct (py_find response_text nl n) as [m |]; [| exact Hnil].
    destruct (py_find response_text fence (S m)) as [e |] eqn:E;
      [| exact Hnil].
    unfold py_find in E.
    destruct (Nat.ltb _ _); [discriminate |].
    destruct (find_at_some _ _ _ _ E) as [pre [post [Hs [-> [_ Hmin]]]]].
    rewrite Hs.
    replace (S m + List.length pre - S m) with (List.length pre) by lia.
    rewrite firstn_length_app.
    intros Hc.
    destruct (py_strip_infix pre) as [l [r Hpre]].
    apply (before_first_occurrence pre post fence);
      [discriminate | exact Hmin |].
    exact (contains_infix pre l (py_strip pre) r fence Hpre Hc). }
  split; [exact Hno |]. split; [| split].
  - destruct (py_find code fence 0) eqn:E; [| reflexivity].
    exfalso. exact (Hno (py_find_contains _ _ _ _ E)).
  - unfold code, extract_code_content. cbv zeta.
    destruct (py_find response_text (fence ++ language) 0); [| reflexivity].
    destruct (py_find response_text nl n) as [m |]; [| reflexivity].
    destruct (py_find response_text fence (S m)) as [e |]; [| reflexivity].
    apply py_strip_idem.
  - intros Hnone. unfold code, extract_code_content. cbv zeta.
    destruct (py_find response_text (fence ++ language) 0) eqn:E;
      [| reflexivity].
    exfalso. apply Hnone.
    destruct (py_find_contains _ _ _ _ E) as [u [v H]].
    exists u, (language ++ v). rewrite H, <- !app_assoc. reflexivity.
Qed.

(** ** A fenced block is read back *)

Lemma find_at_here (s sub : pystr) (i : nat) :
  startswith s sub = true -> find_at s sub i = Some i.
Proof.
  intros H. destruct s; cbn [find_at]; rewrite H; reflexivity.
Qed.

(** The search passes over a text that lacks the first character of
    what is searched. *)
Lemma find_at_skip (pre post sub : pystr) (c0 : N) (i : nat) :
  lacks c0 pre = true ->
  find_at (pre ++ post) (c0 :: sub) i =
  find_at post (c0 :: sub) (i + List.length pre).
Proof.
  revert i. induction pre as [| c pre IH]; intros i H.
  - cbn [app List.length]. rewrite Nat.add_0_r. reflexivity.
  - cbn [lacks forallb] in H. apply andb_true_iff in H.
    destruct H as [Hc Hpre].
    cbn [app find_at startswith List.length].
    apply negb_true_iff in Hc. rewrite Hc. cbn [andb].
    rewrite (IH (S i) Hpre). f_equal. lia.
Qed.

Lemma skipn_length_app {A : Type} (l r : list A) :
  skipn (List.length l) (l ++ r) = r.
Proof. induction l as [| x l IH]; [reflexivity | exact IH]. Qed.

Lemma py_find_app (pre post sub : pystr) :
  py_find (pre ++ post) sub (List.length pre) =
  find_at post sub (List.length pre).
Proof.
  unfold py_find.
  replace (Nat.ltb (List.length (pre ++ post)) (List.length pre)) with false.
  - rewrite skipn_length_app. reflexivity.
  - symmetry. apply Nat.ltb_ge. rewrite length_app. lia.
Qed.

Lemma fence_eq : fence = [96; 96; 96]%N.
Proof. vm_compute. reflexivity. Qed.

Lemma lacks_app (c0 : N) (s t : pystr) :
  lacks c0 (s ++ t) = lacks c0 s && lacks c0 t.
Proof. apply forallb_app. Qed.

Lemma find_at_skip_fence (pre post rest : pystr) (i : nat) :
  lacks 96 pre = true ->
  find_at (pre ++ post) (fence ++ rest) i =
  find_at post (fence ++ rest) (i + List.length pre).
Proof.
  intros H. rewrite fence_eq. cbn [app]. apply find_at_skip. exact H.
Qed.

(** X22. A fenced block is read back: when the text before the opening
    fence holds no back quote, the rest of the opening line holds no
    line break and the code holds no back quote, the result is the
    code, stripped, whatever follows the closing fence. *)
Theorem extract_code_content_round_trip
    (before language line code tail : pystr) :
  lacks 96 before = true ->
  lacks 10 (language ++ line) = true ->
  lacks 96 code = true ->
  extract_code_content
    (before ++ (fence ++ language) ++ line ++ nl ++ code ++ fence ++ tail)
    language = py_strip code.
Proof.
  intros Hb Hl Hc. unfold extract_code_content. cbv zeta.
  set (rest := line ++ nl ++ code ++ fence ++ tail).
  assert (H1 : py_find (before ++ (fence ++ language) ++ rest)
                 (fence ++ language) 0 = Some (List.length before)).
  { unfold py_find. cbn [Nat.ltb Nat.leb skipn].
    rewrite (find_at_skip_fence before _ language 0 Hb).
    apply find_at_here. apply startswith_app. }
  rewrite H1.
  assert (H2 : py_find (before ++ (fence ++ language) ++ rest) nl
                 (List.length before) =
               Some (List.length before
                     + List.length (fence ++ language ++ line))).
  { rewrite py_find_app. unfold rest.
    replace ((fence ++ language) ++ line ++ nl ++ code ++ fence ++ tail)
      with ((fence ++ language ++ line) ++ nl ++ code ++ fence ++ tail)
      by (rewrite <- !app_assoc; reflexivity).
    change nl with [10%N].
    rewrite (find_at_skip (fence ++ language ++ line) _ [] 10%N).
    - apply find_at_here. reflexivity.
    - rewrite lacks_app, Hl, fence_eq. reflexivity. }
  rewrite H2.
  set (n := List.length before + List.length (fence ++ language ++ line)).
  assert (Htext : before ++ (fence ++ language) ++ rest =
                  (before ++ (fence ++ language ++ line) ++ nl)
                  ++ code ++ fence ++ tail).
  { unfold rest. rewrite <- !app_assoc. reflexivity. }
  assert (Hn : S n = List.length
                       (before ++ (fence ++ language ++ line) ++ nl)).
  { unfold n. rewrite !length_app. change (List.length nl) with 1. lia. }
  rewrite Htext, Hn, py_find_app.
  rewrite <- (app_nil_r fence) at 2.
  rewrite (find_at_skip_fence code _ [] _ Hc).
  rewrite app_nil_r.
  rewrite find_at_here by apply startswith_app.
  rewrite skipn_length_app.
  replace (List.length (before ++ (fence ++ language ++ line) ++ nl)
           + List.length code
           - List.length (before ++ (fence ++ language ++ line) ++ nl))
    with (List.length code) by lia.
  rewrite firstn_length_app. reflexivity.
Qed.

(** A search that fails from the start means no occurrence. *)
Lemma find_at_none (s sub : pystr) (i : nat) :
  find_at s sub i = None -> ~ contains s sub.
Proof.
  revert i. induction s as [| c s IH]; intros i; cbn [find_at].
  - destruct (startswith [] sub) eqn:E; [discriminate |].
    intros _ [u [v H]].
    destruct u; [| discriminate H]. destruct sub; discriminate.
  - destruct (startswith (c :: s) sub) eqn:E; [discriminate |].
    intros Hn [u [v H]]. destruct u as [| d u].
    + cbn [app] in H. rewrite H, startswith_app in E. discriminate E.
    + injection H as _ H. apply (IH _ Hn). exists u, v. exact H.
Qed.

Lemma py_find_none (s sub : pystr) :
  py_find s sub 0 = None -> ~ contains s sub.
Proof. unfold py_find. cbn [Nat.ltb Nat.leb skipn]. apply find_at_none. Qed.

(* ================================================================== *)
(** * The properties on concrete runs

    The runs below use [ascii_builtins] and the scripted worlds. *)

Lemma is_command_allowed_witness :
  _is_command_allowed (Some (py "  DIR /s /b ")) = true
  /\ (forallb is_space (py "   ") = true /\
      _is_command_allowed (Some (py "   ")) = false).
Proof.
  split.
  - apply (proj2 (proj1 (is_command_allowed_iff_prefix (py "  DIR /s /b ")))).
    exists (py "dir"). split; [left; reflexivity | vm_compute; reflexivity].
  - split; [reflexivity |].
    apply (proj2 (proj2 (is_command_allowed_iff_prefix (py "   ")))).
    reflexivity.
Defined.

Example command_not_allowed :
  _is_command_allowed (Some (py "rm -rf /")) = false
  /\ _is_command_allowed (Some (py "directory")) = true
  /\ _is_command_allowed None = false.
Proof. vm_compute. repeat split. Qed.

(** Failing input of C2: a memory file that sets [max_history] to 0;
    three requests leave six entries in the history. *)
Example history_grows_with_zero_cap :
  let a := with_max_history fresh_agent 0 in
  let r := serve_requests env_chatty [py "one"; py "two"; py "three"] a [] in
  max_history (snd (fst r)) = 0%Z
  /\ List.length (chat_history (snd (fst r))) = 6.
Proof. vm_compute. split; reflexivity. Qed.

Example history_capped_at_two :
  let a := with_max_history fresh_agent 2 in
  let r := serve_requests env_chatty [py "one"; py "two"; py "three"] a [] in
  chat_history (snd (fst r)) =
  [history_entry (py "user") (py "three");
   history_entry (py "assistant") (py "primary answer")].
Proof. vm_compute. reflexivity. Qed.

(** Two refused [/run] requests: the second command is the pending
    one. *)
Example second_run_request_replaces_first :
  let r := serve_requests env_chatty
             [py "/run rm -rf build"; py "/run del notes.txt"]
             fresh_agent [] in
  _pending_command (snd (fst r)) = Some (py "del notes.txt")
  /\ _pending_command_reason (snd (fst r)) = Some (py "Not in safe allowlist").
Proof. vm_compute. split; reflexivity. Qed.

Lemma confirm_cancel_without_pending_witness :
  truthy_opt (_pending_command fresh_agent) = false
  /\ _confirm_command env_chatty fresh_agent [] = (Ok no_pending, fresh_agent, [])
  /\ _cancel_command fresh_agent ([] : Log) = (Ok no_pending, fresh_agent, []).
Proof.
  split; [reflexivity |].
  destruct (confirm_cancel_without_pending Log env_chatty fresh_agent [] 3
              eq_refl) as [H1 [H2 _]].
  split; [exact H1 | exact H2].
Defined.

Example hello_plan_through_process_request :
  value_of (process_request env_hello (py "say hello") fresh_agent []) =
  Ok (py "hello").
Proof. vm_compute. reflexivity. Qed.



(** The same plan as the planner's answer: it decodes, its execution
    raises, and the request is answered by the primary model. *)
Example number_reply_plan_through_process_request :
  json_loads number_reply_plan_text = Some (PDict number_reply_plan)
  /\ value_of (process_request
                 (scripted_env (Ok number_reply_plan_text)
                    (Ok (py "primary answer")) TimeoutExpired)
                 (py "make a file") fresh_agent []) =
     Ok (py "primary answer").
Proof. split; vm_compute; reflexivity. Qed.

Example broken_plan_through_process_request :
  value_of (process_request
              (scripted_env (Ok broken_plan_text) (Ok (py "primary answer"))
                 TimeoutExpired)
              (py "make a file") fresh_agent []) =
  Ok (str_concat [missing_path; nl; py "done"]).
Proof. vm_compute. reflexivity. Qed.

(** Counterexample to C7 as stated: the planner's plain text is not
    what the request returns. The planner says one thing, the primary
    model another, and the answer is the primary model's. *)
Lemma planner_text_is_not_the_reply :
  ~ (forall (B : PyBuiltins) (World : Type) (env : Env World)
       (user_input planned : pystr) (a : Agent) (w : World),
       valid_plan_json planned = false ->
       value_of (after_planning env user_input planned a w) = Ok planned).
Proof.
  intros H.
  specialize (H ascii_builtins Log env_chatty (py "tell me a joke")
                (py "Sure, here's your answer.") fresh_agent []).
  assert (Hv : value_of (after_planning env_chatty (py "tell me a joke")
                           (py "Sure, here's your answer.") fresh_agent []) =
               Ok (py "primary answer")) by (vm_compute; reflexivity).
  rewrite Hv in H.
  assert (Hn : valid_plan_json (py "Sure, here's your answer.") = false)
    by (vm_compute; reflexivity).
  specialize (H Hn). vm_compute in H. discriminate H.
Qed.

Example plain_text_through_process_request :
  value_of (process_request env_chatty (py "tell me a joke") fresh_agent []) =
  Ok (py "primary answer").
Proof. vm_compute. reflexivity. Qed.

Lemma non_plan_text_witness :
  startswith (py "Sure, here's your answer.") (py "{") = false
  /\ try_plan env_chatty (py "Sure, here's your answer.") fresh_agent [] =
     (Ok None, fresh_agent, [])
  /\ valid_plan_json (pyq "{`type`:`note`}") = false
  /\ try_plan env_chatty (pyq "{`type`:`note`}") fresh_agent [] =
     (Ok None, fresh_agent, []).
Proof.
  split; [reflexivity |]. split.
  - apply (non_plan_text_falls_through Log env_chatty (py "tell me a joke")
             (py "Sure, here's your answer.") fresh_agent []).
    left. reflexivity.
  - split; [vm_compute; reflexivity |].
    apply (non_plan_text_falls_through Log env_chatty (py "tell me a joke")
             (pyq "{`type`:`note`}") fresh_agent []).
    right. vm_compute. reflexivity.
Defined.

Lemma process_request_never_raises_witness :
  process_request_body env_down (py "hello") fresh_agent [] =
    (Raise (py "connection refused"),
     agent_of (process_request_body env_down (py "hello") fresh_agent []),
     world_of (process_request_body env_down (py "hello") fresh_agent []))
  /\ value_of (process_request env_down (py "hello") fresh_agent []) =
     Ok (py "❌ Error processing request: connection refused").
Proof.
  assert (Hbody : process_request_body env_down (py "hello") fresh_agent [] =
    (Raise (py "connection refused"),
     agent_of (process_request_body env_down (py "hello") fresh_agent []),
     world_of (process_request_body env_down (py "hello") fresh_agent [])))
    by (vm_compute; reflexivity).
  split; [exact Hbody |].
  destruct (process_request_never_raises Log env_down (py "hello")
              fresh_agent [] []) as [_ [Hraise _]].
  rewrite (Hraise _ _ _ Hbody). vm_compute. reflexivity.
Defined.

Lemma confirm_clears_witness :
  let a := with_pending fresh_agent (Some (py "rm -rf build"))
             (Some (py "Not in safe allowlist")) in
  _pending_command a = Some (py "rm -rf build")
  /\ is_empty (py "rm -rf build") = false
  /\ _confirm_command env_chatty a [] =
     (Ok (py "❌ Command timed out: rm -rf build"), fresh_agent,
      [py "run rm -rf build"]).
Proof.
  intros a. split; [reflexivity |]. split; [reflexivity |].
  destruct (confirm_clears_before_running Log env_chatty a []) as [H _].
  destruct (H (py "rm -rf build") eq_refl eq_refl) as [_ [_ [_ [Ht _]]]].
  rewrite (Ht [py "run rm -rf build"]); [reflexivity | vm_compute; reflexivity].
Defined.

Lemma set_model_blank_witness :
  forallb is_space (or_empty (Some (py "   "))) = true
  /\ set_model env_chatty (Some (py "   ")) fresh_agent [] =
     (Ok (py "❌ Usage: /model <model-name>"), fresh_agent, [])
  /\ set_planner_model env_chatty None fresh_agent [] =
     (Ok (py "❌ Usage: /planner <model-name>"), fresh_agent, []).
Proof.
  split; [reflexivity |]. split.
  - exact (proj1 (set_model_blank_changes_nothing Log env_chatty
                    (Some (py "   ")) fresh_agent [] eq_refl)).
  - exact (proj2 (set_model_blank_changes_nothing Log env_chatty
                    None fresh_agent [] eq_refl)).
Defined.

(* ================================================================== *)
(** * The further properties on concrete runs *)

Lemma process_request_history_bounded_witness :
  let a := with_max_history fresh_agent 2 in
  (0 < max_history a)%Z
  /\ (Z.of_nat (List.length
        (chat_history
           (snd (fst (serve_requests env_chatty
                        (py "one" :: [py "two"; py "three"]) a [])))))
      <= max_history a)%Z.
Proof.
  intros a.
  assert (H : (0 < max_history a)%Z) by reflexivity.
  split; [exact H |].
  exact (proj2 (process_request_history_bounded Log env_chatty (py "one")
                  [py "two"; py "three"] a [] H)).
Defined.

Lemma process_request_memory_frame_witness :
  let a := with_memory fresh_agent [(py "temperature", PInt 1)] in
  str_in (py "temperature") written_keys = false
  /\ dict_get
       (memory (agent_of (process_request env_chatty (py "hello") a [])))
       (py "temperature") = dict_get (memory a) (py "temperature").
Proof.
  intros a.
  assert (H : str_in (py "temperature") written_keys = false)
    by (vm_compute; reflexivity).
  split; [exact H |].
  exact (process_request_memory_frame Log env_chatty (py "hello")
           (py "temperature") a [] H).
Defined.

Lemma process_request_keeps_pending_witness :
  is_gate_directive (py "tell me a joke") = false
  /\ _pending_command
       (agent_of (process_request env_chatty (py "tell me a joke")
                    pending_agent [])) = _pending_command pending_agent.
Proof.
  assert (H : is_gate_directive (py "tell me a joke") = false)
    by (vm_compute; reflexivity).
  split; [exact H |].
  exact (proj1 (process_request_keeps_pending Log env_chatty
                  (py "tell me a joke") pending_agent [] H)).
Defined.

Lemma plan_command_runs_unchecked_witness :
  let d := [(py "tool", PStr (py "run_command"));
            (py "command", PStr (py "rm -rf build"))] in
  let plan := [(py "type", PStr (py "plan"));
               (py "actions", PList [PDict d])] in
  _is_command_allowed (Some (py "rm -rf build")) = false
  /\ _execute_plan env_chatty plan fresh_agent [] =
     run_command env_chatty (PStr (py "rm -rf build")) fresh_agent [].
Proof.
  intros d plan. split; [vm_compute; reflexivity |].
  refine (proj1 (plan_command_runs_unchecked Log env_chatty plan d
                   (py "rm -rf build") fresh_agent [] _ _ _ _));
    vm_compute; reflexivity.
Defined.

Lemma plan_stops_at_non_object_action_witness :
  let planned :=
    pyq "{`type`:`plan`,`actions`:[`oops`,{`tool`:`reply`,`text`:`done`}]}" in
  let post := [PDict [(py "tool", PStr (py "reply"));
                      (py "text", PStr (py "done"))]] in
  let plan := [(py "type", PStr (py "plan"));
               (py "actions", PList ([] ++ PStr (py "oops") :: post))] in
  json_loads planned = Some (PDict plan)
  /\ exists w',
       _execute_plan env_chatty plan fresh_agent [] =
       (Raise (no_attribute (PStr (py "oops")) (py "get")), fresh_agent, w')
       /\ after_planning env_chatty (py "go") planned fresh_agent [] =
          normal_response env_chatty (py "go") fresh_agent w'.
Proof.
  intros planned post plan.
  assert (Hj : json_loads planned = Some (PDict plan))
    by (vm_compute; reflexivity).
  split; [exact Hj |].
  destruct (plan_stops_at_non_object_action Log env_chatty (py "go") planned
              plan [] post (PStr (py "oops")) fresh_agent [])
    as [outputs [w' [_ [H1 H2]]]].
  - vm_compute; reflexivity.
  - reflexivity.
  - intros d H. discriminate H.
  - exists w'. split; [exact H1 |].
    apply H2; [vm_compute; reflexivity | exact Hj | vm_compute; reflexivity].
Defined.

Lemma plan_reports_invalid_actions_witness :
  let d := [(py "tool", PStr (py "fly"))] in
  let plan := [(py "type", PStr (py "plan"));
               (py "actions", PList ([] ++ PDict d :: []))] in
  exists out w',
    _execute_plan env_chatty plan fresh_agent [] = (Ok out, fresh_agent, w')
    /\ contains out (py "❌ Unknown tool in plan: " ++ py "fly").
Proof.
  intros d plan.
  apply (plan_reports_invalid_actions Log env_chatty plan d [] []
           (py "❌ Unknown tool in plan: " ++ py "fly") fresh_agent []).
  - vm_compute; reflexivity.
  - reflexivity.
  - right. right. exists (py "fly").
    split; [vm_compute; reflexivity |].
    split; [vm_compute; reflexivity | reflexivity].
Defined.

Lemma is_command_allowed_ignores_blanks_witness :
  forallb is_space (py "  ") = true
  /\ forallb is_space nl = true
  /\ _is_command_allowed (Some (py "  " ++ py "dir /s" ++ nl)) =
     _is_command_allowed (Some (py "dir /s")).
Proof.
  assert (H1 : forallb is_space (py "  ") = true) by (vm_compute; reflexivity).
  assert (H2 : forallb is_space nl = true) by (vm_compute; reflexivity).
  split; [exact H1 |]. split; [exact H2 |].
  exact (proj1 (is_command_allowed_ignores_blanks (py "  ") (py "dir /s") nl
                  H1 H2)).
Defined.

Lemma remember_then_lookup_witness :
  str_eqb (py "last_action") (py "chat_history") = false
  /\ dict_get
       (memory (agent_of (remember env_chatty (py "last_action")
                            (py "executed_plan") fresh_agent [])))
       (py "last_action") = Some (PStr (py "executed_plan")).
Proof.
  assert (H : str_eqb (py "last_action") (py "chat_history") = false)
    by (vm_compute; reflexivity).
  split; [exact H |].
  exact (proj1 (remember_then_lookup Log env_chatty (py "last_action")
                  (py "executed_plan") fresh_agent []) H).
Defined.

Lemma set_model_assigns_before_connecting_witness :
  is_empty (py_strip (py " llama3 ")) = false
  /\ model_name (agent_of (set_model env_chatty (Some (py " llama3 "))
                             fresh_agent [])) = py_strip (py " llama3 ")
  /\ (forall t w1,
        fst (chat_ollama env_no_ollama (py_strip (py " llama3 ")) t w1) =
        Raise (py "connection refused"))
  /\ value_of (set_model env_no_ollama (Some (py " llama3 ")) fresh_agent []) =
     Raise (py "connection refused")
  /\ model_name (agent_of (set_model env_no_ollama (Some (py " llama3 "))
                             fresh_agent [])) = py_strip (py " llama3 ").
Proof.
  assert (H : is_empty (py_strip (py " llama3 ")) = false)
    by (vm_compute; reflexivity).
  assert (Hdown : forall t w1,
            fst (chat_ollama env_no_ollama (py_strip (py " llama3 ")) t w1) =
            Raise (py "connection refused")) by (intros; reflexivity).
  pose proof (set_model_assigns_before_connecting Log env_chatty
                (py " llama3 ") fresh_agent [] H) as H1.
  pose proof (set_model_assigns_before_connecting Log env_no_ollama
                (py " llama3 ") fresh_agent [] H) as H2.
  cbv zeta in H1, H2.
  destruct H1 as [H1 _]. destruct H2 as [H2a [_ [_ [_ H2b]]]].
  split; [exact H |]. split; [exact H1 |]. split; [exact Hdown |].
  split; [exact (proj1 (H2b _ Hdown)) | exact H2a].
Defined.

Lemma serve_start_refusals_witness :
  _serve_start env_chatty (PStr (py "  ")) 8000 fresh_agent [] =
    (Ok (py "❌ Usage: /serve <folder> [port]"), fresh_agent, [])
  /\ _serve_start env_chatty (PStr (py "site")) 8000 fresh_agent [] =
     (Ok (py "❌ Folder not found: "
          ++ strip_char 39 (strip_char 34 (py_strip (py "site")))),
      fresh_agent, [])
  /\ _serve_start env_serving (PStr (py "site")) 8000 serving_agent [] =
     (Ok (py "❌ A server is already running. Use /serve stop first."),
      serving_agent, [py "isdir site"; py "poll"]).
Proof.
  split; [| split].
  - refine (proj1 (serve_start_refusals Log env_chatty (py "  ") 8000
                     fresh_agent []) _).
    vm_compute; reflexivity.
  - refine (proj1 (proj2 (serve_start_refusals Log env_chatty (py "site")
                            8000 fresh_agent [])) [] _ _);
      vm_compute; reflexivity.
  - refine (proj2 (proj2 (serve_start_refusals Log env_serving (py "site")
                            8000 serving_agent []))
              7%N [py "isdir site"] [py "isdir site"; py "poll"] _ _ _ _);
      vm_compute; reflexivity.
Defined.

Lemma rag_query_is_safe_witness :
  forallb is_space (or_empty (Some (py "  "))) = true
  /\ rag_query env_chatty (Some (py "  ")) 4 agent_with_store [] =
     (Ok [], agent_with_store, []).
Proof.
  assert (H : forallb is_space (or_empty (Some (py "  "))) = true)
    by (vm_compute; reflexivity).
  split; [exact H |].
  exact (proj2 (rag_query_is_safe Log env_chatty (Some (py "  ")) 4
                  agent_with_store [])
           (or_intror (or_intror H))).
Defined.

Lemma rag_add_is_safe_witness :
  forallb is_space (or_empty (Some (py "  "))) = true
  /\ rag_add env_chatty (Some (py "  ")) [] agent_with_store [] =
     (Ok (py "❌ Usage: /remember <text>"), agent_with_store, [])
  /\ rag_add env_chatty (Some (py "a fact")) [] fresh_agent [] =
     (Ok (py "❌ ChromaDB is not available. Install dependencies and restart."),
      fresh_agent, []).
Proof.
  assert (H : forallb is_space (or_empty (Some (py "  "))) = true)
    by (vm_compute; reflexivity).
  split; [exact H |]. split.
  - exact (proj2 (proj2 (proj2 (rag_add_is_safe Log env_chatty
                                  (Some (py "  ")) [] agent_with_store [])))
             1%N eq_refl eq_refl H).
  - exact (proj1 (proj2 (proj2 (rag_add_is_safe Log env_chatty
                                  (Some (py "a fact")) [] fresh_agent [])))
             eq_refl eq_refl).
Defined.

Lemma run_request_refused_witness :
  let cmd := py_strip (slice_from 5 (py_strip (py "/run rm -rf build"))) in
  py_lower (py_strip (py "/run rm -rf build")) = py "/run " ++ py "rm -rf build"
  /\ is_empty cmd = false
  /\ _is_command_allowed (Some cmd) = false
  /\ _pending_command
       (agent_of (process_request env_chatty (py "/run rm -rf build")
                    fresh_agent [])) = Some cmd.
Proof.
  intros cmd.
  assert (H1 : py_lower (py_strip (py "/run rm -rf build")) =
               py "/run " ++ py "rm -rf build") by (vm_compute; reflexivity).
  assert (H2 : is_empty cmd = false) by (vm_compute; reflexivity).
  assert (H3 : _is_command_allowed (Some cmd) = false)
    by (vm_compute; reflexivity).
  split; [exact H1 |]. split; [exact H2 |]. split; [exact H3 |].
  exact (proj1 (proj2 (run_request_refused Log env_chatty
                         (py "/run rm -rf build") (py "rm -rf build")
                         fresh_agent [] H1 H2 H3))).
Defined.

Lemma run_request_allowed_witness :
  let cmd := py_strip (slice_from 5 (py_strip (py "/run dir /s"))) in
  py_lower (py_strip (py "/run dir /s")) = py "/run " ++ py "dir /s"
  /\ is_empty cmd = false
  /\ _is_command_allowed (Some cmd) = true
  /\ _pending_command
       (agent_of (process_request env_chatty (py "/run dir /s")
                    pending_agent [])) = _pending_command pending_agent.
Proof.
  intros cmd.
  assert (H1 : py_lower (py_strip (py "/run dir /s")) =
               py "/run " ++ py "dir /s") by (vm_compute; reflexivity).
  assert (H2 : is_empty cmd = false) by (vm_compute; reflexivity).
  assert (H3 : _is_command_allowed (Some cmd) = true)
    by (vm_compute; reflexivity).
  split; [exact H1 |]. split; [exact H2 |]. split; [exact H3 |].
  exact (proj1 (proj2 (run_request_allowed Log env_chatty
                         (py "/run dir /s") (py "dir /s")
                         pending_agent [] H1 H2 H3))).
Defined.

Lemma cancel_request_discards_witness :
  py_lower (py_strip (py "/cancel")) = py "/cancel"
  /\ truthy_opt (_pending_command pending_agent) = true
  /\ truthy_opt
       (_pending_command
          (agent_of (process_request env_chatty (py "/cancel")
                       pending_agent []))) = false.
Proof.
  assert (H : py_lower (py_strip (py "/cancel")) = py "/cancel")
    by (vm_compute; reflexivity).
  split; [exact H |]. split; [vm_compute; reflexivity |].
  exact (proj1 (cancel_request_discards Log env_chatty (py "/cancel")
                  pending_agent [] H)).
Defined.

Lemma confirm_request_runs_pending_witness :
  py_lower (py_strip (py "/confirm")) = py "/confirm"
  /\ _pending_command pending_agent = Some (py "rm -rf build")
  /\ is_empty (py "rm -rf build") = false
  /\ _pending_command
       (agent_of (process_request env_chatty (py "/confirm")
                    pending_agent [])) = None.
Proof.
  assert (H1 : py_lower (py_strip (py "/confirm")) = py "/confirm")
    by (vm_compute; reflexivity).
  assert (H2 : _pending_command pending_agent = Some (py "rm -rf build"))
    by reflexivity.
  assert (H3 : is_empty (py "rm -rf build") = false)
    by (vm_compute; reflexivity).
  split; [exact H1 |]. split; [exact H2 |]. split; [exact H3 |].
  exact (proj1 (proj2 (confirm_request_runs_pending Log env_chatty
                         (py "/confirm") (py "rm -rf build")
                         pending_agent [] H1 H2 H3))).
Defined.

Lemma extract_code_content_is_clean_witness :
  ~ contains (py "no code here") fence
  /\ extract_code_content (py "no code here") (py "python") = [].
Proof.
  assert (H : ~ contains (py "no code here") fence)
    by (apply py_find_none; vm_compute; reflexivity).
  split; [exact H |].
  exact (proj2 (proj2 (proj2 (extract_code_content_is_clean
                                (py "no code here") (py "python")))) H).
Defined.

Lemma extract_code_content_round_trip_witness :
  let before := py "Here it is:" ++ nl in
  let code := py "print(1)" ++ nl in
  let tail := nl ++ py "Done." in
  py_strip code = py "print(1)"
  /\ extract_code_content
       (before ++ (fence ++ py "python") ++ [] ++ nl ++ code ++ fence ++ tail)
       (py "python") = py_strip code.
Proof.
  intros before code tail. split; [vm_compute; reflexivity |].
  refine (extract_code_content_round_trip before (py "python") [] code tail
            _ _ _); vm_compute; reflexivity.
Defined.
